(** * Loan_Api: the loan application workflow, its risk scoring and its
    status guard, embedded from [applications/models.py],
    [applications/services.py], [applications/serializers.py] and
    [applications/views.py].

    Conventions of the embedding:
    - Python dictionaries with string keys are [gmap string _]; the two
      database tables are [gmap Z _] from primary key to row.
    - Python numbers that may be [float] or [Decimal] (amounts, scores) are
      exact rationals [Q]; [round] is Python's round-half-to-even. The
      program computes sums and quotients in binary64 and stores amounts in
      a column of twelve digits: a statement about a value that the program
      rounds gives bounds, not the value, and a statement that a call
      returns carries the range of the amount as a hypothesis
      ([Py.float_in_range], [LoanApplication.amount_in_range]). Strings
      are ASCII.
    - A view runs in a state-and-exception monad over the database, the
      state of the global [random] generator and the list of the statements
      sent to the database; [transaction.atomic] restores the database when
      an exception leaves the wrapped view.
    - Library functions the source calls but does not define ([hashlib.md5],
      [random.seed], [random.randint], the formatting of an amount and of an
      instant) are the fields of the class [PyLib]; the network, the clock
      and the failures of the database are the fields of [Env].
    - Requests are those of a client that passes the permission class of the
      views; what the logger writes is not modelled. *)

From Stdlib Require Import ZArith QArith Qround Qminmax Lia Lqa String Ascii List.
From stdpp Require Import base strings gmap list.

Open Scope Z_scope.

(** ** Python helpers *)

Module Py.

(** [str.lower()] on ASCII text. *)
Definition lower_ascii (c : ascii) : ascii :=
  let n := nat_of_ascii c in
  if ((65 <=? n) && (n <=? 90))%nat then ascii_of_nat (n + 32) else c.

Fixpoint lower (s : string) : string :=
  match s with
  | EmptyString => EmptyString
  | String c s' => String (lower_ascii c) (lower s')
  end.

(** [sub in s] for strings. *)
Fixpoint contains (sub s : string) : bool :=
  String.prefix sub s ||
  match s with
  | EmptyString => false
  | String _ s' => contains sub s'
  end.

(** [any(d in s for d in ds)] *)
Definition any_in (ds : list string) (s : string) : bool :=
  existsb (fun d => contains d s) ds.

(** ASCII characters for which [str.isspace()] holds. *)
Definition isspace (c : ascii) : bool :=
  let n := nat_of_ascii c in
  (((9 <=? n) && (n <=? 13)) || ((28 <=? n) && (n <=? 32)))%nat.

(** [len(s.split())]: the number of maximal runs of non-blank characters.
    [in_token] tells whether the previous character belonged to a token. *)
Fixpoint count_tokens (in_token : bool) (s : string) : nat :=
  match s with
  | EmptyString => 0
  | String c s' =>
      if isspace c then count_tokens false s'
      else if in_token then count_tokens true s'
      else S (count_tokens true s')
  end.

Definition split_len (s : string) : nat := count_tokens false s.

(** Truthiness of a string and of an optional value ([None] is falsy). *)
Definition truthy_str (s : string) : bool :=
  match s with EmptyString => false | _ => true end.

Definition truthy_opt_str (o : option string) : bool :=
  match o with Some s => truthy_str s | None => false end.

Definition truthy_num (q : Q) : bool := negb (Qeq_bool q 0).

Definition truthy_opt_num (o : option Q) : bool :=
  match o with Some q => truthy_num q | None => false end.

Definition truthy_dict {V} (d : gmap string V) : bool :=
  negb (bool_decide (d = ∅)).

(** [round(x)]: nearest integer, ties to the even neighbour; on the exact
    value, where the program rounds the binary64 number it computed. *)
Definition round (x : Q) : Z :=
  let f := Qfloor x in
  match (x - inject_Z f ?= 1 # 2)%Q with
  | Lt => f
  | Gt => f + 1
  | Eq => if Z.even f then f else f + 1
  end.

(** [round(x, 2)], on the exact value as well. *)
Definition round2 (x : Q) : Q := Qred (inject_Z (round (x * 100)) / 100).

(** [min(a, b)] returns [a] unless [b < a]. *)
Definition min (a b : Q) : Q := if Qlt_le_dec b a then b else a.

(** [float(x)] returns for a number up to the largest binary64 number in
    magnitude; beyond it, [float] of an integer raises [OverflowError]. *)
Definition float_max : Q := inject_Z (2 ^ 1024 - 2 ^ 971).

Definition float_in_range (x : Q) : Prop := (- float_max <= x <= float_max)%Q.

(** Up to 2^53 in magnitude every integer is a binary64 number, which
    [float] converts without rounding. *)
Definition float_exact (x : Q) : Prop :=
  (- inject_Z (2 ^ 53) <= x <= inject_Z (2 ^ 53))%Q.

End Py.

(** ** Exceptions *)

Inductive exn : Type :=
  (* requests.exceptions *)
  | Timeout
  | ConnectionError
  | HTTPError (status_code : Z)
  | InvalidJSONError
  (* builtins *)
  | KeyError (key : string)
  | NameError (name : string)
  | ValueError
  (* django *)
  | Http404
  | MultipleObjectsReturned
  | DatabaseError.

(** [isinstance(e, requests.exceptions.RequestException)]: [Timeout],
    [ConnectionError], [HTTPError] and [InvalidJSONError] derive from it. *)
Definition is_RequestException (e : exn) : bool :=
  match e with
  | Timeout | ConnectionError | HTTPError _ | InvalidJSONError => true
  | _ => false
  end.

Inductive outcome (A : Type) : Type :=
  | Return (a : A)
  | Raise (e : exn).
Arguments Return {A} a.
Arguments Raise {A} e.

(** ** models.py *)

Inductive Status : Type :=
  | STATUS_PENDING
  | STATUS_APPROVED
  | STATUS_REJECTED
  | STATUS_MANUAL_REVIEW.

#[global] Instance Status_eq_dec : EqDecision Status.
Proof. solve_decision. Defined.

(** The stored value of each status. *)
Definition status_value (s : Status) : string :=
  match s with
  | STATUS_PENDING => "pending"
  | STATUS_APPROVED => "approved"
  | STATUS_REJECTED => "rejected"
  | STATUS_MANUAL_REVIEW => "manual_review"
  end.

Definition STATUS_CHOICES : list (Status * string) :=
  [ (STATUS_PENDING, "Pending");
    (STATUS_APPROVED, "Approved");
    (STATUS_REJECTED, "Rejected");
    (STATUS_MANUAL_REVIEW, "Manual Review") ].

Module Applicant.
Record t : Type := mk {
  name : string;
  email : string;
  phone : string;
  created_at : Z;
  updated_at : Z
}.
End Applicant.

Module LoanApplication.
Record t : Type := mk {
  applicant : Z;                       (* foreign key: the applicant's pk *)
  amount : Q;
  risk_score : option Q;               (* null=True *)
  status : Status;                     (* default=STATUS_PENDING *)
  external_reference : option string;  (* null=True *)
  created_at : Z;
  updated_at : Z
}.

(** [validators=[MinValueValidator(100)]] on [amount]: run by
    [full_clean()] and by model serializers, not by [save()]. *)
Definition amount_validator (a : Q) : bool := Qle_bool 100 a.

(** [DecimalField(max_digits=12, decimal_places=2)] on [amount]: the column
    takes an amount of at most ten digits before the point, and keeps two
    decimals of it. *)
Definition amount_in_range (a : Q) : Prop :=
  (- (999999999999 # 100) <= a <= 999999999999 # 100)%Q.

End LoanApplication.

(** A model instance in memory: its primary key and its fields. *)
Definition instance (A : Type) : Type := Z * A.

(** The two tables, from primary key to row, with their auto-increment
    counters. *)
Record DB : Type := mkDB {
  applicants : gmap Z Applicant.t;
  applications : gmap Z LoanApplication.t;
  next_applicant_id : Z;
  next_application_id : Z
}.

Definition empty_db : DB := mkDB ∅ ∅ 1 1.

(** ** Library functions used by the source *)

(** [random.seed] replaces the state of the module-level generator and
    [random.randint(a, b)] draws from it and advances it; the only property
    of the generator used below is the documented range of [randint]. *)
Class PyLib : Type := {
  rng_state : Type;
  random_seed : Z -> rng_state;
  random_randint : rng_state -> Z -> Z -> Z * rng_state;
  random_randint_range :
    forall g a b, a <= b -> a <= fst (random_randint g a b) <= b;
  (** [int(hashlib.md5(s.encode()).hexdigest()[:8], 16)] *)
  md5_hexdigest8 : string -> Z;
  (** the text of an amount inside an f-string *)
  format_amount : Q -> string;
  (** [datetime.isoformat()] of an instant *)
  isoformat : Z -> string
}.

(** ** The monad of views: database and generator state, exceptions *)

(** The statements a view sends to the database, oldest first. *)
Inductive sql : Type :=
  | INSERT_applicant (pk : Z)
  | UPDATE_applicant (pk : Z) (update_fields : list string)
  | INSERT_application (pk : Z)
  | UPDATE_application (pk : Z).

Record World `{PyLib} : Type := mkWorld {
  db : DB;
  rng : rng_state;
  log : list sql
}.
Arguments mkWorld {_} db rng log.

Definition M `{PyLib} (A : Type) : Type := World -> outcome A * World.

Section Monad.
Context `{PyLib}.

Definition ret {A} (a : A) : M A := fun w => (Return a, w).

Definition raise {A} (e : exn) : M A := fun w => (Raise e, w).

Definition bind {A B} (m : M A) (k : A -> M B) : M B :=
  fun w =>
    match m w with
    | (Return a, w') => k a w'
    | (Raise e, w') => (Raise e, w')
    end.

(** [try: m  except C as e: handler e], where [catches] tells the
    instances of the class [C]. *)
Definition try_except {A} (m : M A) (catches : exn -> bool)
    (handler : exn -> M A) : M A :=
  fun w =>
    match m w with
    | (Return a, w') => (Return a, w')
    | (Raise e, w') => if catches e then handler e w' else (Raise e, w')
    end.

(** [@transaction.atomic]: commit when the body returns, roll the database
    back when an exception leaves it. Neither the generator nor the list
    of statements sent is transactional. *)
Definition atomic {A} (m : M A) : M A :=
  fun w =>
    match m w with
    | (Return a, w') => (Return a, w')
    | (Raise e, w') => (Raise e, mkWorld (db w) (rng w') (log w'))
    end.

Definition get_db : M DB := fun w => (Return (db w), w).

(** Execute a statement: the new tables and the statement sent. *)
Definition execute (d : DB) (stmt : sql) : M unit :=
  fun w => (Return tt, mkWorld d (rng w) (log w ++ [stmt])).

(** [random.seed(n)] *)
Definition seed (n : Z) : M unit :=
  fun w => (Return tt, mkWorld (db w) (random_seed n) (log w)).

(** [random.randint(a, b)] *)
Definition randint (a b : Z) : M Z :=
  fun w =>
    let '(r, g) := random_randint (rng w) a b in
    (Return r, mkWorld (db w) g (log w)).
End Monad.

Notation "'do' x <~ m ;; k" := (bind m (fun x => k))
  (at level 10, x name, m at level 99, k at level 200, only parsing).
Notation "'do' ' p <~ m ;; k" := (bind m (fun x => match x with p => k end))
  (at level 10, p pattern, m at level 99, k at level 200, only parsing).

(** ** services.py *)

Record Settings : Type := mkSettings {
  DEBUG : bool;
  USE_REAL_RISK_API : option bool;     (* may be absent from the settings *)
  RISK_SERVICE_URL : string;
  RISK_SERVICE_API_KEY : string;
  RISK_SERVICE_TIMEOUT : Z
}.

(** What [requests.post] is called with (the request identifier, built from
    the per-process salted [hash], is left out). *)
Record PostRequest : Type := mkPostRequest {
  post_url : string;
  post_name : option string;
  post_email : option string;
  post_phone : option string;
  post_loan_amount : Q;
  post_authorization : string;
  post_timeout : Z;
  post_verify : bool
}.

(** A response that arrived: its status code and what [response.json()]
    does, which is to return the decoded object or to raise. *)
Record HttpResponse : Type := mkHttpResponse {
  status_code : Z;
  json : outcome (gmap string Q)
}.

(** The network: [requests.post] returns a response or raises. *)
Definition Network : Type := PostRequest -> outcome HttpResponse.

Module RiskScoringService.
Section Service.
Context `{PyLib}.
Variable settings : Settings.
Variable requests_post : Network.

(** [response.raise_for_status()] *)
Definition raise_for_status (response : HttpResponse) : outcome unit :=
  if (400 <=? status_code response) && (status_code response <? 600)
  then Raise (HTTPError (status_code response))
  else Return tt.

(** [float(loan_amount)] is taken to return here too, so that the post is
    always reached. *)
Definition _call_external_api (applicant_data : gmap string string)
    (loan_amount : Q) : outcome (gmap string Q) :=
  let request :=
    {| post_url := RISK_SERVICE_URL settings;
       post_name := applicant_data !! "name";
       post_email := applicant_data !! "email";
       post_phone := applicant_data !! "phone";
       post_loan_amount := loan_amount;
       post_authorization := "Bearer " ++ RISK_SERVICE_API_KEY settings;
       post_timeout := RISK_SERVICE_TIMEOUT settings;
       post_verify := true |} in
  match requests_post request with
  | Raise e => Raise e
  | Return response =>
      match raise_for_status response with
      | Raise e => Raise e
      | Return _ => json response
      end
  end.

(** Factor 2 of the mock score: the adjustment for the e-mail address. *)
Definition email_adjustment (email : string) : Q :=
  if Py.truthy_str email then
    if Py.any_in ["gmail.com"; "yahoo.com"; "hotmail.com"] email then 5%Q
    else if Py.any_in [".edu"; ".gov"; ".org"] email then (-8)%Q
    else 0%Q
  else 0%Q.

(** Factor 3 of the mock score: the adjustment for the name. *)
Definition name_adjustment (name : string) : Q :=
  if Py.truthy_str name && (2 <=? Py.split_len name)%nat then (-4)%Q else 0%Q.

(** [float(loan_amount)] is taken to return, as it does for every amount of
    [Py.float_in_range], and the sum is exact. *)
Definition _calculate_mock_score (applicant_data : gmap string string)
    (loan_amount : Q) : M Z :=
  let input_string :=
    (default "" (applicant_data !! "email") ++ format_amount loan_amount)%string in
  let deterministic_seed := md5_hexdigest8 input_string in
  do _ <~ seed deterministic_seed ;;
  let base_score : Q := 50%Q in
  let amount_risk := Py.min 25 (loan_amount / 10000 * 12) in
  let base_score := (base_score + amount_risk)%Q in
  let email := Py.lower (default "" (applicant_data !! "email")) in
  let base_score := (base_score + email_adjustment email)%Q in
  let name := default "" (applicant_data !! "name") in
  let base_score := (base_score + name_adjustment name)%Q in
  do random_factor <~ randint (-12) 12 ;;
  let base_score := (base_score + inject_Z random_factor)%Q in
  ret (Z.max 0 (Z.min 100 (Py.round base_score))).

Definition _calculate_fallback_score (applicant_data : gmap string string)
    (loan_amount : Q) : Z := 50.

Definition get_risk_score (applicant_data : gmap string string)
    (loan_amount : Q) : M Q :=
  if DEBUG settings && negb (default false (USE_REAL_RISK_API settings)) then
    do score <~ _calculate_mock_score applicant_data loan_amount ;;
    ret (inject_Z score)
  else
    match _call_external_api applicant_data loan_amount with
    | Return response =>
        match response !! "score" with
        | Some score => ret score
        | None => raise (KeyError "score")
        end
    | Raise e =>
        if is_RequestException e then
          ret (inject_Z (_calculate_fallback_score applicant_data loan_amount))
        else raise e
    end.
End Service.
End RiskScoringService.

(** ** serializers.py *)

(** A JSON scalar of a response. *)
Inductive value : Type :=
  | VInt (n : Z)
  | VFloat (q : Q)
  | VStr (s : string).

(** The body of a response. *)
Inductive body : Type :=
  | ErrorBody (error : string)                     (* {'error': ...} *)
  | FieldErrors (field : string)                   (* serializer.errors *)
  | ApplicationBody (application : instance LoanApplication.t)
      (applicant_details : instance Applicant.t)   (* LoanApplicationSerializer *)
  | StatusBody (status : Status)                   (* LoanApplicationStatusSerializer *)
  | DictBody (fields : gmap string value)          (* ReportSummarySerializer *)
  | NotFoundBody
  | ServerErrorBody.

Record Response : Type := mkResponse {
  response_data : body;
  response_status : Z
}.

Definition HTTP_200_OK : Z := 200.
Definition HTTP_201_CREATED : Z := 201.
Definition HTTP_400_BAD_REQUEST : Z := 400.
Definition HTTP_404_NOT_FOUND : Z := 404.
Definition HTTP_500_INTERNAL_SERVER_ERROR : Z := 500.

Module LoanApplicationStatusSerializer.
Definition fields : list string := ["status"].

(** The choice whose stored value is [s], if any. *)
Definition to_internal_value (s : string) : option Status :=
  fst <$> List.find (fun c => String.eqb (status_value (fst c)) s) STATUS_CHOICES.

(** [is_valid()]: the model field has a default, so the serializer field
    is optional; a value that is present must be one of the choices.
    Returns the validated data or the field in error. *)
Definition is_valid (data : gmap string string) : string + option Status :=
  match data !! "status" with
  | None => inr None
  | Some s =>
      match to_internal_value s with
      | Some st => inr (Some st)
      | None => inl "status"
      end
  end.
End LoanApplicationStatusSerializer.

Module ReportSummarySerializer.
Definition fields : list string :=
  [ "total_applications"; "approved_applications"; "rejected_applications";
    "pending_applications"; "manual_review_applications"; "approval_rate";
    "average_loan_amount" ].

(** [ReportSummarySerializer(instance).data]: the declared fields, each
    read from the instance; a declared field missing there is a
    [KeyError]. *)
Fixpoint to_representation (fs : list string) (instance : gmap string value)
    : outcome (gmap string value) :=
  match fs with
  | [] => Return ∅
  | f :: fs' =>
      match instance !! f with
      | None => Raise (KeyError f)
      | Some v =>
          match to_representation fs' instance with
          | Return ret => Return (<[f := v]> ret)
          | Raise e => Raise e
          end
      end
  end.

Definition data (instance : gmap string value) : outcome (gmap string value) :=
  to_representation fields instance.
End ReportSummarySerializer.

(** ** views.py *)

(** The database operations of the views; any of them can fail. *)
Inductive db_op : Type :=
  | OpGetOrCreate
  | OpSaveApplicant
  | OpCreateApplication
  | OpSaveApplication
  | OpGetObject
  | OpAggregate.

(** What surrounds a request: the settings, the network, the clock (in
    microseconds) and the failures of the database. *)
Record Env : Type := mkEnv {
  settings : Settings;
  requests_post : Network;
  now : Z;
  db_fault : db_op -> option exn
}.

Definition no_faults : db_op -> option exn := fun _ => None.

(** The names bound at module level in views.py: its imports and its two
    classes. *)
Definition views_globals : list string :=
  [ "viewsets"; "status"; "mixins"; "action"; "Response";
    "IsAuthenticatedOrReadOnly"; "transaction"; "Count"; "Avg"; "Q";
    "timezone"; "timedelta"; "Applicant"; "LoanApplication";
    "ApplicantSerializer"; "LoanApplicationSerializer";
    "LoanApplicationStatusSerializer"; "ReportSummarySerializer";
    "RiskScoringService"; "ApplicantViewSet"; "LoanApplicationViewSet" ].

(** [isinstance(e, Exception)]: every exception above. *)
Definition is_Exception (e : exn) : bool := true.

(** [isinstance(e, LoanApplication.DoesNotExist)]: none of the exceptions
    above; the views never raise it. *)
Definition is_DoesNotExist (e : exn) : bool := false.

Section Views.
Context `{PyLib}.
Variable env : Env.

(** Reading a global name of views.py. *)
Definition load_global (name : string) : M unit :=
  if bool_decide (name ∈ views_globals) then ret tt else raise (NameError name).

Definition db_guard (op : db_op) : M unit :=
  match db_fault env op with
  | Some e => raise e
  | None => ret tt
  end.

(** [Applicant.objects.get_or_create(email=email, defaults={...})] *)
Definition get_or_create (email name phone : string)
    : M (instance Applicant.t * bool) :=
  do _ <~ db_guard OpGetOrCreate ;;
  do d <~ get_db ;;
  match map_to_list (filter (fun kv => Applicant.email (snd kv) = email) (applicants d)) with
  | [] =>
      let pk := next_applicant_id d in
      let row := Applicant.mk name email phone (now env) (now env) in
      do _ <~ execute (mkDB (<[pk := row]> (applicants d)) (applications d)
                            (pk + 1) (next_application_id d))
                      (INSERT_applicant pk) ;;
      ret ((pk, row), true)
  | [applicant] => ret (applicant, false)
  | _ => raise MultipleObjectsReturned
  end.

(** [applicant.save(update_fields=update_fields)]: only the listed columns
    are written; [updated_at] is not among them. *)
Definition save_applicant (applicant : instance Applicant.t)
    (update_fields : list string) : M unit :=
  do _ <~ db_guard OpSaveApplicant ;;
  do d <~ get_db ;;
  match applicants d !! fst applicant with
  | None => raise DatabaseError
  | Some row =>
      let row' :=
        Applicant.mk
          (if bool_decide ("name" ∈ update_fields)
           then Applicant.name (snd applicant) else Applicant.name row)
          (Applicant.email row)
          (if bool_decide ("phone" ∈ update_fields)
           then Applicant.phone (snd applicant) else Applicant.phone row)
          (Applicant.created_at row)
          (Applicant.updated_at row) in
      execute (mkDB (<[fst applicant := row']> (applicants d)) (applications d)
                    (next_applicant_id d) (next_application_id d))
              (UPDATE_applicant (fst applicant) update_fields)
  end.

(** [LoanApplication.objects.create(applicant=..., amount=..., status=...)]:
    a plain [save()], which runs no validator. The amount is stored as
    given: the column takes it when it is of
    [LoanApplication.amount_in_range] and keeps it unchanged when it has
    [LoanApplication.two_decimals]. *)
Definition objects_create (applicant : instance Applicant.t) (amount : Q)
    (status : Status) : M (instance LoanApplication.t) :=
  do _ <~ db_guard OpCreateApplication ;;
  do d <~ get_db ;;
  let pk := next_application_id d in
  let row := LoanApplication.mk (fst applicant) amount None status None
               (now env) (now env) in
  do _ <~ execute (mkDB (applicants d) (<[pk := row]> (applications d))
                        (next_applicant_id d) (pk + 1))
                  (INSERT_application pk) ;;
  ret (pk, row).

(** [application.save()]: every column is written, [updated_at] with the
    current instant. *)
Definition save_application (application : instance LoanApplication.t)
    : M (instance LoanApplication.t) :=
  do _ <~ db_guard OpSaveApplication ;;
  do d <~ get_db ;;
  let a := snd application in
  let row := LoanApplication.mk (LoanApplication.applicant a)
               (LoanApplication.amount a) (LoanApplication.risk_score a)
               (LoanApplication.status a) (LoanApplication.external_reference a)
               (LoanApplication.created_at a) (now env) in
  do _ <~ execute (mkDB (applicants d) (<[fst application := row]> (applications d))
                        (next_applicant_id d) (next_application_id d))
                  (UPDATE_application (fst application)) ;;
  ret (fst application, row).
End Views.

(** The auto-decision on the risk score, as written in [create]. *)
Definition auto_decision (risk_score : Q) : Status :=
  if Qlt_le_dec risk_score 30 then STATUS_APPROVED
  else if Qlt_le_dec 70 risk_score then STATUS_REJECTED
  else STATUS_MANUAL_REVIEW.

(** [request.data] of a submission whose [applicant], when present, is a
    JSON object and whose [amount], when present, is a number. *)
Record CreateRequest : Type := mkCreateRequest {
  data_applicant : option (gmap string string);
  data_amount : option Q
}.

(** The query string: [status] as sent, the two dates as instants. *)
Record QueryParams : Type := mkQueryParams {
  qp_status : option string;
  qp_start_date : option Z;
  qp_end_date : option Z
}.

Definition no_query : QueryParams := mkQueryParams None None None.

(** A request on one application: the query string, the [pk] of the URL
    and [request.data]. *)
Record DetailRequest : Type := mkDetailRequest {
  query_params : QueryParams;
  pk : Z;
  data : gmap string string
}.

(** [timedelta(days=n)] in microseconds. *)
Definition timedelta_days (n : Z) : Z := n * 86400 * 1000000.

Module LoanApplicationViewSet.
Section ViewSet.
Context `{PyLib}.
Variable env : Env.

Definition get_queryset (qp : QueryParams) (d : DB) : gmap Z LoanApplication.t :=
  let queryset := applications d in
  let queryset :=
    match qp_status qp with
    | Some status_filter =>
        if Py.truthy_str status_filter
        then filter (fun kv => status_value (LoanApplication.status (snd kv)) = status_filter)
                    queryset
        else queryset
    | None => queryset
    end in
  let queryset :=
    match qp_start_date qp with
    | Some start_date =>
        filter (fun kv => start_date <= LoanApplication.created_at (snd kv)) queryset
    | None => queryset
    end in
  match qp_end_date qp with
  | Some end_date =>
      filter (fun kv => LoanApplication.created_at (snd kv) <= end_date) queryset
  | None => queryset
  end.

(** [self.get_object()]: the row of the filtered queryset with the [pk]
    of the URL, or [Http404]. *)
Definition get_object (request : DetailRequest) : M (instance LoanApplication.t) :=
  do _ <~ db_guard env OpGetObject ;;
  do d <~ get_db ;;
  match get_queryset (query_params request) d !! pk request with
  | Some row => ret (pk request, row)
  | None => raise Http404
  end.

(** The update of an applicant that already existed: the in-memory
    instance after the assignments, and [update_fields]. *)
Definition update_details (applicant_data : gmap string string)
    (applicant : instance Applicant.t) : instance Applicant.t * list string :=
  let update_fields : list string := [] in
  let '(applicant, update_fields) :=
    match applicant_data !! "name" with
    | Some name =>
        if bool_decide (name ≠ Applicant.name (snd applicant))
        then ((fst applicant,
               Applicant.mk name (Applicant.email (snd applicant))
                 (Applicant.phone (snd applicant))
                 (Applicant.created_at (snd applicant))
                 (Applicant.updated_at (snd applicant))),
              update_fields ++ ["name"])
        else (applicant, update_fields)
    | None => (applicant, update_fields)
    end in
  match applicant_data !! "phone" with
  | Some phone =>
      if bool_decide (phone ≠ Applicant.phone (snd applicant))
      then ((fst applicant,
             Applicant.mk (Applicant.name (snd applicant))
               (Applicant.email (snd applicant)) phone
               (Applicant.created_at (snd applicant))
               (Applicant.updated_at (snd applicant))),
            update_fields ++ ["phone"])
      else (applicant, update_fields)
  | None => (applicant, update_fields)
  end.

(** "Update applicant details if they already existed": the changed fields
    are saved, when there are any. *)
Definition update_if_existed (applicant_data : gmap string string)
    (applicant : instance Applicant.t) (created : bool) : M (instance Applicant.t) :=
  if negb created then
    let '(applicant, update_fields) := update_details applicant_data applicant in
    match update_fields with
    | [] => ret applicant
    | _ => do _ <~ save_applicant env applicant update_fields ;; ret applicant
    end
  else ret applicant.

(** The [try] block of [create]. *)
Definition create_try (applicant_data : gmap string string) (amount : Q)
    : M Response :=
  do email <~ match applicant_data !! "email" with
              | Some email => ret email
              | None => raise (KeyError "email")
              end ;;
  do '(applicant, created) <~
    get_or_create env email (default "" (applicant_data !! "name"))
      (default "" (applicant_data !! "phone")) ;;
  do applicant <~ update_if_existed applicant_data applicant created ;;
  do application <~ objects_create env applicant amount STATUS_PENDING ;;
  do risk_score <~
    RiskScoringService.get_risk_score (settings env) (requests_post env)
      {[ "name" := Applicant.name (snd applicant);
         "email" := Applicant.email (snd applicant);
         "phone" := Applicant.phone (snd applicant) ]}
      amount ;;
  let a := snd application in
  let application : instance LoanApplication.t :=
    (fst application,
     LoanApplication.mk (LoanApplication.applicant a) (LoanApplication.amount a)
       (Some risk_score) (auto_decision risk_score)
       (LoanApplication.external_reference a)
       (LoanApplication.created_at a) (LoanApplication.updated_at a)) in
  do application <~ save_application env application ;;
  ret (mkResponse (ApplicationBody application applicant) HTTP_201_CREATED).

(** The [except Exception as e] block of [create]: it reads the global
    [logger], which views.py never binds. *)
Definition create_except (e : exn) : M Response :=
  do _ <~ load_global "logger" ;;
  ret (mkResponse (ErrorBody "Internal server error") HTTP_500_INTERNAL_SERVER_ERROR).

Definition create (request : CreateRequest) : M Response :=
  atomic (
    let applicant_data := default ∅ (data_applicant request) in
    match data_amount request with
    | None =>
        ret (mkResponse (ErrorBody "Applicant data and amount are required")
                        HTTP_400_BAD_REQUEST)
    | Some amount =>
        if negb (Py.truthy_dict applicant_data) || negb (Py.truthy_num amount) then
          ret (mkResponse (ErrorBody "Applicant data and amount are required")
                          HTTP_400_BAD_REQUEST)
        else if negb (Py.truthy_opt_str (applicant_data !! "email")) then
          ret (mkResponse (ErrorBody "Email is required in applicant data")
                          HTTP_400_BAD_REQUEST)
        else
          try_except (create_try applicant_data amount) is_Exception create_except
    end).

Definition update_status (request : DetailRequest) : M Response :=
  try_except
    (do application <~ get_object request ;;
     if bool_decide (LoanApplication.status (snd application) ≠ STATUS_MANUAL_REVIEW) then
       ret (mkResponse (ErrorBody "Only manual review applications can be updated")
                       HTTP_400_BAD_REQUEST)
     else
       match LoanApplicationStatusSerializer.is_valid (data request) with
       | inr validated_data =>
           let a := snd application in
           let application : instance LoanApplication.t :=
             match validated_data with
             | Some status =>
                 (fst application,
                  LoanApplication.mk (LoanApplication.applicant a)
                    (LoanApplication.amount a) (LoanApplication.risk_score a)
                    status (LoanApplication.external_reference a)
                    (LoanApplication.created_at a) (LoanApplication.updated_at a))
             | None => application
             end in
           do application <~ save_application env application ;;
           ret (mkResponse (StatusBody (LoanApplication.status (snd application)))
                           HTTP_200_OK)
       | inl field => ret (mkResponse (FieldErrors field) HTTP_400_BAD_REQUEST)
       end)
    is_DoesNotExist
    (fun _ => ret (mkResponse (ErrorBody "Application not found") HTTP_404_NOT_FOUND)).

(** [queryset.filter(status=s).count()] *)
Definition count_status (s : Status) (objects : gmap Z LoanApplication.t) : Z :=
  Z.of_nat (size (filter (fun kv => LoanApplication.status (snd kv) = s) objects)).

(** [aggregate(avg=Avg('amount'))['avg']]: [None] on an empty table. *)
Definition Avg_amount (objects : gmap Z LoanApplication.t) : option Q :=
  if decide (size objects = 0%nat) then None
  else Some (Qred (map_fold (fun _ a acc => (acc + LoanApplication.amount a)%Q) 0%Q objects
                   / inject_Z (Z.of_nat (size objects)))).

Definition summary : M Response :=
  do _ <~ db_guard env OpAggregate ;;
  do d <~ get_db ;;
  let objects := applications d in
  let total := Z.of_nat (size objects) in
  let approved := count_status STATUS_APPROVED objects in
  let rejected := count_status STATUS_REJECTED objects in
  let pending := count_status STATUS_PENDING objects in
  let manual_review := count_status STATUS_MANUAL_REVIEW objects in
  let approval_rate :=
    if 0 <? total then Py.round2 (inject_Z approved / inject_Z total * 100) else 0%Q in
  let avg_loan_amount := default 0%Q (Avg_amount objects) in
  let seven_days_ago := now env - timedelta_days 7 in
  let recent_applications :=
    Z.of_nat (size (filter (fun kv => seven_days_ago <= LoanApplication.created_at (snd kv))
                           objects)) in
  let summary_data : gmap string value :=
    {[ "total_applications" := VInt total;
       "approved_applications" := VInt approved;
       "rejected_applications" := VInt rejected;
       "pending_applications" := VInt pending;
       "manual_review_applications" := VInt manual_review;
       "approval_rate" := VFloat approval_rate;
       "average_loan_amount" := VFloat avg_loan_amount;
       "recent_applications_7_days" := VInt recent_applications;
       "timestamp" := VStr (isoformat (now env)) ]} in
  match ReportSummarySerializer.data summary_data with
  | Return data => ret (mkResponse (DictBody data) HTTP_200_OK)
  | Raise e => raise e
  end.
End ViewSet.
End LoanApplicationViewSet.

(** What the client receives: the framework answers 404 to an [Http404]
    that leaves the view and 500 to any other exception. *)
Definition dispatch `{PyLib} (view : M Response) (w : World) : Response * World :=
  match view w with
  | (Return response, w') => (response, w')
  | (Raise Http404, w') => (mkResponse NotFoundBody HTTP_404_NOT_FOUND, w')
  | (Raise _, w') => (mkResponse ServerErrorBody HTTP_500_INTERNAL_SERVER_ERROR, w')
  end.

(** ** A concrete library, to run the model *)

(** A linear congruential generator in place of the Mersenne Twister, the
    sum of the character codes in place of MD5. *)
Module Demo.
Definition randint (g a b : Z) : Z * Z :=
  (a + g mod (b - a + 1), (g * 1103515245 + 12345) mod 2147483648).

Fixpoint checksum (s : string) : Z :=
  match s with
  | EmptyString => 0
  | String c s' => Z.of_nat (nat_of_ascii c) + checksum s'
  end.

Definition lib : PyLib.
Proof.
  refine {| rng_state := Z;
            random_seed := fun n => n;
            random_randint := randint;
            md5_hexdigest8 := checksum;
            format_amount := fun _ => "";
            isoformat := fun _ => "" |}.
  abstract (intros g a b Hab; unfold randint; simpl;
            pose proof (Z.mod_pos_bound g (b - a + 1)); lia).
Defined.

Definition world (d : DB) : @World lib := @mkWorld lib d (@random_seed lib 0) [].

Definition mock_settings : Settings := mkSettings true None "" "" 5.
Definition live_settings : Settings := mkSettings false None "https://risk.example/score" "key" 5.

(** A network on which every request gets the same outcome. *)
Definition always (o : outcome HttpResponse) : Network := fun _ => o.

Definition offline : Network := always (Raise ConnectionError).

(** What a run of [create] on the tables [d] shows: the answer, the
    applicant and the application under key 1, and the statements sent. *)
Definition observe (env : Env) (request : CreateRequest) (d : DB)
    : Response * option Applicant.t * option LoanApplication.t * list sql :=
  let result := dispatch (LoanApplicationViewSet.create (H := lib) env request) (world d) in
  (fst result, applicants (db (snd result)) !! 1, applications (db (snd result)) !! 1,
   log (snd result)).
End Demo.

(** * Notions used in the statements *)

(** ** Scoring *)

(** The configuration selects the live strategy. *)
Definition live_mode (settings : Settings) : bool :=
  negb (DEBUG settings && negb (default false (USE_REAL_RISK_API settings))).

(** The request the live strategy sends. *)
Definition live_request (settings : Settings) (applicant_data : gmap string string)
    (loan_amount : Q) : PostRequest :=
  {| post_url := RISK_SERVICE_URL settings;
     post_name := applicant_data !! "name";
     post_email := applicant_data !! "email";
     post_phone := applicant_data !! "phone";
     post_loan_amount := loan_amount;
     post_authorization := "Bearer " ++ RISK_SERVICE_API_KEY settings;
     post_timeout := RISK_SERVICE_TIMEOUT settings;
     post_verify := true |}.

(** The [except RequestException] handler of [get_risk_score] runs. *)
Definition fallback_used (settings : Settings) (requests_post : Network)
    (applicant_data : gmap string string) (loan_amount : Q) : bool :=
  match RiskScoringService._call_external_api settings requests_post
          applicant_data loan_amount with
  | Raise e => is_RequestException e
  | Return _ => false
  end.

(** The ways in which the live call ends in a [RequestException], told
    from the network: [requests.post] raises one, the response carries a
    4xx or 5xx status, or its body does not decode. *)
Inductive request_failed : outcome HttpResponse -> Prop :=
  | post_raised e :
      is_RequestException e = true -> request_failed (Raise e)
  | error_status response :
      400 <= status_code response < 600 -> request_failed (Return response)
  | json_raised response e :
      ~ 400 <= status_code response < 600 ->
      json response = Raise e -> is_RequestException e = true ->
      request_failed (Return response).

(** The mock algorithm in the words of the specification. *)
Module Spec.
(** The domain of an address: the text after its last [@]. *)
Fixpoint domain (email : string) : string :=
  match email with
  | EmptyString => EmptyString
  | String c rest =>
      if Ascii.eqb c "@" && negb (Py.contains "@" rest) then rest else domain rest
  end.

Fixpoint reverse (s : string) : string :=
  match s with
  | EmptyString => EmptyString
  | String c rest => (reverse rest ++ String c EmptyString)%string
  end.

Definition ends_with (suffix s : string) : bool :=
  String.prefix (reverse suffix) (reverse s).

(** "the email domain is a common free-mail provider" *)
Definition free_mail (email : string) : bool :=
  existsb (String.eqb (domain (Py.lower email))) ["gmail.com"; "yahoo.com"; "hotmail.com"].

(** "the domain is .edu/.gov/.org" *)
Definition institutional (email : string) : bool :=
  existsb (fun suffix => ends_with suffix (domain (Py.lower email))) [".edu"; ".gov"; ".org"].

(** "add 5 if the email domain is a common free-mail provider, subtract 8
    if the domain is .edu/.gov/.org" *)
Definition email_adjustment (email : string) : Q :=
  ((if free_mail email then 5 else 0) + (if institutional email then -8 else 0))%Q.

(** The offset drawn from the generator seeded with the hash of
    [email + amount]. *)
Definition seeded_offset `{PyLib} (email : string) (amount : Q) : Z :=
  fst (random_randint
         (random_seed (md5_hexdigest8 (email ++ format_amount amount))) (-12) 12).

(** The score of the algorithm: base 50, plus the amount risk, plus the
    adjustment for the domain of the address, minus 4 for a name of two
    or more tokens, plus the seeded offset; rounded and clamped. *)
Definition mock_score `{PyLib} (name email : string) (amount : Q) : Z :=
  Z.max 0 (Z.min 100 (Py.round
    (50
     + Qmin 25 (amount / 10000 * 12)
     + email_adjustment email
     + (if (2 <=? Py.split_len name)%nat then -4 else 0)
     + inject_Z (seeded_offset email amount))%Q)).
End Spec.

(** What [_calculate_mock_score] computes, as one expression: its tests on
    the address look for a free-mail name anywhere in the lower-cased
    address, else for an institutional suffix anywhere in it. *)
Definition computed_mock_score `{PyLib} (name email : string) (amount : Q) : Z :=
  Z.max 0 (Z.min 100 (Py.round
    (50
     + Qmin 25 (amount / 10000 * 12)
     + (if Py.any_in ["gmail.com"; "yahoo.com"; "hotmail.com"] (Py.lower email) then 5
        else if Py.any_in [".edu"; ".gov"; ".org"] (Py.lower email) then -8
        else 0)
     + (if (2 <=? Py.split_len name)%nat then -4 else 0)
     + inject_Z (Spec.seeded_offset email amount))%Q)).

(** ** Submission and status update *)

(** "Validate required fields": the two tests of [create] before its [try]
    block. *)
Definition required_fields_present (request : CreateRequest) : bool :=
  Py.truthy_dict (default ∅ (data_applicant request))
  && Py.truthy_opt_num (data_amount request)
  && Py.truthy_opt_str (default ∅ (data_applicant request) !! "email").

(** The request of the contract [update_status(application_id, new_status)]:
    no query string, the status in the body. *)
Definition status_request (pk : Z) (new_status : Status) : DetailRequest :=
  mkDetailRequest no_query pk {[ "status" := status_value new_status ]}.

(** The row after a status update at instant [t]. *)
Definition with_status (row : LoanApplication.t) (new_status : Status) (t : Z)
    : LoanApplication.t :=
  LoanApplication.mk (LoanApplication.applicant row) (LoanApplication.amount row)
    (LoanApplication.risk_score row) new_status
    (LoanApplication.external_reference row) (LoanApplication.created_at row) t.

(** [n] successive updates of one application to manual review: the
    statuses of the answers, and the world they leave. *)
Fixpoint review_again `{PyLib} (env : Env) (pk : Z) (n : nat) (w : World)
    : list Z * World :=
  match n with
  | O => ([], w)
  | S n' =>
      let '(response, w1) :=
        dispatch (LoanApplicationViewSet.update_status env
                    (status_request pk STATUS_MANUAL_REVIEW)) w in
      let '(answers, w2) := review_again env pk n' w1 in
      (response_status response :: answers, w2)
  end.

(** The world after the status of the application [pk] was saved. *)
Definition updated `{PyLib} (w : World) (pk : Z) (row : LoanApplication.t) : World :=
  mkWorld (mkDB (applicants (db w)) (<[pk := row]> (applications (db w)))
                (next_applicant_id (db w)) (next_application_id (db w)))
          (rng w) (log w ++ [UPDATE_application pk]).

(** ** The tables *)

(** [unique=True] on the address of an applicant: no two rows carry the
    same address. *)
Definition unique_email (table : gmap Z Applicant.t) : Prop :=
  forall j k r s, table !! j = Some r -> table !! k = Some s ->
                  Applicant.email r = Applicant.email s -> j = k.

(** The tables as the database keeps them: addresses are unique, every key
    is below the counter of its table, and the foreign key of every
    application is the key of a stored applicant. *)
Definition consistent (d : DB) : Prop :=
  unique_email (applicants d) /\
  (forall k r, applicants d !! k = Some r -> k < next_applicant_id d) /\
  (forall k a, applications d !! k = Some a -> k < next_application_id d) /\
  (forall k a, applications d !! k = Some a ->
               is_Some (applicants d !! LoanApplication.applicant a)).

(** * Properties *)

(** ** The decision policy *)

Lemma auto_decision_cases (risk_score : Q) :
  (risk_score < 30 /\ auto_decision risk_score = STATUS_APPROVED)%Q \/
  (70 < risk_score /\ auto_decision risk_score = STATUS_REJECTED)%Q \/
  (30 <= risk_score <= 70 /\ auto_decision risk_score = STATUS_MANUAL_REVIEW)%Q.
Proof.
  unfold auto_decision.
  destruct (Qlt_le_dec risk_score 30) as [Hlt | Hge]; [now left |].
  destruct (Qlt_le_dec 70 risk_score) as [Hgt | Hle]; [now right; left |].
  right; right. now repeat split.
Qed.

Lemma auto_decision_not_pending (risk_score : Q) :
  auto_decision risk_score <> STATUS_PENDING.
Proof.
  destruct (auto_decision_cases risk_score) as [[_ ->] | [[_ ->] | [_ ->]]]; discriminate.
Qed.

Lemma inject_Z_lt (a b : Z) : (inject_Z a < inject_Z b)%Q <-> a < b.
Proof. unfold Qlt. simpl. lia. Qed.

Lemma inject_Z_le (a b : Z) : (inject_Z a <= inject_Z b)%Q <-> a <= b.
Proof. unfold Qle. simpl. lia. Qed.

(** C3. On an integer score the decision is a function of the score alone:
    approved exactly below 30, rejected exactly above 70, manual review
    exactly from 30 to 70, never pending; 29, 30, 70 and 71 fall on the
    stated sides of the two thresholds. *)
Theorem decision_policy_thresholds (score : Z) :
  (auto_decision (inject_Z score) = STATUS_APPROVED <-> score < 30) /\
  (auto_decision (inject_Z score) = STATUS_REJECTED <-> 70 < score) /\
  (auto_decision (inject_Z score) = STATUS_MANUAL_REVIEW <-> 30 <= score <= 70) /\
  auto_decision (inject_Z score) <> STATUS_PENDING /\
  auto_decision (inject_Z 29) = STATUS_APPROVED /\
  auto_decision (inject_Z 30) = STATUS_MANUAL_REVIEW /\
  auto_decision (inject_Z 70) = STATUS_MANUAL_REVIEW /\
  auto_decision (inject_Z 71) = STATUS_REJECTED.
Proof.
  assert (H30 : forall z, (inject_Z z < 30)%Q <-> z < 30)
    by (intros z; apply (inject_Z_lt z 30)).
  assert (H70 : forall z, (70 < inject_Z z)%Q <-> 70 < z)
    by (intros z; apply (inject_Z_lt 70 z)).
  assert (H30' : forall z, (30 <= inject_Z z)%Q <-> 30 <= z)
    by (intros z; apply (inject_Z_le 30 z)).
  assert (H70' : forall z, (inject_Z z <= 70)%Q <-> z <= 70)
    by (intros z; apply (inject_Z_le z 70)).
  destruct (auto_decision_cases (inject_Z score)) as [[Hs He] | [[Hs He] | [[Hs1 Hs2] He]]];
    rewrite ?H30, ?H70, ?H30', ?H70' in *; rewrite He;
    repeat split; try reflexivity; intros; try lia; congruence.
Qed.

(** ** Risk scoring: the live strategy and its fallback *)

Section Live.
Context `{PyLib}.
Variable settings : Settings.
Variable requests_post : Network.
Variable applicant_data : gmap string string.
Variable loan_amount : Q.

Lemma raise_for_status_error response :
  400 <= status_code response < 600 ->
  RiskScoringService.raise_for_status response = Raise (HTTPError (status_code response)).
Proof.
  intros [Hlo Hhi]. unfold RiskScoringService.raise_for_status.
  apply Z.leb_le in Hlo. apply Z.ltb_lt in Hhi. now rewrite Hlo, Hhi.
Qed.

Lemma raise_for_status_ok response :
  ~ 400 <= status_code response < 600 ->
  RiskScoringService.raise_for_status response = Return tt.
Proof.
  intros Hn. unfold RiskScoringService.raise_for_status.
  destruct (400 <=? status_code response) eqn:Hlo; [| reflexivity].
  destruct (status_code response <? 600) eqn:Hhi; [| reflexivity].
  apply Z.leb_le in Hlo. apply Z.ltb_lt in Hhi. lia.
Qed.

Lemma call_external_api_unfold :
  RiskScoringService._call_external_api settings requests_post applicant_data loan_amount =
  match requests_post (live_request settings applicant_data loan_amount) with
  | Raise e => Raise e
  | Return response =>
      match RiskScoringService.raise_for_status response with
      | Raise e => Raise e
      | Return _ => json response
      end
  end.
Proof. reflexivity. Qed.

Lemma fallback_used_iff :
  fallback_used settings requests_post applicant_data loan_amount = true <-> request_failed (requests_post (live_request settings applicant_data loan_amount)).
Proof.
  unfold fallback_used. rewrite call_external_api_unfold.
  destruct (requests_post (live_request settings applicant_data loan_amount)) as [response | e].
  - destruct (Z_le_dec 400 (status_code response)) as [Hlo | Hlo];
      [destruct (Z_lt_dec (status_code response) 600) as [Hhi | Hhi] |].
    + rewrite raise_for_status_error by lia. simpl. split; [| reflexivity].
      intros _. apply error_status. lia.
    + rewrite raise_for_status_ok by lia. split.
      * destruct (json response) as [payload | e] eqn:Hjson; [discriminate |].
        intros He. eapply json_raised; eauto. lia.
      * intros Hf. inversion Hf as [| ? Hs | ? e ? Hjson He]; subst; [lia |].
        now rewrite Hjson.
    + rewrite raise_for_status_ok by lia. split.
      * destruct (json response) as [payload | e] eqn:Hjson; [discriminate |].
        intros He. eapply json_raised; eauto. lia.
      * intros Hf. inversion Hf as [| ? Hs | ? e ? Hjson He]; subst; [lia |].
        now rewrite Hjson.
  - split.
    + intros He. now apply post_raised.
    + intros Hf. now inversion Hf.
Qed.

(** C2, amended. In live mode the fallback runs exactly when the live
    call ends in a [RequestException]: [requests.post] raised one
    (a timeout, a connection failure), the response carried a 4xx or 5xx
    status, or its body did not decode. It then returns 50 and leaves the
    world as it was. Otherwise the caller gets the [score] of the
    payload, a [KeyError] when the payload has none, or the exception of
    the live call. *)
Theorem live_fallback_on_request_exception (w : World) :
  live_mode settings = true ->
  (fallback_used settings requests_post applicant_data loan_amount = true <-> request_failed (requests_post (live_request settings applicant_data loan_amount))) /\
  request_failed (Raise Timeout) /\
  request_failed (Raise ConnectionError) /\
  (fallback_used settings requests_post applicant_data loan_amount = true ->
   RiskScoringService.get_risk_score settings requests_post applicant_data loan_amount w
   = (Return (inject_Z 50), w)) /\
  (fallback_used settings requests_post applicant_data loan_amount = false ->
   RiskScoringService.get_risk_score settings requests_post applicant_data loan_amount w
   = (match RiskScoringService._call_external_api settings requests_post
              applicant_data loan_amount with
      | Raise e => Raise e
      | Return payload =>
          match payload !! "score" with
          | Some score => Return score
          | None => Raise (KeyError "score")
          end
      end, w)).
Proof.
  intros Hlive. unfold live_mode in Hlive. apply negb_true_iff in Hlive.
  split; [apply fallback_used_iff |].
  split; [now apply post_raised |].
  split; [now apply post_raised |].
  unfold fallback_used, RiskScoringService.get_risk_score. rewrite Hlive.
  destruct (RiskScoringService._call_external_api settings requests_post
              applicant_data loan_amount) as [payload | e].
  - split; [discriminate |]. intros _.
    now destruct (payload !! "score").
  - split; intros He; now rewrite He.
Qed.
End Live.

(** C2, witness: with the network down the live strategy falls back. *)
Lemma live_fallback_witness :
  live_mode Demo.live_settings = true /\
  RiskScoringService.get_risk_score (H := Demo.lib) Demo.live_settings Demo.offline
    {[ "email" := "a@x.com" ]} 5000 (Demo.world empty_db)
  = (Return (inject_Z 50), Demo.world empty_db).
Proof.
  split; [reflexivity |].
  destruct (live_fallback_on_request_exception (H := Demo.lib) Demo.live_settings
              Demo.offline {[ "email" := "a@x.com" ]} 5000 (Demo.world empty_db) eq_refl)
    as (_ & _ & _ & Hfallback & _).
  apply Hfallback. reflexivity.
Defined.

(** C2, counterexample: a response that arrives with status 503 makes the
    live call raise [HTTPError], and the caller gets the fallback score
    instead of the error. *)
Lemma fallback_swallows_http_error_status :
  let network := Demo.always (Return (mkHttpResponse 503 (Return {[ "score" := 10%Q ]}))) in
  RiskScoringService._call_external_api Demo.live_settings network
    {[ "email" := "a@x.com" ]} 5000 = Raise (HTTPError 503) /\
  RiskScoringService.get_risk_score (H := Demo.lib) Demo.live_settings network
    {[ "email" := "a@x.com" ]} 5000 (Demo.world empty_db)
  = (Return (inject_Z 50), Demo.world empty_db).
Proof. split; reflexivity. Qed.

(** ** Risk scoring: the mock strategy *)


Lemma Py_min_Qmin (a b : Q) : Py.min a b = Qmin a b.
Proof.
  unfold Py.min, Qmin, GenericMinMax.gmin.
  destruct (Qlt_le_dec b a) as [Hlt | Hle].
  - apply Qgt_alt in Hlt. now rewrite Hlt.
  - destruct (a ?= b)%Q eqn:Hc; try reflexivity.
    apply Qgt_alt in Hc. apply Qlt_not_le in Hc. contradiction.
Qed.

Section Mock.
Context `{PyLib}.

(** The mock strategy computes the closed formula, and leaves the generator
    in the state reached from the seed. *)
Lemma calculate_mock_score_formula (applicant_data : gmap string string)
    (loan_amount : Q) (w : World) :
  RiskScoringService._calculate_mock_score applicant_data loan_amount w =
  (Return (computed_mock_score (default "" (applicant_data !! "name"))
             (default "" (applicant_data !! "email")) loan_amount),
   mkWorld (db w)
     (snd (random_randint
             (random_seed (md5_hexdigest8
                (default "" (applicant_data !! "email") ++ format_amount loan_amount)))
             (-12) 12))
     (log w)).
Proof.
  unfold RiskScoringService._calculate_mock_score, computed_mock_score, Spec.seeded_offset,
    bind, seed, randint, ret.
  simpl.
  destruct (random_randint _ (-12) 12) as [random_factor g] eqn:Hdraw. simpl.
  rewrite Py_min_Qmin.
  set (email := default "" (applicant_data !! "email")).
  set (name := default "" (applicant_data !! "name")).
  replace (RiskScoringService.email_adjustment (Py.lower email))
    with (if Py.any_in ["gmail.com"; "yahoo.com"; "hotmail.com"] (Py.lower email) then 5%Q
          else if Py.any_in [".edu"; ".gov"; ".org"] (Py.lower email) then (-8)%Q
          else 0%Q).
  2:{ unfold RiskScoringService.email_adjustment.
      destruct (Py.lower email) as [| c rest]; reflexivity. }
  replace (RiskScoringService.name_adjustment name)
    with (if (2 <=? Py.split_len name)%nat then (-4)%Q else 0%Q).
  2:{ unfold RiskScoringService.name_adjustment.
      destruct name as [| c rest]; reflexivity. }
  reflexivity.
Qed.

Lemma seeded_offset_range (email : string) (amount : Q) :
  -12 <= Spec.seeded_offset email amount <= 12.
Proof. unfold Spec.seeded_offset. apply random_randint_range. lia. Qed.

End Mock.

Lemma Py_round_inject_Z (x : Q) (z : Z) : (x == inject_Z z)%Q -> Py.round x = z.
Proof.
  intros Hx. unfold Py.round.
  assert (Hfloor : Qfloor x = z) by (rewrite Hx; apply Qfloor_Z).
  rewrite Hfloor.
  assert (Hlt : (x - inject_Z z < 1 # 2)%Q) by (rewrite Hx; ring_simplify; reflexivity).
  now rewrite (proj1 (Qlt_alt _ _) Hlt).
Qed.
(** Whatever the generator, a second token in the name lowers the score of
    the same address and amount by 4. *)
Lemma mock_score_name_sensitive `{PyLib} :
  computed_mock_score "Ann Lee" "a@x.com" 5000
  = computed_mock_score "Ann" "a@x.com" 5000 - 4.
Proof.
  pose proof (seeded_offset_range "a@x.com" 5000) as Hoff.
  unfold computed_mock_score.
  set (offset := Spec.seeded_offset "a@x.com" 5000) in *.
  change (Py.any_in ["gmail.com"; "yahoo.com"; "hotmail.com"] (Py.lower "a@x.com")) with false.
  change (Py.any_in [".edu"; ".gov"; ".org"] (Py.lower "a@x.com")) with false.
  change (2 <=? Py.split_len "Ann Lee")%nat with true.
  change (2 <=? Py.split_len "Ann")%nat with false.
  cbv iota.
  assert (Hrisk : (Qmin 25 (5000 / 10000 * 12) == 6)%Q) by (vm_compute; reflexivity).
  rewrite (Py_round_inject_Z _ (52 + offset)), (Py_round_inject_Z _ (56 + offset)).
  - lia.
  - rewrite Hrisk. (unfold Qeq; simpl; lia).
  - rewrite Hrisk. unfold Qeq; simpl; lia.
Qed.
(** [round] keeps a number between the integers that bound it. *)
Lemma Py_round_bounds (x : Q) (lo hi : Z) :
  (inject_Z lo <= x)%Q -> (x <= inject_Z hi)%Q -> lo <= Py.round x <= hi.
Proof.
  intros Hlo Hhi.
  assert (Hfloor_lo : lo <= Qfloor x).
  { rewrite <- (Qfloor_Z lo). now apply Qfloor_resp_le. }
  assert (Hfloor_hi : Qfloor x <= hi).
  { rewrite <- (Qfloor_Z hi). now apply Qfloor_resp_le. }
  pose proof (Qfloor_le x) as Hfl.
  unfold Py.round.
  destruct (x - inject_Z (Qfloor x) ?= 1 # 2)%Q eqn:Hcmp.
  - assert (Hup : Qfloor x + 1 <= hi).
    { apply Qeq_alt in Hcmp.
      destruct (Z.eq_dec (Qfloor x) hi) as [Heq | Hne]; [| lia].
      exfalso. rewrite Heq in Hcmp, Hfl. lra. }
    destruct (Z.even (Qfloor x)); lia.
  - lia.
  - assert (Hup : Qfloor x + 1 <= hi).
    { apply Qgt_alt in Hcmp.
      destruct (Z.eq_dec (Qfloor x) hi) as [Heq | Hne]; [| lia].
      exfalso. rewrite Heq in Hcmp, Hfl. lra. }
    lia.
Qed.

(** For an amount that is not negative the score lies between 26 and 92:
    the clamp to [0, 100] never acts. *)
Lemma mock_score_range `{PyLib} (name email : string) (amount : Q) :
  (0 <= amount)%Q -> 26 <= computed_mock_score name email amount <= 92.
Proof.
  intros Hamount.
  pose proof (seeded_offset_range email amount) as Hoff.
  unfold computed_mock_score.
  set (offset := Spec.seeded_offset email amount) in *.
  assert (Hrisk : (0 <= Qmin 25 (amount / 10000 * 12) <= 25)%Q).
  { split; [| apply Q.le_min_l].
    apply Q.min_glb; [lra |].
    apply Qmult_le_0_compat; [apply Qmult_le_0_compat; [assumption |] |]; discriminate. }
  assert (Hoffq : (-12 <= inject_Z offset <= 12)%Q).
  { split; [apply (inject_Z_le (-12) offset) | apply (inject_Z_le offset 12)]; lia. }
  set (risk := Qmin 25 (amount / 10000 * 12)) in *.
  assert (Hbounds : 26 <= Py.round
            (50 + risk
             + (if Py.any_in ["gmail.com"; "yahoo.com"; "hotmail.com"] (Py.lower email)
                then 5
                else if Py.any_in [".edu"; ".gov"; ".org"] (Py.lower email) then -8 else 0)
             + (if (2 <=? Py.split_len name)%nat then -4 else 0)
             + inject_Z offset)%Q <= 92).
  { apply Py_round_bounds;
      destruct (Py.any_in ["gmail.com"; "yahoo.com"; "hotmail.com"] (Py.lower email));
      destruct (Py.any_in [".edu"; ".gov"; ".org"] (Py.lower email));
      destruct (2 <=? Py.split_len name)%nat;
      change (inject_Z 26) with 26%Q; change (inject_Z 92) with 92%Q; lra. }
  lia.
Qed.

(** C9. The mock strategy tests the whole address where the algorithm
    speaks of the domain of the address. For Ann of john.gover@x.com and
    the amount 5000, the domain x.com is neither a free-mail provider nor
    institutional, so the algorithm gives 50 + 6 plus the seeded offset;
    the code finds ".gov" in "john.gover" and returns 8 less, whatever
    the hash, the generator and the state it was left in. Likewise
    gmail.com.fan@mit.edu, of an institutional domain, is adjusted by +5
    where the algorithm says -8. Two calls with the same name, address and
    amount do end alike, whatever the state of the generator. *)
Theorem mock_score_tests_whole_address `{PyLib} (w : World) :
  let email := "john.gover@x.com" in
  let offset := Spec.seeded_offset email 5000 in
  Spec.domain email = "x.com" /\
  Spec.free_mail email = false /\
  Spec.institutional email = false /\
  Spec.mock_score "Ann" email 5000 = 56 + offset /\
  fst (RiskScoringService._calculate_mock_score
         {[ "name" := "Ann"; "email" := email ]} 5000 w) = Return (48 + offset) /\
  -12 <= offset <= 12 /\
  (Spec.institutional "gmail.com.fan@mit.edu" = true /\
   Spec.free_mail "gmail.com.fan@mit.edu" = false /\
   Spec.email_adjustment "gmail.com.fan@mit.edu" = (-8)%Q /\
   RiskScoringService.email_adjustment (Py.lower "gmail.com.fan@mit.edu") = 5%Q) /\
  (forall (applicant_data : gmap string string) (loan_amount : Q) (w1 w2 : World),
     fst (RiskScoringService._calculate_mock_score applicant_data loan_amount w1)
     = fst (RiskScoringService._calculate_mock_score applicant_data loan_amount w2)).
Proof.
  intros email offset.
  pose proof (seeded_offset_range email 5000) as Hoffset. fold offset in Hoffset.
  assert (Hrisk : (Qmin 25 (5000 / 10000 * 12) == 6)%Q) by (vm_compute; reflexivity).
  split; [vm_compute; reflexivity |].
  split; [vm_compute; reflexivity |].
  split; [vm_compute; reflexivity |].
  split.
  { unfold Spec.mock_score. fold offset.
    change (Spec.email_adjustment email) with (0 + 0)%Q.
    change (2 <=? Py.split_len "Ann")%nat with false. cbv iota.
    rewrite (Py_round_inject_Z _ (56 + offset)); [lia |].
    rewrite Hrisk. unfold Qeq. simpl. lia. }
  split.
  { rewrite calculate_mock_score_formula. simpl fst.
    assert (Hname : ({[ "name" := "Ann"; "email" := email ]} : gmap string string) !! "name"
                    = Some "Ann") by (vm_compute; reflexivity).
    assert (Hemail : ({[ "name" := "Ann"; "email" := email ]} : gmap string string)
                       !! "email" = Some email) by (vm_compute; reflexivity).
    rewrite Hname, Hemail. simpl default.
    unfold computed_mock_score. fold offset.
    change (Py.any_in ["gmail.com"; "yahoo.com"; "hotmail.com"] (Py.lower email))
      with false.
    change (Py.any_in [".edu"; ".gov"; ".org"] (Py.lower email)) with true.
    change (2 <=? Py.split_len "Ann")%nat with false. cbv iota.
    rewrite (Py_round_inject_Z _ (48 + offset)); [f_equal; lia |].
    rewrite Hrisk. unfold Qeq. simpl. lia. }
  split; [exact Hoffset |].
  split; [split_and!; vm_compute; reflexivity |].
  intros applicant_data loan_amount w1 w2.
  now rewrite !calculate_mock_score_formula.
Qed.

(** ** The workflow: how each step changes the world *)

Section Workflow.
Context `{PyLib}.
Variable env : Env.

Lemma bind_Return {A B} (m : M A) (k : A -> M B) (w w' : World) (b : B) :
  bind m k w = (Return b, w') ->
  exists a w1, m w = (Return a, w1) /\ k a w1 = (Return b, w').
Proof.
  unfold bind. destruct (m w) as [[a | e] w1]; [eauto | discriminate].
Qed.

Lemma db_guard_world (op : db_op) (o : outcome unit) (w w' : World) :
  db_guard env op w = (o, w') -> w' = w.
Proof.
  unfold db_guard, raise, ret. destruct (db_fault env op); now intros [= _ ->].
Qed.

(** What a successful [get_or_create] leaves: the applicant is stored under
    its key, carries the address asked for, and is the only row that does;
    the applications are untouched. An applicant that was found leaves the
    world as it was; one that was created has the given name and phone. *)
Lemma get_or_create_Return (email name phone : string) (w w1 : World)
    (applicant : instance Applicant.t) (created : bool) :
  get_or_create env email name phone w = (Return (applicant, created), w1) ->
  Applicant.email (snd applicant) = email /\
  applicants (db w1) !! fst applicant = Some (snd applicant) /\
  (forall j r, applicants (db w1) !! j = Some r -> Applicant.email r = email ->
               j = fst applicant) /\
  applications (db w1) = applications (db w) /\
  next_application_id (db w1) = next_application_id (db w) /\
  (if created
   then snd applicant = Applicant.mk name email phone (now env) (now env) /\
        log w1 = log w ++ [INSERT_applicant (fst applicant)] /\
        (forall j r, applicants (db w) !! j = Some r -> Applicant.email r <> email)
   else w1 = w).
Proof.
  unfold get_or_create. intros Hrun.
  apply bind_Return in Hrun as ([] & w0 & Hguard & Hrun).
  apply db_guard_world in Hguard as ->.
  apply bind_Return in Hrun as (d & w0 & Hget & Hrun).
  unfold get_db in Hget. injection Hget as <- <-.
  destruct (map_to_list _) as [| [k row] [| ? ?]] eqn:Hfound.
  - apply map_to_list_empty_iff in Hfound.
    apply bind_Return in Hrun as ([] & w0 & Hexec & Hrun).
    unfold execute in Hexec. injection Hexec as <-.
    unfold ret in Hrun. injection Hrun as <- <- <-. simpl.
    repeat split.
    + apply lookup_insert_eq.
    + intros j r Hj Hr.
      destruct (decide (j = next_applicant_id (db w))) as [-> | Hne]; [reflexivity |].
      rewrite lookup_insert_ne in Hj by congruence.
      assert (Hin : filter (fun kv : Z * Applicant.t => Applicant.email (snd kv) = email)
                      (applicants (db w)) !! j = Some r)
        by (apply map_lookup_filter_Some; auto).
      rewrite Hfound in Hin. now rewrite lookup_empty in Hin.
    + intros j r Hj Hr.
      assert (Hin : filter (fun kv : Z * Applicant.t => Applicant.email (snd kv) = email)
                      (applicants (db w)) !! j = Some r)
        by (apply map_lookup_filter_Some; auto).
      rewrite Hfound in Hin. now rewrite lookup_empty in Hin.
  - unfold ret in Hrun. injection Hrun as <- <- <-. simpl.
    assert (Hk : (k, row) ∈ map_to_list
              (filter (fun kv : Z * Applicant.t => Applicant.email (snd kv) = email)
                 (applicants (db w))))
      by (rewrite Hfound; apply list_elem_of_here).
    apply elem_of_map_to_list, map_lookup_filter_Some in Hk as [Hk Hemail].
    repeat split; auto.
    intros j r Hj Hr.
    assert (Hin : (j, r) ∈ map_to_list
              (filter (fun kv : Z * Applicant.t => Applicant.email (snd kv) = email)
                 (applicants (db w))))
      by (apply elem_of_map_to_list, map_lookup_filter_Some; auto).
    rewrite Hfound in Hin. apply list_elem_of_singleton in Hin. congruence.
  - discriminate.
Qed.

Lemma save_applicant_Return (applicant : instance Applicant.t)
    (update_fields : list string) (w w1 : World) :
  save_applicant env applicant update_fields w = (Return tt, w1) ->
  exists row,
    applicants (db w) !! fst applicant = Some row /\
    applicants (db w1) =
      <[fst applicant :=
          Applicant.mk
            (if bool_decide ("name" ∈ update_fields)
             then Applicant.name (snd applicant) else Applicant.name row)
            (Applicant.email row)
            (if bool_decide ("phone" ∈ update_fields)
             then Applicant.phone (snd applicant) else Applicant.phone row)
            (Applicant.created_at row) (Applicant.updated_at row)]> (applicants (db w)) /\
    applications (db w1) = applications (db w) /\
    next_application_id (db w1) = next_application_id (db w) /\
    log w1 = log w ++ [UPDATE_applicant (fst applicant) update_fields].
Proof.
  unfold save_applicant. intros Hrun.
  apply bind_Return in Hrun as ([] & w0 & Hguard & Hrun).
  apply db_guard_world in Hguard as ->.
  apply bind_Return in Hrun as (d & w0 & Hget & Hrun).
  unfold get_db in Hget. injection Hget as <- <-.
  destruct (applicants (db w) !! fst applicant) as [row |] eqn:Hrow; [| discriminate].
  unfold execute in Hrun. injection Hrun as <-. simpl. eauto 10.
Qed.

(** The in-memory update of an applicant that existed: which fields are
    listed for saving, and what the instance then holds. *)
Lemma update_details_spec (applicant_data : gmap string string)
    (applicant : instance Applicant.t) :
  let applicant' := fst (LoanApplicationViewSet.update_details applicant_data applicant) in
  let update_fields := snd (LoanApplicationViewSet.update_details applicant_data applicant) in
  fst applicant' = fst applicant /\
  Applicant.email (snd applicant') = Applicant.email (snd applicant) /\
  Applicant.created_at (snd applicant') = Applicant.created_at (snd applicant) /\
  Applicant.updated_at (snd applicant') = Applicant.updated_at (snd applicant) /\
  ("name" ∈ update_fields <->
     exists name, applicant_data !! "name" = Some name /\
                  name <> Applicant.name (snd applicant)) /\
  ("phone" ∈ update_fields <->
     exists phone, applicant_data !! "phone" = Some phone /\
                   phone <> Applicant.phone (snd applicant)) /\
  (forall f, f ∈ update_fields -> f = "name" \/ f = "phone") /\
  Applicant.name (snd applicant') =
    (if bool_decide ("name" ∈ update_fields)
     then default "" (applicant_data !! "name") else Applicant.name (snd applicant)) /\
  Applicant.phone (snd applicant') =
    (if bool_decide ("phone" ∈ update_fields)
     then default "" (applicant_data !! "phone") else Applicant.phone (snd applicant)).
Proof.
  unfold LoanApplicationViewSet.update_details.
  destruct applicant as [k [name email phone created updated]]. simpl.
  destruct (applicant_data !! "name") as [n |] eqn:Hn;
    destruct (applicant_data !! "phone") as [p |] eqn:Hp; simpl;
    repeat (case_bool_decide; simpl);
    rewrite ?elem_of_cons, ?elem_of_nil in *;
    split_and!; try reflexivity; try congruence;
    try (intuition (try discriminate; try congruence); fail);
    try (split; [intuition (try discriminate; eauto)
                | intros (? & ? & ?); simplify_eq; intuition auto]; fail).
  all: intros f Hf; rewrite ?elem_of_cons, ?elem_of_nil in Hf; intuition auto.
Qed.

Lemma update_if_existed_Return (applicant_data : gmap string string)
    (applicant applicant' : instance Applicant.t) (created : bool) (w w1 : World) :
  applicants (db w) !! fst applicant = Some (snd applicant) ->
  LoanApplicationViewSet.update_if_existed env applicant_data applicant created w
    = (Return applicant', w1) ->
  fst applicant' = fst applicant /\
  Applicant.email (snd applicant') = Applicant.email (snd applicant) /\
  applicants (db w1) = <[fst applicant := snd applicant']> (applicants (db w)) /\
  applications (db w1) = applications (db w) /\
  next_application_id (db w1) = next_application_id (db w) /\
  (if created then applicant' = applicant /\ log w1 = log w
   else applicant' = fst (LoanApplicationViewSet.update_details applicant_data applicant) /\
        log w1 = log w ++
          match snd (LoanApplicationViewSet.update_details applicant_data applicant) with
          | [] => []
          | update_fields => [UPDATE_applicant (fst applicant) update_fields]
          end).
Proof.
  intros Hstored. unfold LoanApplicationViewSet.update_if_existed.
  destruct created; simpl.
  - unfold ret. intros [= <- <-].
    rewrite insert_id by assumption. auto 10.
  - pose proof (update_details_spec applicant_data applicant)
      as (Hpk & Hemail & Hcreated & Hupdated & _ & _ & _ & Hname & Hphone).
    destruct (LoanApplicationViewSet.update_details applicant_data applicant)
      as [a' update_fields] eqn:Hdetails.
    simpl in Hpk, Hemail, Hcreated, Hupdated, Hname, Hphone.
    destruct update_fields as [| f fs].
    + unfold ret. intros [= <- <-].
      assert (snd a' = snd applicant) as Hsame.
      { destruct a' as [k' []], applicant as [k []]. simpl in *. congruence. }
      rewrite Hsame, insert_id by assumption. rewrite app_nil_r. auto 10.
    + intros Hrun.
      apply bind_Return in Hrun as ([] & w0 & Hsave & Hrun).
      unfold ret in Hrun. injection Hrun as <- <-.
      apply save_applicant_Return in Hsave
        as (row & Hrow & Happlicants & Happlications & Hnext & Hlog).
      rewrite Hpk in Hrow, Happlicants, Hlog.
      rewrite Hstored in Hrow. injection Hrow as <-.
      repeat split; auto.
      rewrite Happlicants. f_equal.
      destruct a' as [k' []], applicant as [k []]. simpl in *.
      repeat case_bool_decide; congruence.
Qed.

Lemma objects_create_Return (applicant : instance Applicant.t) (amount : Q)
    (status : Status) (application : instance LoanApplication.t) (w w1 : World) :
  objects_create env applicant amount status w = (Return application, w1) ->
  application = (next_application_id (db w),
                 LoanApplication.mk (fst applicant) amount None status None
                   (now env) (now env)) /\
  applicants (db w1) = applicants (db w) /\
  applications (db w1) = <[fst application := snd application]> (applications (db w)) /\
  next_application_id (db w1) = next_application_id (db w) + 1 /\
  log w1 = log w ++ [INSERT_application (fst application)].
Proof.
  unfold objects_create. intros Hrun.
  apply bind_Return in Hrun as ([] & w0 & Hguard & Hrun).
  apply db_guard_world in Hguard as ->.
  apply bind_Return in Hrun as (d & w0 & Hget & Hrun).
  unfold get_db in Hget. injection Hget as <- <-.
  apply bind_Return in Hrun as ([] & w0 & Hexec & Hrun).
  unfold execute in Hexec. injection Hexec as <-.
  unfold ret in Hrun. injection Hrun as <- <-. simpl. auto.
Qed.

Lemma save_application_Return (application application' : instance LoanApplication.t)
    (w w1 : World) :
  save_application env application w = (Return application', w1) ->
  application' = (fst application,
                  LoanApplication.mk (LoanApplication.applicant (snd application))
                    (LoanApplication.amount (snd application))
                    (LoanApplication.risk_score (snd application))
                    (LoanApplication.status (snd application))
                    (LoanApplication.external_reference (snd application))
                    (LoanApplication.created_at (snd application)) (now env)) /\
  applicants (db w1) = applicants (db w) /\
  applications (db w1) = <[fst application := snd application']> (applications (db w)) /\
  next_applicant_id (db w1) = next_applicant_id (db w) /\
  next_application_id (db w1) = next_application_id (db w) /\
  rng w1 = rng w /\
  log w1 = log w ++ [UPDATE_application (fst application)].
Proof.
  unfold save_application. intros Hrun.
  apply bind_Return in Hrun as ([] & w0 & Hguard & Hrun).
  apply db_guard_world in Hguard as ->.
  apply bind_Return in Hrun as (d & w0 & Hget & Hrun).
  unfold get_db in Hget. injection Hget as <- <-.
  apply bind_Return in Hrun as ([] & w0 & Hexec & Hrun).
  unfold execute in Hexec. injection Hexec as <-.
  unfold ret in Hrun. injection Hrun as <- <-. simpl. auto 10.
Qed.

(** Scoring touches neither the tables nor the statements sent. *)
Lemma get_risk_score_frame (applicant_data : gmap string string) (amount : Q)
    (o : outcome Q) (w w1 : World) :
  RiskScoringService.get_risk_score (settings env) (requests_post env)
    applicant_data amount w = (o, w1) ->
  db w1 = db w /\ log w1 = log w.
Proof.
  unfold RiskScoringService.get_risk_score.
  destruct (DEBUG (settings env) && _).
  - unfold bind. rewrite calculate_mock_score_formula. unfold ret.
    now intros [= _ <-].
  - destruct (RiskScoringService._call_external_api _ _ _ _) as [payload | e].
    + destruct (payload !! "score"); unfold ret, raise; now intros [= _ <-].
    + destruct (is_RequestException e); unfold ret, raise; now intros [= _ <-].
Qed.

(** What the [try] block of [create] leaves when it returns: the response
    carries the new application, decided from its score and stored under a
    fresh key; its applicant is stored, carries the address and the name of
    the submission, and is the only row with that address; the statements
    sent are the insertion or the update of the applicant, then the
    insertion and the update of the application. *)
Lemma create_try_Return (applicant_data : gmap string string) (amount : Q)
    (response : Response) (w w' : World) :
  LoanApplicationViewSet.create_try env applicant_data amount w = (Return response, w') ->
  exists (email : string) (applicant : instance Applicant.t) (created : bool) (score : Q),
    let pk := next_application_id (db w) in
    let row := LoanApplication.mk (fst applicant) amount (Some score)
                 (auto_decision score) None (now env) (now env) in
    applicant_data !! "email" = Some email /\
    response = mkResponse (ApplicationBody (pk, row) applicant) HTTP_201_CREATED /\
    applications (db w') = <[pk := row]> (applications (db w)) /\
    next_application_id (db w') = pk + 1 /\
    Applicant.email (snd applicant) = email /\
    applicants (db w') !! fst applicant = Some (snd applicant) /\
    (forall j r, applicants (db w') !! j = Some r -> Applicant.email r = email ->
                 j = fst applicant) /\
    (forall name, applicant_data !! "name" = Some name ->
                  Applicant.name (snd applicant) = name) /\
    (if created then
       (forall j r, applicants (db w) !! j = Some r -> Applicant.email r <> email) /\
       log w' = log w ++ [INSERT_applicant (fst applicant);
                          INSERT_application pk; UPDATE_application pk]
     else
       exists old,
         applicants (db w) !! fst applicant = Some old /\
         Applicant.email old = email /\
         log w' = log w ++
           match snd (LoanApplicationViewSet.update_details applicant_data
                        (fst applicant, old)) with
           | [] => []
           | update_fields => [UPDATE_applicant (fst applicant) update_fields]
           end ++ [INSERT_application pk; UPDATE_application pk]).
Proof.
  unfold LoanApplicationViewSet.create_try. intros Hrun.
  apply bind_Return in Hrun as (email & w0 & Hemail & Hrun).
  destruct (applicant_data !! "email") as [email' |] eqn:Hlookup; [| discriminate].
  unfold ret in Hemail. injection Hemail as -> <-.
  apply bind_Return in Hrun as ([found created] & w1 & Hfound & Hrun).
  apply get_or_create_Return in Hfound
    as (Hfemail & Hfstored & Hfunique & Hfapps & Hfnext & Hfcreated).
  apply bind_Return in Hrun as (applicant & w2 & Hupdate & Hrun).
  apply (update_if_existed_Return _ _ _ _ _ _ Hfstored) in Hupdate
    as (Hupk & Huemail & Huapplicants & Huapps & Hunext & Hucreated).
  apply bind_Return in Hrun as (application & w3 & Hcreate & Hrun).
  apply objects_create_Return in Hcreate
    as (-> & Hcapplicants & Hcapps & Hcnext & Hclog).
  apply bind_Return in Hrun as (score & w4 & Hscore & Hrun).
  apply get_risk_score_frame in Hscore as [Hsdb Hslog].
  apply bind_Return in Hrun as (saved & w5 & Hsave & Hrun).
  apply save_application_Return in Hsave
    as (-> & Hsapplicants & Hsapps & _ & Hsnext & _ & Hsavelog).
  unfold ret in Hrun. injection Hrun as <- <-.
  simpl in *.
  exists email, applicant, created, score. simpl.
  rewrite Hsnext, Hsdb, Hcnext, Hunext, Hfnext.
  rewrite Hsapps, Hsdb, Hcapps, Huapps, Hfapps, insert_insert_eq.
  rewrite Hsapplicants, Hsdb, Hcapplicants, Huapplicants.
  rewrite Hsavelog, Hslog, Hclog.
  rewrite ?Hunext, ?Hfnext.
  split; [reflexivity |]. split; [reflexivity |]. split; [reflexivity |].
  split; [reflexivity |]. split; [congruence |].
  split; [rewrite <- Hupk; apply lookup_insert_eq |].
  split.
  { intros j r Hj Hr.
    destruct (decide (j = fst found)) as [-> | Hne]; [congruence |].
    rewrite lookup_insert_ne in Hj by congruence.
    rewrite Hupk. eauto. }
  destruct created.
  - destruct Hfcreated as (Hrow & Hflog & Hfresh).
    destruct Hucreated as [-> Hulog].
    split.
    { intros name Hname. rewrite Hrow, Hname. reflexivity. }
    split; [exact Hfresh |].
    rewrite Hulog, Hflog, <- !app_assoc. reflexivity.
  - subst w1. destruct Hucreated as [-> Hulog].
    pose proof (update_details_spec applicant_data found)
      as (Hpk & _ & _ & _ & Hin & _ & _ & Hname' & _).
    simpl in Hpk, Hin, Hname'.
    split.
    { intros name Hname. rewrite Hname'. rewrite Hname. simpl.
      case_bool_decide as Hchanged; [reflexivity |].
      destruct (decide (name = Applicant.name (snd found))) as [-> | Hne]; [reflexivity |].
      exfalso. apply Hchanged, Hin. eauto. }
    exists (snd found). rewrite Hpk. split; [assumption |]. split; [assumption |].
    rewrite Hulog, <- surjective_pairing, <- !app_assoc. reflexivity.
Qed.

Lemma logger_unbound (w : World) :
  load_global "logger" w = (Raise (NameError "logger"), w).
Proof. reflexivity. Qed.

(** The three ways [create] ends: a validation error with the world
    untouched; the response of the [try] block, committed; or, when the
    [try] block raises, the [NameError] of the handler with the database
    rolled back. *)
Lemma create_cases (request : CreateRequest) (w : World) :
  let applicant_data := default ∅ (data_applicant request) in
  (required_fields_present request = false /\
   exists error,
     LoanApplicationViewSet.create env request w
     = (Return (mkResponse (ErrorBody error) HTTP_400_BAD_REQUEST), w)) \/
  (required_fields_present request = true /\
   exists amount response w',
     data_amount request = Some amount /\
     LoanApplicationViewSet.create_try env applicant_data amount w = (Return response, w') /\
     LoanApplicationViewSet.create env request w = (Return response, w')) \/
  (required_fields_present request = true /\
   exists amount e w1,
     data_amount request = Some amount /\
     LoanApplicationViewSet.create_try env applicant_data amount w = (Raise e, w1) /\
     LoanApplicationViewSet.create env request w
     = (Raise (NameError "logger"), mkWorld (db w) (rng w1) (log w1))).
Proof.
  unfold required_fields_present, LoanApplicationViewSet.create, atomic. simpl.
  destruct (data_amount request) as [amount |]; simpl.
  2:{ left. rewrite andb_false_r. simpl. eauto. }
  destruct (Py.truthy_dict (default ∅ (data_applicant request))); simpl.
  2:{ left. eauto. }
  destruct (Py.truthy_num amount); simpl.
  2:{ left. eauto. }
  destruct (Py.truthy_opt_str (default ∅ (data_applicant request) !! "email")); simpl.
  2:{ left. eauto. }
  right. unfold try_except.
  destruct (LoanApplicationViewSet.create_try env (default ∅ (data_applicant request))
              amount w) as [[response | e] w1] eqn:Htry.
  - left. split; [reflexivity |]. eauto 10.
  - right. split; [reflexivity |]. exists amount, e, w1.
    unfold is_Exception, LoanApplicationViewSet.create_except, bind.
    rewrite logger_unbound. auto.
Qed.
End Workflow.

(** ** Submission: failure semantics *)

(** C1. A submission that fails validation is answered 400 and leaves the
    world as it was: no statement reaches the database. When the [try]
    block raises, at whatever step, the handler's own [NameError] leaves
    [create], the transaction is rolled back, so the tables are those from
    before the submission, and the client is answered 500. In all, any
    answer other than 201 leaves the tables unchanged. *)
Theorem create_failure_semantics `{PyLib} (env : Env) (request : CreateRequest)
    (w : World) :
  (required_fields_present request = false ->
   exists error,
     dispatch (LoanApplicationViewSet.create env request) w
     = (mkResponse (ErrorBody error) HTTP_400_BAD_REQUEST, w)) /\
  (forall amount e w1,
     required_fields_present request = true ->
     data_amount request = Some amount ->
     LoanApplicationViewSet.create_try env (default ∅ (data_applicant request)) amount w
     = (Raise e, w1) ->
     dispatch (LoanApplicationViewSet.create env request) w
     = (mkResponse ServerErrorBody HTTP_500_INTERNAL_SERVER_ERROR,
        mkWorld (db w) (rng w1) (log w1))) /\
  (response_status (fst (dispatch (LoanApplicationViewSet.create env request) w))
     <> HTTP_201_CREATED ->
   db (snd (dispatch (LoanApplicationViewSet.create env request) w)) = db w).
Proof.
  unfold dispatch.
  destruct (create_cases env request w)
    as [(Hvalid & error & Hrun)
       | [(Hvalid & amount & response & w' & Hamount & Htry & Hrun)
         | (Hvalid & amount & e & w1 & Hamount & Htry & Hrun)]];
    rewrite Hrun, Hvalid; simpl.
  - split; [eauto |]. split; [discriminate |]. reflexivity.
  - split; [discriminate |]. split.
    + intros amount' e w1 _ Hamount' Htry'.
      rewrite Hamount in Hamount'. injection Hamount' as <-.
      rewrite Htry in Htry'. discriminate.
    + apply create_try_Return in Htry as (? & ? & ? & ? & _ & -> & _).
      simpl. congruence.
  - split; [discriminate |]. split; [| reflexivity].
    intros amount' e' w1' _ Hamount' Htry'.
    rewrite Hamount in Hamount'. injection Hamount' as <-.
    rewrite Htry in Htry'. injection Htry' as <- <-. reflexivity.
Qed.

(** C1, witness: the last save fails after the applicant and the
    application were inserted; both insertions are rolled back and the
    client is answered 500. *)
Lemma create_failure_witness :
  let env := mkEnv Demo.mock_settings Demo.offline 0
               (fun op => match op with OpSaveApplication => Some DatabaseError | _ => None end) in
  let request := mkCreateRequest (Some {[ "name" := "Ann Lee"; "email" := "new@x.com" ]})
                   (Some 5000%Q) in
  let result := dispatch (LoanApplicationViewSet.create (H := Demo.lib) env request)
                  (Demo.world empty_db) in
  fst result = mkResponse ServerErrorBody HTTP_500_INTERNAL_SERVER_ERROR /\
  db (snd result) = empty_db.
Proof.
  intros env request result.
  destruct (create_failure_semantics (H := Demo.lib) env request (Demo.world empty_db))
    as (_ & Hfailure & _).
  assert (Hvalid : required_fields_present request = true) by (vm_compute; reflexivity).
  assert (Hraised : fst (LoanApplicationViewSet.create_try (H := Demo.lib) env
                           (default ∅ (data_applicant request)) 5000 (Demo.world empty_db))
                    = Raise DatabaseError) by (vm_compute; reflexivity).
  destruct (LoanApplicationViewSet.create_try (H := Demo.lib) env
              (default ∅ (data_applicant request)) 5000 (Demo.world empty_db))
    as [o w1] eqn:Htry.
  simpl in Hraised. subst o.
  unfold result. rewrite (Hfailure _ _ _ Hvalid eq_refl Htry). split; reflexivity.
Defined.

(** A failure at each step of the [try] block, for an applicant already
    stored under another name: the lookup of the applicant, the update of
    its name, the insertion of the application, the scoring (the payload
    has no score), the last save. Each is answered 500 and leaves the
    stored applicant as it was and no application, whatever statements had
    been sent. *)
Lemma create_rolls_back_at_each_step :
  let ann := Applicant.mk "Ann" "new@x.com" "" 0 0 in
  let d := mkDB {[ 1 := ann ]} ∅ 2 1 in
  let request := mkCreateRequest (Some {[ "name" := "Ann Lee"; "email" := "new@x.com" ]})
                   (Some 5000%Q) in
  let error := mkResponse ServerErrorBody HTTP_500_INTERNAL_SERVER_ERROR in
  let no_score := Demo.always (Return (mkHttpResponse 200 (Return ∅))) in
  Demo.observe (mkEnv Demo.mock_settings Demo.offline 9
             (fun op => match op with OpGetOrCreate => Some DatabaseError | _ => None end))
          request d
  = (error, Some ann, None, []) /\
  Demo.observe (mkEnv Demo.mock_settings Demo.offline 9
             (fun op => match op with OpSaveApplicant => Some DatabaseError | _ => None end))
          request d
  = (error, Some ann, None, []) /\
  Demo.observe (mkEnv Demo.mock_settings Demo.offline 9
             (fun op => match op with OpCreateApplication => Some DatabaseError | _ => None end))
          request d
  = (error, Some ann, None, [UPDATE_applicant 1 ["name"]]) /\
  Demo.observe (mkEnv Demo.live_settings no_score 9 no_faults) request d
  = (error, Some ann, None, [UPDATE_applicant 1 ["name"]; INSERT_application 1]) /\
  Demo.observe (mkEnv Demo.mock_settings Demo.offline 9
             (fun op => match op with OpSaveApplication => Some DatabaseError | _ => None end))
          request d
  = (error, Some ann, None, [UPDATE_applicant 1 ["name"]; INSERT_application 1]).
Proof. vm_compute. repeat split; reflexivity. Qed.

(** ** Submission: the decided application *)

(** C6. The application returned by a successful submission is the one
    stored, and its status is approved, rejected or manual review: never
    pending. *)
Theorem created_application_is_decided `{PyLib} (env : Env) (request : CreateRequest)
    (w w' : World) (response : Response) :
  LoanApplicationViewSet.create env request w = (Return response, w') ->
  response_status response = HTTP_201_CREATED ->
  exists application applicant,
    response_data response = ApplicationBody application applicant /\
    applications (db w') !! fst application = Some (snd application) /\
    LoanApplication.status (snd application) <> STATUS_PENDING /\
    (LoanApplication.status (snd application) = STATUS_APPROVED \/
     LoanApplication.status (snd application) = STATUS_REJECTED \/
     LoanApplication.status (snd application) = STATUS_MANUAL_REVIEW).
Proof.
  intros Hrun Hstatus.
  destruct (create_cases env request w)
    as [(_ & error & Hrun')
       | [(_ & amount & response' & w'' & _ & Htry & Hrun')
         | (_ & amount & e & w1 & _ & _ & Hrun')]];
    rewrite Hrun in Hrun'; try discriminate.
  - injection Hrun' as -> _. discriminate.
  - injection Hrun' as <- <-.
    apply create_try_Return in Htry
      as (email & applicant & created & score & _ & -> & Happs & _).
    eexists _, applicant. simpl.
    split; [reflexivity |].
    split; [rewrite Happs; apply lookup_insert_eq |].
    split; [apply auto_decision_not_pending |].
    destruct (auto_decision_cases score) as [[_ ->] | [[_ ->] | [_ ->]]]; auto.
Qed.

(** C6, witness: a first submission of 5000 for new@x.com. *)
Lemma created_application_witness :
  let env := mkEnv Demo.mock_settings Demo.offline 0 no_faults in
  let request := mkCreateRequest (Some {[ "name" := "Ann Lee"; "email" := "new@x.com" ]})
                   (Some 5000%Q) in
  exists response application applicant,
    fst (LoanApplicationViewSet.create (H := Demo.lib) env request (Demo.world empty_db))
    = Return response /\
    response_data response = ApplicationBody application applicant /\
    LoanApplication.status (snd application) <> STATUS_PENDING.
Proof.
  intros env request.
  assert (Hreturned : exists response,
             fst (LoanApplicationViewSet.create (H := Demo.lib) env request
                    (Demo.world empty_db)) = Return response /\
             response_status response = HTTP_201_CREATED)
    by (vm_compute; eexists; split; reflexivity).
  destruct Hreturned as (response & Hreturned & Hstatus).
  destruct (LoanApplicationViewSet.create (H := Demo.lib) env request (Demo.world empty_db))
    as [o w'] eqn:Hrun.
  simpl in Hreturned. subst o.
  destruct (created_application_is_decided (H := Demo.lib) env request
              (Demo.world empty_db) w' response Hrun Hstatus)
    as (application & applicant & Hdata & _ & Hpending & _).
  exists response, application, applicant. auto.
Defined.

(** ** Submission: one applicant per address *)

(** C8. After two successful submissions with the same address, the second
    with another name: one applicant row carries that address, under the
    key both responses name, and it has the second name; the two
    applications are stored under distinct keys and both reference that
    applicant; the second submission sent one update of the applicant,
    which lists the name, lists the phone exactly when the submission
    carries a phone that differs from the stored one, and lists nothing
    else. *)
Theorem resubmission_updates_applicant `{PyLib} (env1 env2 : Env)
    (data1 data2 : gmap string string) (amount1 amount2 : Q)
    (email name1 name2 : string) (w w1 w2 : World) (response1 response2 : Response) :
  data1 !! "email" = Some email -> data2 !! "email" = Some email ->
  data1 !! "name" = Some name1 -> data2 !! "name" = Some name2 ->
  name1 <> name2 ->
  LoanApplicationViewSet.create env1 (mkCreateRequest (Some data1) (Some amount1)) w
    = (Return response1, w1) ->
  response_status response1 = HTTP_201_CREATED ->
  LoanApplicationViewSet.create env2 (mkCreateRequest (Some data2) (Some amount2)) w1
    = (Return response2, w2) ->
  response_status response2 = HTTP_201_CREATED ->
  exists (k : Z) (stored1 stored2 : Applicant.t)
         (application1 application2 : instance LoanApplication.t)
         (update_fields : list string),
    response_data response1 = ApplicationBody application1 (k, stored1) /\
    response_data response2 = ApplicationBody application2 (k, stored2) /\
    applicants (db w2) !! k = Some stored2 /\
    Applicant.name stored2 = name2 /\
    Applicant.email stored2 = email /\
    (forall j r, applicants (db w2) !! j = Some r -> Applicant.email r = email -> j = k) /\
    fst application1 <> fst application2 /\
    applications (db w2) !! fst application1 = Some (snd application1) /\
    applications (db w2) !! fst application2 = Some (snd application2) /\
    LoanApplication.applicant (snd application1) = k /\
    LoanApplication.applicant (snd application2) = k /\
    log w2 = log w1 ++ [UPDATE_applicant k update_fields;
                        INSERT_application (fst application2);
                        UPDATE_application (fst application2)] /\
    "name" ∈ update_fields /\
    ("phone" ∈ update_fields <->
       exists phone, data2 !! "phone" = Some phone /\ phone <> Applicant.phone stored1) /\
    (forall f, f ∈ update_fields -> f = "name" \/ f = "phone").
Proof.
  intros Hemail1 Hemail2 Hname1 Hname2 Hdiff Hrun1 Hstatus1 Hrun2 Hstatus2.
  destruct (create_cases env1 (mkCreateRequest (Some data1) (Some amount1)) w)
    as [(_ & error & Hrun) | [(_ & a & r & w' & Ha & Htry1 & Hrun)
                             | (_ & a & e & w' & _ & _ & Hrun)]];
    rewrite Hrun1 in Hrun; try discriminate;
    [injection Hrun as -> _; discriminate |].
  injection Hrun as <- <-. simpl in Ha, Htry1. injection Ha as <-.
  destruct (create_cases env2 (mkCreateRequest (Some data2) (Some amount2)) w1)
    as [(_ & error & Hrun) | [(_ & a & r & w' & Ha & Htry2 & Hrun)
                             | (_ & a & e & w' & _ & _ & Hrun)]];
    rewrite Hrun2 in Hrun; try discriminate;
    [injection Hrun as -> _; discriminate |].
  injection Hrun as <- <-. simpl in Ha, Htry2. injection Ha as <-.
  apply create_try_Return in Htry1
    as (e1 & [k1 stored1] & created1 & score1 & He1 & -> & Happs1 & Hnext1 & Hmail1
        & Hstored1 & Hunique1 & Hnamed1 & _).
  apply create_try_Return in Htry2
    as (e2 & [k2 stored2] & created2 & score2 & He2 & -> & Happs2 & Hnext2 & Hmail2
        & Hstored2 & Hunique2 & Hnamed2 & Hcreated2).
  simpl in *.
  rewrite Hemail1 in He1. injection He1 as <-.
  rewrite Hemail2 in He2. injection He2 as <-.
  destruct created2.
  { destruct Hcreated2 as [Hfresh _]. exfalso. exact (Hfresh _ _ Hstored1 Hmail1). }
  destruct Hcreated2 as (old & Hold & Hmailold & Hlog).
  assert (k2 = k1) as -> by eauto.
  rewrite Hstored1 in Hold. injection Hold as <-.
  pose proof (update_details_spec data2 (k1, stored1))
    as (_ & _ & _ & _ & Hin_name & Hin_phone & Honly & _).
  simpl in Hin_name, Hin_phone, Honly.
  assert (Hchanged : "name" ∈ snd (LoanApplicationViewSet.update_details data2 (k1, stored1))).
  { apply Hin_name. exists name2. split; [assumption |].
    rewrite (Hnamed1 _ Hname1). congruence. }
  eexists k1, stored1, stored2, _, _,
    (snd (LoanApplicationViewSet.update_details data2 (k1, stored1))).
  split; [reflexivity |]. split; [reflexivity |]. simpl.
  split; [assumption |].
  split; [auto |]. split; [assumption |]. split; [assumption |].
  split; [rewrite Hnext1; lia |].
  split.
  { rewrite Happs2, Hnext1, lookup_insert_ne by lia.
    rewrite Happs1. apply lookup_insert_eq. }
  split; [rewrite Happs2; apply lookup_insert_eq |].
  split; [reflexivity |]. split; [reflexivity |].
  split.
  { rewrite Hlog.
    destruct (snd (LoanApplicationViewSet.update_details data2 (k1, stored1)));
      [now apply not_elem_of_nil in Hchanged | reflexivity]. }
  auto.
Qed.

(** C8, witness: Ann Lee submits 5000, then 7000 under the name Ann Smith. *)
Lemma resubmission_witness :
  let env := mkEnv Demo.mock_settings Demo.offline 0 no_faults in
  let data1 : gmap string string :=
    {[ "name" := "Ann Lee"; "email" := "new@x.com"; "phone" := "555" ]} in
  let data2 : gmap string string :=
    {[ "name" := "Ann Smith"; "email" := "new@x.com" ]} in
  let w1 := snd (LoanApplicationViewSet.create (H := Demo.lib) env
                   (mkCreateRequest (Some data1) (Some 5000%Q)) (Demo.world empty_db)) in
  let w2 := snd (LoanApplicationViewSet.create (H := Demo.lib) env
                   (mkCreateRequest (Some data2) (Some 7000%Q)) w1) in
  exists k stored,
    applicants (db w2) !! k = Some stored /\
    Applicant.name stored = "Ann Smith" /\
    (forall j r, applicants (db w2) !! j = Some r -> Applicant.email r = "new@x.com" -> j = k).
Proof.
  intros env data1 data2 w1 w2.
  assert (H1 : exists response,
             fst (LoanApplicationViewSet.create (H := Demo.lib) env
                    (mkCreateRequest (Some data1) (Some 5000%Q)) (Demo.world empty_db))
             = Return response /\ response_status response = HTTP_201_CREATED)
    by (vm_compute; eexists; split; reflexivity).
  destruct H1 as (response1 & Hfst1 & Hstatus1).
  assert (H2 : exists response,
             fst (LoanApplicationViewSet.create (H := Demo.lib) env
                    (mkCreateRequest (Some data2) (Some 7000%Q)) w1)
             = Return response /\ response_status response = HTTP_201_CREATED)
    by (vm_compute; eexists; split; reflexivity).
  destruct H2 as (response2 & Hfst2 & Hstatus2).
  assert (Hrun1 : LoanApplicationViewSet.create (H := Demo.lib) env
                    (mkCreateRequest (Some data1) (Some 5000%Q)) (Demo.world empty_db)
                  = (Return response1, w1))
    by (rewrite <- Hfst1; unfold w1; apply surjective_pairing).
  assert (Hrun2 : LoanApplicationViewSet.create (H := Demo.lib) env
                    (mkCreateRequest (Some data2) (Some 7000%Q)) w1
                  = (Return response2, w2))
    by (rewrite <- Hfst2; unfold w2; apply surjective_pairing).
  assert (Hemail1 : data1 !! "email" = Some "new@x.com") by (vm_compute; reflexivity).
  assert (Hemail2 : data2 !! "email" = Some "new@x.com") by (vm_compute; reflexivity).
  assert (Hname1 : data1 !! "name" = Some "Ann Lee") by (vm_compute; reflexivity).
  assert (Hname2 : data2 !! "name" = Some "Ann Smith") by (vm_compute; reflexivity).
  assert (Hdiff : "Ann Lee" <> "Ann Smith") by discriminate.
  destruct (resubmission_updates_applicant (H := Demo.lib) env env data1 data2 5000 7000
              "new@x.com" "Ann Lee" "Ann Smith" (Demo.world empty_db) w1 w2
              response1 response2 Hemail1 Hemail2 Hname1 Hname2 Hdiff
              Hrun1 Hstatus1 Hrun2 Hstatus2)
    as (k & stored1 & stored2 & _ & _ & _ & _ & _ & Hstored & Hname & _ & Hunique & _).
  exists k, stored2. auto.
Defined.

(** ** Status updates *)

Section StatusUpdate.
Context `{PyLib}.
Variable settings : Settings.
Variable network : Network.
Variable t : Z.

Let env : Env := mkEnv settings network t no_faults.

Lemma to_internal_value_status_value (s : Status) :
  LoanApplicationStatusSerializer.to_internal_value (status_value s) = Some s.
Proof. destruct s; reflexivity. Qed.

Lemma get_object_found (pk : Z) (data : gmap string string) (row : LoanApplication.t)
    (w : World) :
  applications (db w) !! pk = Some row ->
  LoanApplicationViewSet.get_object env (mkDetailRequest no_query pk data) w
  = (Return (pk, row), w).
Proof.
  intros Hrow. unfold LoanApplicationViewSet.get_object, bind, db_guard, get_db. simpl.
  unfold LoanApplicationViewSet.get_queryset. simpl. now rewrite Hrow.
Qed.

Lemma get_object_missing (pk : Z) (data : gmap string string) (w : World) :
  applications (db w) !! pk = None ->
  LoanApplicationViewSet.get_object env (mkDetailRequest no_query pk data) w
  = (Raise Http404, w).
Proof.
  intros Hrow. unfold LoanApplicationViewSet.get_object, bind, db_guard, get_db. simpl.
  unfold LoanApplicationViewSet.get_queryset. simpl. now rewrite Hrow.
Qed.

Lemma update_status_manual_review (pk : Z) (new_status : Status)
    (row : LoanApplication.t) (w : World) :
  applications (db w) !! pk = Some row ->
  LoanApplication.status row = STATUS_MANUAL_REVIEW ->
  LoanApplicationViewSet.update_status env (status_request pk new_status) w
  = (Return (mkResponse (StatusBody new_status) HTTP_200_OK),
     updated w pk (with_status row new_status t)).
Proof.
  intros Hrow Hstatus.
  unfold LoanApplicationViewSet.update_status, try_except, bind, status_request.
  rewrite (get_object_found _ _ _ _ Hrow). simpl.
  rewrite Hstatus. simpl.
  unfold LoanApplicationStatusSerializer.is_valid.
  rewrite lookup_singleton_eq, to_internal_value_status_value.
  reflexivity.
Qed.

Lemma update_status_other (pk : Z) (new_status : Status)
    (row : LoanApplication.t) (w : World) :
  applications (db w) !! pk = Some row ->
  LoanApplication.status row <> STATUS_MANUAL_REVIEW ->
  LoanApplicationViewSet.update_status env (status_request pk new_status) w
  = (Return (mkResponse (ErrorBody "Only manual review applications can be updated")
                        HTTP_400_BAD_REQUEST), w).
Proof.
  intros Hrow Hstatus.
  unfold LoanApplicationViewSet.update_status, try_except, bind, status_request.
  rewrite (get_object_found _ _ _ _ Hrow). simpl.
  now rewrite bool_decide_eq_true_2.
Qed.

Lemma update_status_missing (pk : Z) (new_status : Status) (w : World) :
  applications (db w) !! pk = None ->
  LoanApplicationViewSet.update_status env (status_request pk new_status) w
  = (Raise Http404, w).
Proof.
  intros Hrow.
  unfold LoanApplicationViewSet.update_status, try_except, bind, status_request.
  now rewrite (get_object_missing _ _ _ Hrow).
Qed.

(** C7. [update_status] on an application that does not exist is answered
    404 and changes nothing; on one whose status is not manual review,
    whichever it is, it is answered 400 and changes nothing; on one in
    manual review it is answered 200 and stores the row with its new
    status and the instant of the update, its applicant, amount, risk
    score, reference and creation instant as they were, every other row
    and every applicant untouched. *)
Theorem update_status_guard (pk : Z) (new_status : Status) (w : World) :
  dispatch (LoanApplicationViewSet.update_status env (status_request pk new_status)) w =
  match applications (db w) !! pk with
  | None => (mkResponse NotFoundBody HTTP_404_NOT_FOUND, w)
  | Some row =>
      if decide (LoanApplication.status row = STATUS_MANUAL_REVIEW)
      then (mkResponse (StatusBody new_status) HTTP_200_OK,
            updated w pk (with_status row new_status t))
      else (mkResponse (ErrorBody "Only manual review applications can be updated")
                       HTTP_400_BAD_REQUEST, w)
  end.
Proof.
  unfold dispatch.
  destruct (applications (db w) !! pk) as [row |] eqn:Hrow.
  - destruct (decide (LoanApplication.status row = STATUS_MANUAL_REVIEW)) as [Hs | Hs].
    + now rewrite (update_status_manual_review _ _ _ _ Hrow Hs).
    + now rewrite (update_status_other _ _ _ _ Hrow Hs).
  - now rewrite (update_status_missing _ _ _ Hrow).
Qed.

Lemma review_again_answers (pk : Z) (n : nat) :
  forall (row : LoanApplication.t) (w : World),
    applications (db w) !! pk = Some row ->
    LoanApplication.status row = STATUS_MANUAL_REVIEW ->
    fst (review_again env pk n w) = repeat HTTP_200_OK n.
Proof.
  induction n as [| n IH]; intros row w Hrow Hstatus; [reflexivity |].
  simpl. unfold dispatch.
  rewrite (update_status_manual_review _ _ _ _ Hrow Hstatus).
  destruct (review_again env pk n _) as [answers w2] eqn:Hrest. simpl.
  f_equal.
  change answers with (fst (answers, w2)). rewrite <- Hrest.
  apply (IH (with_status row STATUS_MANUAL_REVIEW t)).
  - simpl. apply lookup_insert_eq.
  - reflexivity.
Qed.

(** C10. On an application in manual review every one of the four
    statuses is accepted as the new status, pending and manual review
    included, and is the status stored afterwards; after an update to
    manual review the application can be updated again, so any number of
    successive updates is answered 200. *)
Theorem manual_review_updates_unbounded (pk : Z) (row : LoanApplication.t) (w : World) :
  applications (db w) !! pk = Some row ->
  LoanApplication.status row = STATUS_MANUAL_REVIEW ->
  (forall new_status,
     let result := dispatch (LoanApplicationViewSet.update_status env
                               (status_request pk new_status)) w in
     fst result = mkResponse (StatusBody new_status) HTTP_200_OK /\
     LoanApplication.status <$> applications (db (snd result)) !! pk = Some new_status) /\
  List.map fst STATUS_CHOICES
    = [STATUS_PENDING; STATUS_APPROVED; STATUS_REJECTED; STATUS_MANUAL_REVIEW] /\
  (forall n, fst (review_again env pk n w) = repeat HTTP_200_OK n).
Proof.
  intros Hrow Hstatus. split; [| split; [reflexivity |]].
  - intros new_status result. unfold result, dispatch.
    rewrite (update_status_manual_review _ _ _ _ Hrow Hstatus). simpl.
    split; [reflexivity |]. now rewrite lookup_insert_eq.
  - intros n. now apply (review_again_answers pk n row).
Qed.
End StatusUpdate.

(** C10, witness: three successive updates of an application in manual
    review. *)
Lemma manual_review_updates_witness :
  let row := LoanApplication.mk 1 5000 (Some 50%Q) STATUS_MANUAL_REVIEW None 0 0 in
  let w := Demo.world (mkDB ∅ {[ 1 := row ]} 1 2) in
  fst (review_again (H := Demo.lib) (mkEnv Demo.mock_settings Demo.offline 10 no_faults)
         1 3 w)
  = repeat HTTP_200_OK 3.
Proof.
  intros row w.
  assert (Hrow : applications (db w) !! 1 = Some row) by (vm_compute; reflexivity).
  destruct (manual_review_updates_unbounded (H := Demo.lib) Demo.mock_settings
              Demo.offline 10 1 row w Hrow eq_refl) as (_ & _ & Hagain).
  exact (Hagain 3%nat).
Defined.

(** ** The summary *)

(** The serializer keeps the declared fields and nothing else. *)
Lemma to_representation_keys (fs : list string) (instance ret : gmap string value) :
  ReportSummarySerializer.to_representation fs instance = Return ret ->
  forall k, is_Some (ret !! k) <-> k ∈ fs.
Proof.
  revert ret. induction fs as [| f fs IH]; simpl; intros ret Hret k.
  - injection Hret as <-. rewrite lookup_empty. split.
    + intros [? ?]. discriminate.
    + intros Hin. now apply not_elem_of_nil in Hin.
  - destruct (instance !! f) as [v |]; [| discriminate].
    destruct (ReportSummarySerializer.to_representation fs instance) as [ret' | e];
      [| discriminate].
    injection Hret as <-. rewrite elem_of_cons.
    destruct (decide (k = f)) as [-> | Hne].
    + rewrite lookup_insert_eq. split; eauto.
    + rewrite lookup_insert_ne by congruence. rewrite (IH ret' eq_refl k).
      split; [auto | intros [? | ?]; [contradiction | assumption]].
Qed.

Lemma summary_serializer_data (v1 v2 v3 v4 v5 v6 v7 v8 v9 : value) :
  ReportSummarySerializer.data
    {[ "total_applications" := v1; "approved_applications" := v2;
       "rejected_applications" := v3; "pending_applications" := v4;
       "manual_review_applications" := v5; "approval_rate" := v6;
       "average_loan_amount" := v7; "recent_applications_7_days" := v8;
       "timestamp" := v9 ]}
  = Return {[ "total_applications" := v1; "approved_applications" := v2;
              "rejected_applications" := v3; "pending_applications" := v4;
              "manual_review_applications" := v5; "approval_rate" := v6;
              "average_loan_amount" := v7 ]}.
Proof.
  match goal with |- _ = ?kept => vm_cast_no_check (eq_refl kept) end.
Qed.

(** The answer of the summary view: the seven declared fields. *)
Lemma summary_run `{PyLib} (settings : Settings) (network : Network) (t : Z)
    (w : World) :
  let objects := applications (db w) in
  let total := Z.of_nat (size objects) in
  let approved := LoanApplicationViewSet.count_status STATUS_APPROVED objects in
  LoanApplicationViewSet.summary (mkEnv settings network t no_faults) w
  = (Return (mkResponse (DictBody
       {[ "total_applications" := VInt total;
          "approved_applications" := VInt approved;
          "rejected_applications" :=
            VInt (LoanApplicationViewSet.count_status STATUS_REJECTED objects);
          "pending_applications" :=
            VInt (LoanApplicationViewSet.count_status STATUS_PENDING objects);
          "manual_review_applications" :=
            VInt (LoanApplicationViewSet.count_status STATUS_MANUAL_REVIEW objects);
          "approval_rate" :=
            VFloat (if 0 <? total
                    then Py.round2 (inject_Z approved / inject_Z total * 100)
                    else 0%Q);
          "average_loan_amount" :=
            VFloat (default 0%Q (LoanApplicationViewSet.Avg_amount objects)) ]})
       HTTP_200_OK), w).
Proof.
  intros objects total approved.
  unfold LoanApplicationViewSet.summary, bind, db_guard, get_db. simpl.
  fold objects. fold total. fold approved.
  now rewrite summary_serializer_data.
Qed.

(** C5. Whatever the applications and the instant, the summary answered
    holds the seven fields that the serializer declares and no other: the
    total and the four counts by status as computed from the table, an
    approval rate and an average amount, both 0 on an empty table; it holds
    neither the count of the last seven days nor the timestamp that the
    view computed. *)
Theorem summary_drops_recent_and_timestamp `{PyLib} (settings : Settings)
    (network : Network) (t : Z) (w : World) :
  let env := mkEnv settings network t no_faults in
  let objects := applications (db w) in
  exists (fields : gmap string value) (approval_rate average_loan_amount : Q),
    LoanApplicationViewSet.summary env w
    = (Return (mkResponse (DictBody fields) HTTP_200_OK), w) /\
    (forall k, is_Some (fields !! k) <-> k ∈ ReportSummarySerializer.fields) /\
    fields !! "recent_applications_7_days" = None /\
    fields !! "timestamp" = None /\
    fields !! "total_applications" = Some (VInt (Z.of_nat (size objects))) /\
    fields !! "approved_applications"
      = Some (VInt (LoanApplicationViewSet.count_status STATUS_APPROVED objects)) /\
    fields !! "rejected_applications"
      = Some (VInt (LoanApplicationViewSet.count_status STATUS_REJECTED objects)) /\
    fields !! "pending_applications"
      = Some (VInt (LoanApplicationViewSet.count_status STATUS_PENDING objects)) /\
    fields !! "manual_review_applications"
      = Some (VInt (LoanApplicationViewSet.count_status STATUS_MANUAL_REVIEW objects)) /\
    fields !! "approval_rate" = Some (VFloat approval_rate) /\
    fields !! "average_loan_amount" = Some (VFloat average_loan_amount) /\
    (objects = ∅ -> approval_rate = 0%Q /\ average_loan_amount = 0%Q).
Proof.
  intros env objects.
  set (total := Z.of_nat (size objects)).
  set (approved := LoanApplicationViewSet.count_status STATUS_APPROVED objects).
  eexists _,
    (if 0 <? total then Py.round2 (inject_Z approved / inject_Z total * 100) else 0%Q),
    (default 0%Q (LoanApplicationViewSet.Avg_amount objects)).
  split; [apply summary_run |].
  split.
  { apply (to_representation_keys _ _ _ (summary_serializer_data _ _ _ _ _ _ _
             (VInt 0) (VStr ""))). }
  fold objects. fold total. fold approved.
  assert (Hempty : objects = ∅ ->
            (if 0 <? total then Py.round2 (inject_Z approved / inject_Z total * 100)
             else 0%Q) = 0%Q /\
            default 0%Q (LoanApplicationViewSet.Avg_amount objects) = 0%Q).
  { intros Hnone. unfold total. rewrite Hnone. split; reflexivity. }
  revert Hempty.
  generalize (if 0 <? total then Py.round2 (inject_Z approved / inject_Z total * 100)
              else 0%Q),
    (default 0%Q (LoanApplicationViewSet.Avg_amount objects)).
  intros rate average Hempty.
  generalize (VInt total), (VInt approved),
    (VInt (LoanApplicationViewSet.count_status STATUS_REJECTED objects)),
    (VInt (LoanApplicationViewSet.count_status STATUS_PENDING objects)),
    (VInt (LoanApplicationViewSet.count_status STATUS_MANUAL_REVIEW objects)).
  intros v1 v2 v3 v4 v5.
  generalize (VFloat rate), (VFloat average). intros v6 v7.
  split_and!; try exact Hempty; vm_compute; reflexivity.
Qed.

(** On an empty table every count is 0, and so are the approval rate and
    the average amount. *)
Lemma summary_of_empty_table `{PyLib} (settings : Settings) (network : Network)
    (t : Z) (w : World) :
  applications (db w) = ∅ ->
  exists fields : gmap string value,
    LoanApplicationViewSet.summary (mkEnv settings network t no_faults) w
    = (Return (mkResponse (DictBody fields) HTTP_200_OK), w) /\
    fields !! "total_applications" = Some (VInt 0) /\
    fields !! "approved_applications" = Some (VInt 0) /\
    fields !! "rejected_applications" = Some (VInt 0) /\
    fields !! "pending_applications" = Some (VInt 0) /\
    fields !! "manual_review_applications" = Some (VInt 0) /\
    fields !! "approval_rate" = Some (VFloat 0) /\
    fields !! "average_loan_amount" = Some (VFloat 0).
Proof.
  intros Hempty.
  eexists. split; [apply summary_run |].
  rewrite Hempty.
  repeat split; vm_compute; reflexivity.
Qed.

(** ** Submission: the minimum amount *)

(** A submission with its required fields is never answered 400: no amount
    is refused for being below the minimum of the model. *)
Lemma create_never_validates_amount `{PyLib} (env : Env) (request : CreateRequest)
    (w : World) :
  required_fields_present request = true ->
  response_status (fst (dispatch (LoanApplicationViewSet.create env request) w))
    <> HTTP_400_BAD_REQUEST.
Proof.
  intros Hvalid. unfold dispatch.
  destruct (create_cases env request w)
    as [(Hinvalid & _)
       | [(_ & amount & response & w' & _ & Htry & Hrun)
         | (_ & amount & e & w1 & _ & _ & Hrun)]].
  - congruence.
  - rewrite Hrun. simpl.
    apply create_try_Return in Htry as (? & ? & ? & ? & _ & -> & _). discriminate.
  - rewrite Hrun. discriminate.
Qed.

(** C4. A first submission of 50 for new@x.com: the validator of the model
    refuses 50, yet the submission is answered 201, an applicant and an
    application of amount 50 are stored, and three statements reached the
    database. *)
Theorem amount_below_minimum_is_stored :
  let env := mkEnv Demo.mock_settings Demo.offline 0 no_faults in
  let request := mkCreateRequest (Some {[ "name" := "New Applicant"; "email" := "new@x.com" ]})
                   (Some 50%Q) in
  let result := dispatch (LoanApplicationViewSet.create (H := Demo.lib) env request)
                  (Demo.world empty_db) in
  LoanApplication.amount_validator 50 = false /\
  response_status (fst result) = HTTP_201_CREATED /\
  Applicant.email <$> applicants (db (snd result)) !! 1 = Some "new@x.com" /\
  LoanApplication.amount <$> applications (db (snd result)) !! 1 = Some 50%Q /\
  log (snd result) = [INSERT_applicant 1; INSERT_application 1; UPDATE_application 1].
Proof. vm_compute. repeat split; reflexivity. Qed.

(** ** The status serializer *)

Lemma to_internal_value_Some (s : string) (st : Status) :
  LoanApplicationStatusSerializer.to_internal_value s = Some st <-> s = status_value st.
Proof.
  split.
  - unfold LoanApplicationStatusSerializer.to_internal_value, STATUS_CHOICES.
    cbn [List.find fst status_value].
    repeat (match goal with
            | |- context [String.eqb ?a s] =>
                destruct (String.eqb_spec a s) as [<- | _];
                [cbn [fmap option_fmap option_map fst]; intros [= <-]; reflexivity |]
            end).
    discriminate.
  - intros ->. destruct st; reflexivity.
Qed.

(** X1. The status serializer decodes a body exactly as the statuses are
    stored: its validated data holds a status exactly when the body has,
    under the key status, the stored value of that status; it holds none
    exactly when the body has no such key; the serializer reports the field
    status exactly when the body has it with a text that is the stored
    value of no status. Two statuses never share a stored value. *)
Theorem status_serializer_round_trip (data : gmap string string) :
  (forall st, LoanApplicationStatusSerializer.is_valid data = inr (Some st)
              <-> data !! "status" = Some (status_value st)) /\
  (LoanApplicationStatusSerializer.is_valid data = inr None <-> data !! "status" = None) /\
  (forall field, LoanApplicationStatusSerializer.is_valid data = inl field <->
     field = "status" /\
     exists s, data !! "status" = Some s /\ forall st, s <> status_value st) /\
  (forall st st', status_value st = status_value st' -> st = st').
Proof.
  assert (Hinj : forall st st', status_value st = status_value st' -> st = st')
    by (intros [] []; simpl; intros; congruence).
  unfold LoanApplicationStatusSerializer.is_valid.
  destruct (data !! "status") as [s |] eqn:Hs.
  - destruct (LoanApplicationStatusSerializer.to_internal_value s) as [st0 |] eqn:Hv.
    + apply to_internal_value_Some in Hv. subst s.
      split_and!; try assumption.
      * intros st. split; [intros [= ->]; reflexivity
                          | intros [= Heq]; apply Hinj in Heq; now subst].
      * split; discriminate.
      * intros field. split; [discriminate |].
        intros (_ & s & [= <-] & Hno). now destruct (Hno st0).
    + assert (Hno : forall st, s <> status_value st).
      { intros st ->. rewrite (proj2 (to_internal_value_Some _ st) eq_refl) in Hv.
        discriminate. }
      split_and!; try assumption.
      * intros st. split; [discriminate |]. intros [= ->]. now destruct (Hno st).
      * split; discriminate.
      * intros field. split; [intros [= <-]; eauto | intros [-> _]; reflexivity].
  - split_and!; try assumption.
    + intros st. split; discriminate.
    + split; reflexivity.
    + intros field. split; [discriminate | intros (_ & s & [=] & _)].
Qed.

(** ** The queryset *)

Lemma get_queryset_Some (qp : QueryParams) (d : DB) (k : Z) (row : LoanApplication.t) :
  LoanApplicationViewSet.get_queryset qp d !! k = Some row <->
  applications d !! k = Some row /\
  (forall s, qp_status qp = Some s -> s <> "" ->
             status_value (LoanApplication.status row) = s) /\
  (forall start_date, qp_start_date qp = Some start_date ->
                      start_date <= LoanApplication.created_at row) /\
  (forall end_date, qp_end_date qp = Some end_date ->
                    LoanApplication.created_at row <= end_date).
Proof.
  unfold LoanApplicationViewSet.get_queryset.
  destruct qp as [status_filter start_date end_date]. simpl.
  assert (Hend : forall queryset : gmap Z LoanApplication.t,
             match end_date with
             | Some e => filter (fun kv => LoanApplication.created_at (snd kv) <= e) queryset
             | None => queryset
             end !! k = Some row <->
             queryset !! k = Some row /\
             (forall e, end_date = Some e -> LoanApplication.created_at row <= e)).
  { intros queryset. destruct end_date as [e |].
    - rewrite map_lookup_filter_Some. simpl. split.
      + intros [Hk He]. split; [assumption |]. now intros ? [= <-].
      + intros [Hk He]. auto.
    - split; [intros Hk; split; [assumption | discriminate] | now intros [Hk _]]. }
  assert (Hstart : forall queryset : gmap Z LoanApplication.t,
             match start_date with
             | Some s => filter (fun kv => s <= LoanApplication.created_at (snd kv)) queryset
             | None => queryset
             end !! k = Some row <->
             queryset !! k = Some row /\
             (forall s, start_date = Some s -> s <= LoanApplication.created_at row)).
  { intros queryset. destruct start_date as [s |].
    - rewrite map_lookup_filter_Some. simpl. split.
      + intros [Hk Hs]. split; [assumption |]. now intros ? [= <-].
      + intros [Hk Hs]. auto.
    - split; [intros Hk; split; [assumption | discriminate] | now intros [Hk _]]. }
  rewrite Hend, Hstart.
  destruct status_filter as [[| c s] |]; simpl.
  - split; [intros [[Hk Hs] He]; split_and!; auto; now intros ? [= <-]
           | intros (Hk & _ & Hs & He); auto].
  - rewrite map_lookup_filter_Some. simpl. split.
    + intros [[[Hk Hst] Hs] He]. split_and!; auto. intros ? [= <-] _. exact Hst.
    + intros (Hk & Hst & Hs & He). split_and!; auto.
  - split; [intros [[Hk Hs] He]; split_and!; auto; discriminate
           | intros (Hk & _ & Hs & He); auto].
Qed.

(** X2. The filters of the queryset compose as a conjunction: a row is in
    the queryset exactly when it is in the table, its stored status is the
    status parameter when one is sent and is not empty, it was created at
    or after the start date when one is sent, and at or before the end
    date when one is sent. Without parameters the queryset is the table; an
    empty status parameter filters nothing; the queryset never holds a row
    that the table does not. *)
Theorem get_queryset_filters_compose (qp : QueryParams) (d : DB) :
  (forall k row,
     LoanApplicationViewSet.get_queryset qp d !! k = Some row <->
     applications d !! k = Some row /\
     (forall s, qp_status qp = Some s -> s <> "" ->
                status_value (LoanApplication.status row) = s) /\
     (forall start_date, qp_start_date qp = Some start_date ->
                         start_date <= LoanApplication.created_at row) /\
     (forall end_date, qp_end_date qp = Some end_date ->
                       LoanApplication.created_at row <= end_date)) /\
  LoanApplicationViewSet.get_queryset no_query d = applications d /\
  LoanApplicationViewSet.get_queryset
    (mkQueryParams (Some "") (qp_start_date qp) (qp_end_date qp)) d
  = LoanApplicationViewSet.get_queryset
      (mkQueryParams None (qp_start_date qp) (qp_end_date qp)) d /\
  LoanApplicationViewSet.get_queryset qp d ⊆ applications d.
Proof.
  split; [intros k row; apply get_queryset_Some |].
  split; [reflexivity |]. split; [reflexivity |].
  apply map_subseteq_spec. intros k row Hk. now apply get_queryset_Some in Hk.
Qed.

(** ** Status updates: any request, any environment *)

Section AnyStatusUpdate.
Context `{PyLib}.
Variable env : Env.

(** Every way in which [update_status] ends. *)
Lemma update_status_cases (request : DetailRequest) (w : World) :
  LoanApplicationViewSet.update_status env request w =
  match db_fault env OpGetObject with
  | Some e => (Raise e, w)
  | None =>
      match LoanApplicationViewSet.get_queryset (query_params request) (db w)
              !! pk request with
      | None => (Raise Http404, w)
      | Some row =>
          if decide (LoanApplication.status row = STATUS_MANUAL_REVIEW) then
            match LoanApplicationStatusSerializer.is_valid (data request) with
            | inl field => (Return (mkResponse (FieldErrors field) HTTP_400_BAD_REQUEST), w)
            | inr validated_data =>
                match db_fault env OpSaveApplication with
                | Some e => (Raise e, w)
                | None =>
                    let new_status := default STATUS_MANUAL_REVIEW validated_data in
                    (Return (mkResponse (StatusBody new_status) HTTP_200_OK),
                     updated w (pk request) (with_status row new_status (now env)))
                end
            end
          else
            (Return (mkResponse (ErrorBody "Only manual review applications can be updated")
                                HTTP_400_BAD_REQUEST), w)
      end
  end.
Proof.
  unfold LoanApplicationViewSet.update_status, try_except, bind at 1,
    LoanApplicationViewSet.get_object, bind, db_guard, get_db.
  destruct (db_fault env OpGetObject) as [e |]; [reflexivity |]. simpl.
  destruct (LoanApplicationViewSet.get_queryset _ _ !! _) as [row |]; [| reflexivity].
  simpl.
  destruct (decide (LoanApplication.status row = STATUS_MANUAL_REVIEW)) as [Hstatus | Hstatus].
  - rewrite bool_decide_eq_false_2 by (intros Hne; now apply Hne).
    destruct (LoanApplicationStatusSerializer.is_valid (data request)) as [field | v];
      [reflexivity |].
    unfold save_application, bind, db_guard.
    destruct (db_fault env OpSaveApplication) as [e |]; [destruct v; reflexivity |].
    destruct v as [st |]; simpl; [reflexivity |].
    unfold with_status, updated. rewrite Hstatus. reflexivity.
  - now rewrite bool_decide_eq_true_2.
Qed.

(** X3. Whatever the request, the query string, the body and the failures
    of the database, [update_status] is answered 200, 400, 404 or 500 and
    touches at most the row of the URL: the applicants, the two counters,
    the generator and every other application are as before. An answer
    other than 200 leaves the world as it was. An answer of 200 means that
    the row was stored in manual review; it is then stored with the status
    of the answer and the instant of the update, its applicant, amount,
    risk score, reference and creation instant as they were, and one
    UPDATE of that row was sent. *)
Theorem update_status_touches_one_row (request : DetailRequest) (w : World) :
  let result := dispatch (LoanApplicationViewSet.update_status env request) w in
  applicants (db (snd result)) = applicants (db w) /\
  next_applicant_id (db (snd result)) = next_applicant_id (db w) /\
  next_application_id (db (snd result)) = next_application_id (db w) /\
  rng (snd result) = rng w /\
  (forall j, j <> pk request ->
             applications (db (snd result)) !! j = applications (db w) !! j) /\
  (response_status (fst result) = HTTP_200_OK \/
   response_status (fst result) = HTTP_400_BAD_REQUEST \/
   response_status (fst result) = HTTP_404_NOT_FOUND \/
   response_status (fst result) = HTTP_500_INTERNAL_SERVER_ERROR) /\
  (response_status (fst result) <> HTTP_200_OK -> snd result = w) /\
  (response_status (fst result) = HTTP_200_OK ->
   exists row new_status,
     applications (db w) !! pk request = Some row /\
     LoanApplication.status row = STATUS_MANUAL_REVIEW /\
     fst result = mkResponse (StatusBody new_status) HTTP_200_OK /\
     applications (db (snd result)) !! pk request
       = Some (with_status row new_status (now env)) /\
     log (snd result) = log w ++ [UPDATE_application (pk request)]).
Proof.
  unfold dispatch. rewrite update_status_cases.
  destruct (db_fault env OpGetObject) as [e |].
  { destruct e; simpl; split_and!; auto; discriminate. }
  destruct (LoanApplicationViewSet.get_queryset _ _ !! _) as [row |] eqn:Hrow.
  2:{ simpl; split_and!; auto; discriminate. }
  apply get_queryset_Some in Hrow as [Hrow _].
  destruct (decide (LoanApplication.status row = STATUS_MANUAL_REVIEW)) as [Hstatus | Hstatus].
  2:{ simpl; split_and!; auto; discriminate. }
  destruct (LoanApplicationStatusSerializer.is_valid (data request)) as [field | v].
  { simpl; split_and!; auto; discriminate. }
  destruct (db_fault env OpSaveApplication) as [e |].
  { destruct e; simpl; split_and!; auto; discriminate. }
  simpl. split_and!; auto.
  - intros j Hj. now apply lookup_insert_ne.
  - intros Hne. now destruct Hne.
  - intros _. exists row, (default STATUS_MANUAL_REVIEW v).
    split_and!; auto. apply lookup_insert_eq.
Qed.

(** X4. On an application in manual review, with a database that works:
    a body without the key status is answered 200 and stores the row with
    its status unchanged and the instant of the update; a body whose status
    is the stored value of no status is answered 400 with the field status
    in error and changes nothing; a body whose status is the stored value
    of a status is answered 200 and stores that status, whatever other
    keys the body has. *)
Theorem update_status_body_edge_cases (request : DetailRequest)
    (row : LoanApplication.t) (w : World) :
  db_fault env OpGetObject = None ->
  db_fault env OpSaveApplication = None ->
  LoanApplicationViewSet.get_queryset (query_params request) (db w) !! pk request
    = Some row ->
  LoanApplication.status row = STATUS_MANUAL_REVIEW ->
  (data request !! "status" = None ->
   LoanApplicationViewSet.update_status env request w
   = (Return (mkResponse (StatusBody STATUS_MANUAL_REVIEW) HTTP_200_OK),
      updated w (pk request) (with_status row STATUS_MANUAL_REVIEW (now env)))) /\
  (forall s, data request !! "status" = Some s ->
             (forall new_status, s <> status_value new_status) ->
             LoanApplicationViewSet.update_status env request w
             = (Return (mkResponse (FieldErrors "status") HTTP_400_BAD_REQUEST), w)) /\
  (forall new_status, data request !! "status" = Some (status_value new_status) ->
             LoanApplicationViewSet.update_status env request w
             = (Return (mkResponse (StatusBody new_status) HTTP_200_OK),
                updated w (pk request) (with_status row new_status (now env)))).
Proof.
  intros Hfault1 Hfault2 Hrow Hstatus.
  rewrite update_status_cases, Hfault1, Hfault2, Hrow.
  destruct (decide _) as [_ | Hne]; [| contradiction].
  unfold LoanApplicationStatusSerializer.is_valid.
  split_and!.
  - intros ->. reflexivity.
  - intros s -> Hinvalid.
    destruct (LoanApplicationStatusSerializer.to_internal_value s) as [st |] eqn:Hs;
      [| reflexivity].
    apply to_internal_value_Some in Hs. now destruct (Hinvalid st).
  - intros new_status ->. rewrite to_internal_value_status_value. reflexivity.
Qed.

(** X5. [get_object] looks the row up in the filtered queryset, so a
    status parameter in the query string of [update_status] that is not
    empty and is not manual_review makes every update fail: the answer is
    never 200 and the world is unchanged. With a database that works, an
    application that is stored with another status than the parameter is
    answered 404, as if it did not exist. *)
Theorem update_status_under_status_filter (request : DetailRequest) (s : string)
    (w : World) :
  qp_status (query_params request) = Some s ->
  s <> "" -> s <> "manual_review" ->
  let result := dispatch (LoanApplicationViewSet.update_status env request) w in
  response_status (fst result) <> HTTP_200_OK /\
  snd result = w /\
  (db_fault env OpGetObject = None ->
   forall row, applications (db w) !! pk request = Some row ->
               status_value (LoanApplication.status row) <> s ->
               fst result = mkResponse NotFoundBody HTTP_404_NOT_FOUND).
Proof.
  intros Hfilter Hnonempty Hother.
  unfold dispatch. rewrite update_status_cases.
  destruct (db_fault env OpGetObject) as [e |].
  { destruct e; simpl; split_and!; auto; discriminate. }
  destruct (LoanApplicationViewSet.get_queryset _ _ !! _) as [row |] eqn:Hrow.
  2:{ simpl; split_and!; auto; discriminate. }
  apply get_queryset_Some in Hrow as (Hrow & Hmatch & _).
  specialize (Hmatch s Hfilter Hnonempty).
  destruct (decide (LoanApplication.status row = STATUS_MANUAL_REVIEW)) as [Hstatus | Hstatus].
  { exfalso. apply Hother. rewrite <- Hmatch, Hstatus. reflexivity. }
  simpl. split_and!; auto; try discriminate.
  intros _ row' Hrow' Hne. rewrite Hrow in Hrow'. injection Hrow' as <-. contradiction.
Qed.
End AnyStatusUpdate.

(** X4, witness: an empty body for an application in manual review. *)
Lemma update_status_body_witness :
  let env := mkEnv Demo.mock_settings Demo.offline 10 no_faults in
  let row := LoanApplication.mk 1 5000 (Some 50%Q) STATUS_MANUAL_REVIEW None 0 0 in
  let w := Demo.world (mkDB ∅ {[ 1 := row ]} 1 2) in
  LoanApplicationViewSet.update_status (H := Demo.lib) env (mkDetailRequest no_query 1 ∅) w
  = (Return (mkResponse (StatusBody STATUS_MANUAL_REVIEW) HTTP_200_OK),
     updated w 1 (with_status row STATUS_MANUAL_REVIEW 10)).
Proof.
  intros env row w.
  assert (Hrow : LoanApplicationViewSet.get_queryset no_query (db w) !! 1 = Some row)
    by (vm_compute; reflexivity).
  destruct (update_status_body_edge_cases (H := Demo.lib) env (mkDetailRequest no_query 1 ∅)
              row w eq_refl eq_refl Hrow eq_refl) as (Hmissing & _ & _).
  apply Hmissing. apply lookup_empty.
Defined.

(** X5, witness: an update sent with [?status=approved]. *)
Lemma update_status_filter_witness :
  let env := mkEnv Demo.mock_settings Demo.offline 10 no_faults in
  let row := LoanApplication.mk 1 5000 (Some 50%Q) STATUS_MANUAL_REVIEW None 0 0 in
  let w := Demo.world (mkDB ∅ {[ 1 := row ]} 1 2) in
  let request := mkDetailRequest (mkQueryParams (Some "approved") None None) 1
                   {[ "status" := "approved" ]} in
  response_status (fst (dispatch (LoanApplicationViewSet.update_status (H := Demo.lib)
                                    env request) w)) <> HTTP_200_OK /\
  snd (dispatch (LoanApplicationViewSet.update_status (H := Demo.lib) env request) w) = w.
Proof.
  intros env row w request.
  assert (Hfilter : qp_status (query_params request) = Some "approved") by reflexivity.
  assert (Hnonempty : "approved" <> "") by discriminate.
  assert (Hother : "approved" <> "manual_review") by discriminate.
  destruct (update_status_under_status_filter (H := Demo.lib) env request "approved" w
              Hfilter Hnonempty Hother) as (Hnever & Hsame & _).
  split; assumption.
Defined.

(** ** The mock strategy: bounds and decisions *)

(** [round] against a half-integer. *)
Lemma Py_round_le (x : Q) (n : Z) : (x < inject_Z n + (1 # 2))%Q -> Py.round x <= n.
Proof.
  intros Hx.
  pose proof (Qfloor_le x) as Hfl. pose proof (Qlt_floor x) as Hfu.
  assert (Hf : Qfloor x <= n).
  { destruct (Z_le_gt_dec (Qfloor x) n) as [? | Hgt]; [assumption | exfalso].
    assert (inject_Z (n + 1) <= inject_Z (Qfloor x))%Q by (apply inject_Z_le; lia).
    rewrite inject_Z_plus in H. change (inject_Z 1) with 1%Q in H. lra. }
  unfold Py.round.
  destruct (x - inject_Z (Qfloor x) ?= 1 # 2)%Q eqn:Hcmp; [| lia |].
  - apply Qeq_alt in Hcmp.
    destruct (Z.eq_dec (Qfloor x) n) as [Heq | Hne]; [| destruct (Z.even _); lia].
    exfalso. rewrite Heq in Hcmp. lra.
  - apply Qgt_alt in Hcmp.
    destruct (Z.eq_dec (Qfloor x) n) as [Heq | Hne]; [| lia].
    exfalso. rewrite Heq in Hcmp. lra.
Qed.

Lemma Py_round_ge (x : Q) (n : Z) : (inject_Z n - (1 # 2) < x)%Q -> n <= Py.round x.
Proof.
  intros Hx.
  pose proof (Qfloor_le x) as Hfl. pose proof (Qlt_floor x) as Hfu.
  rewrite inject_Z_plus in Hfu. change (inject_Z 1) with 1%Q in Hfu.
  assert (Hf : n - 1 <= Qfloor x).
  { destruct (Z_le_gt_dec (n - 1) (Qfloor x)) as [? | Hgt]; [assumption | exfalso].
    assert (inject_Z (Qfloor x + 1) <= inject_Z (n - 1))%Q by (apply inject_Z_le; lia).
    rewrite inject_Z_plus in H. unfold Z.sub in H. rewrite inject_Z_plus in H.
    rewrite inject_Z_opp in H. change (inject_Z 1) with 1%Q in H. lra. }
  unfold Py.round.
  destruct (x - inject_Z (Qfloor x) ?= 1 # 2)%Q eqn:Hcmp.
  - apply Qeq_alt in Hcmp.
    destruct (Z.eq_dec (Qfloor x) (n - 1)) as [Heq | Hne]; [| destruct (Z.even _); lia].
    exfalso. rewrite Heq in Hcmp. unfold Z.sub in Hcmp.
    rewrite inject_Z_plus, inject_Z_opp in Hcmp. change (inject_Z 1) with 1%Q in Hcmp. lra.
  - apply Qlt_alt in Hcmp.
    destruct (Z.eq_dec (Qfloor x) (n - 1)) as [Heq | Hne]; [| lia].
    exfalso. rewrite Heq in Hcmp. unfold Z.sub in Hcmp.
    rewrite inject_Z_plus, inject_Z_opp in Hcmp. change (inject_Z 1) with 1%Q in Hcmp. lra.
  - lia.
Qed.

(** A tie between an odd integer and its successor goes to the successor. *)
Lemma Py_round_ge_odd_tie (x : Q) (n : Z) :
  Z.even n = true -> (inject_Z n - (1 # 2) <= x)%Q -> n <= Py.round x.
Proof.
  intros Heven Hx.
  destruct (Qlt_le_dec (inject_Z n - (1 # 2)) x) as [Hlt | Hle];
    [now apply Py_round_ge |].
  assert (Heq : (x == inject_Z (n - 1) + (1 # 2))%Q).
  { unfold Z.sub. rewrite inject_Z_plus, inject_Z_opp. change (inject_Z 1) with 1%Q. lra. }
  assert (Hfloor : Qfloor x = n - 1).
  { pose proof (Qfloor_le x) as Hfl. pose proof (Qlt_floor x) as Hfu.
    rewrite inject_Z_plus in Hfu. change (inject_Z 1) with 1%Q in Hfu.
    assert (Hup : Qfloor x < n - 1 + 1).
    { apply inject_Z_lt. rewrite inject_Z_plus. change (inject_Z 1) with 1%Q. lra. }
    assert (Hlo : n - 1 - 1 < Qfloor x).
    { apply inject_Z_lt. unfold Z.sub at 1. rewrite inject_Z_plus, inject_Z_opp.
      change (inject_Z 1) with 1%Q. lra. }
    lia. }
  unfold Py.round. rewrite Hfloor.
  assert (Hcmp : (x - inject_Z (n - 1) ?= 1 # 2)%Q = Eq) by (apply Qeq_alt; lra).
  rewrite Hcmp.
  replace (Z.even (n - 1)) with false; [lia |].
  rewrite Z.even_sub, Heven. reflexivity.
Qed.

Lemma amount_risk_linear (amount : Q) : (amount / 10000 * 12 == amount * (3 # 2500))%Q.
Proof. unfold Qdiv. change (/ 10000)%Q with (1 # 10000)%Q. lra. Qed.

Lemma auto_decision_inject_Z (score : Z) :
  (auto_decision (inject_Z score) = STATUS_APPROVED <-> score < 30) /\
  (auto_decision (inject_Z score) = STATUS_REJECTED <-> 70 < score).
Proof.
  pose proof (inject_Z_lt score 30) as H30. pose proof (inject_Z_lt 70 score) as H70.
  pose proof (inject_Z_le 30 score) as H30'. pose proof (inject_Z_le score 70) as H70'.
  change (inject_Z 30) with 30%Q in *. change (inject_Z 70) with 70%Q in *.
  destruct (auto_decision_cases (inject_Z score)) as [[Hs ->] | [[Hs ->] | [[Hs1 Hs2] ->]]];
    split; split; intros; try discriminate; try reflexivity;
    rewrite ?H30, ?H70, ?H30', ?H70' in *; lia.
Qed.

Section MockDecision.
Context `{PyLib}.
Variable settings : Settings.
Variable network : Network.

(** In mock mode the scoring service returns the mock score and leaves the
    generator in the state reached from the seed. *)
Lemma get_risk_score_mock (applicant_data : gmap string string) (loan_amount : Q)
    (w : World) :
  live_mode settings = false ->
  RiskScoringService.get_risk_score settings network applicant_data loan_amount w =
  (Return (inject_Z (computed_mock_score (default "" (applicant_data !! "name"))
                       (default "" (applicant_data !! "email")) loan_amount)),
   mkWorld (db w)
     (snd (random_randint
             (random_seed (md5_hexdigest8
                (default "" (applicant_data !! "email") ++ format_amount loan_amount)))
             (-12) 12))
     (log w)).
Proof.
  intros Hmock. unfold live_mode in Hmock. apply negb_false_iff in Hmock.
  unfold RiskScoringService.get_risk_score. rewrite Hmock.
  unfold bind. rewrite calculate_mock_score_formula. reflexivity.
Qed.

(** The sum that the mock strategy rounds, between the bounds of its five
    terms. *)
Lemma mock_score_terms (name email : string) (amount : Q) :
  exists risk ea na offset : Q,
    computed_mock_score name email amount
      = Z.max 0 (Z.min 100 (Py.round (50 + risk + ea + na + offset)%Q)) /\
    (risk <= 25 /\ risk <= amount / 10000 * 12 /\
     (risk == 25 \/ risk == amount / 10000 * 12))%Q /\
    (if Py.any_in ["gmail.com"; "yahoo.com"; "hotmail.com"] (Py.lower email) then ea = 5%Q
     else if Py.any_in [".edu"; ".gov"; ".org"] (Py.lower email) then ea = (-8)%Q
     else ea = 0%Q) /\
    (if (2 <=? Py.split_len name)%nat then na = (-4)%Q else na = 0%Q) /\
    (-12 <= offset <= 12)%Q.
Proof.
  pose proof (seeded_offset_range email amount) as Hoff.
  eexists (Qmin 25 (amount / 10000 * 12)), _, _, (inject_Z (Spec.seeded_offset email amount)).
  split; [reflexivity |].
  split.
  { split; [apply Q.le_min_l |]. split; [apply Q.le_min_r |].
    destruct (Q.min_dec 25 (amount / 10000 * 12)) as [-> | ->]; [left | right]; reflexivity. }
  split; [destruct (Py.any_in _ _); [| destruct (Py.any_in _ _)]; reflexivity |].
  split; [destruct (2 <=? _)%nat; reflexivity |].
  split; [apply (inject_Z_le (-12)) | apply (inject_Z_le _ 12)]; lia.
Qed.

(** X15. In mock mode the amount decides which automatic decisions are
    possible: a score that rejects needs an amount of at least 8750/3
    (2916.67), a score that approves needs an amount below it. For an
    amount that is not negative, approval also needs a lower-cased address
    that contains ".edu", ".gov" or ".org" and none of "gmail.com",
    "yahoo.com", "hotmail.com", and a name of two or more tokens. *)
Theorem mock_auto_decision_requirements (applicant_data : gmap string string)
    (loan_amount : Q) (w : World) (score : Q) :
  live_mode settings = false ->
  fst (RiskScoringService.get_risk_score settings network applicant_data loan_amount w)
    = Return score ->
  let email := Py.lower (default "" (applicant_data !! "email")) in
  let name := default "" (applicant_data !! "name") in
  (auto_decision score = STATUS_REJECTED -> (8750 # 3 <= loan_amount)%Q) /\
  (auto_decision score = STATUS_APPROVED -> (loan_amount < 8750 # 3)%Q) /\
  (auto_decision score = STATUS_APPROVED -> (0 <= loan_amount)%Q ->
   Py.any_in ["gmail.com"; "yahoo.com"; "hotmail.com"] email = false /\
   Py.any_in [".edu"; ".gov"; ".org"] email = true /\
   (2 <= Py.split_len name)%nat).
Proof.
  intros Hmock Hrun email name.
  rewrite get_risk_score_mock in Hrun by assumption. simpl in Hrun. injection Hrun as <-.
  fold name.
  destruct (mock_score_terms name (default "" (applicant_data !! "email")) loan_amount)
    as (risk & ea & na & offset & -> & (Hr25 & Hramount & Hrisk) & Hea & Hna & Hoff).
  fold email in Hea.
  rewrite amount_risk_linear in Hramount, Hrisk.
  set (total := (50 + risk + ea + na + offset)%Q).
  destruct (auto_decision_inject_Z (Z.max 0 (Z.min 100 (Py.round total))))
    as [Happroved Hrejected].
  rewrite Happroved, Hrejected.
  assert (Hea' : (-8 <= ea <= 5)%Q).
  { destruct (Py.any_in _ email); [| destruct (Py.any_in _ email)]; subst ea; lra. }
  assert (Hna' : (-4 <= na <= 0)%Q) by (destruct (2 <=? _)%nat; subst na; lra).
  split_and!.
  - intros Hgt.
    destruct (Qlt_le_dec loan_amount (8750 # 3)) as [Hsmall | ?]; [exfalso | assumption].
    assert (Py.round total <= 70); [| lia].
    apply Py_round_le. unfold total. change (inject_Z 70) with 70%Q. lra.
  - intros Hlt.
    destruct (Qlt_le_dec loan_amount (8750 # 3)) as [? | Hlarge]; [assumption | exfalso].
    assert (30 <= Py.round total); [| lia].
    apply Py_round_ge_odd_tie; [reflexivity |]. unfold total. change (inject_Z 30) with 30%Q.
    destruct Hrisk as [Hrisk | Hrisk]; lra.
  - intros Hlt Hamount.
    assert (Hround : Py.round total < 30) by lia.
    assert (Hrisk0 : (0 <= risk)%Q) by (destruct Hrisk as [Hrisk | Hrisk]; lra).
    destruct (Py.any_in ["gmail.com"; "yahoo.com"; "hotmail.com"] email).
    { exfalso. assert (30 <= Py.round total); [| lia].
      apply Py_round_ge. unfold total. change (inject_Z 30) with 30%Q. subst ea. lra. }
    destruct (Py.any_in [".edu"; ".gov"; ".org"] email).
    2:{ exfalso. assert (30 <= Py.round total); [| lia].
        apply Py_round_ge. unfold total. change (inject_Z 30) with 30%Q. subst ea. lra. }
    destruct (2 <=? Py.split_len name)%nat eqn:Htokens.
    2:{ exfalso. assert (30 <= Py.round total); [| lia].
        apply Py_round_ge. unfold total. change (inject_Z 30) with 30%Q. subst ea na. lra. }
    split_and!; try reflexivity. now apply Nat.leb_le.
Qed.

(** X16. In mock mode, for an amount that is not negative and that
    [float] converts, the scoring service returns an integer between 26
    and 92: the clamp to [0, 100] never acts. *)
Theorem mock_score_between_26_and_92 (applicant_data : gmap string string)
    (loan_amount : Q) (w : World) :
  live_mode settings = false -> (0 <= loan_amount)%Q ->
  Py.float_in_range loan_amount ->
  exists score : Z,
    fst (RiskScoringService.get_risk_score settings network applicant_data loan_amount w)
      = Return (inject_Z score) /\
    26 <= score <= 92.
Proof.
  intros Hmock Hamount _. rewrite get_risk_score_mock by assumption. simpl.
  eexists. split; [reflexivity |]. now apply mock_score_range.
Qed.

(** In mock mode an amount of -31251 or less is approved, whoever applies. *)
Lemma mock_score_negative_amount (applicant_data : gmap string string)
    (loan_amount : Q) (w : World) :
  live_mode settings = false -> (loan_amount <= -31251)%Q ->
  exists score : Q,
    fst (RiskScoringService.get_risk_score settings network applicant_data loan_amount w)
      = Return score /\
    auto_decision score = STATUS_APPROVED.
Proof.
  intros Hmock Hamount. rewrite get_risk_score_mock by assumption. simpl.
  eexists. split; [reflexivity |].
  destruct (mock_score_terms (default "" (applicant_data !! "name"))
              (default "" (applicant_data !! "email")) loan_amount)
    as (risk & ea & na & offset & -> & (Hr25 & Hramount & Hrisk) & Hea & Hna & Hoff).
  rewrite amount_risk_linear in Hramount.
  apply auto_decision_inject_Z.
  assert (Hea' : (ea <= 5)%Q).
  { destruct (Py.any_in _ _); [| destruct (Py.any_in _ _)]; subst ea; lra. }
  assert (Hna' : (na <= 0)%Q) by (destruct (2 <=? _)%nat; subst na; lra).
  assert (Py.round (50 + risk + ea + na + offset) <= 29); [| lia].
  apply Py_round_le. change (inject_Z 29) with 29%Q. lra.
Qed.
End MockDecision.

(** X15, witness: Ann Lee of ann@mit.edu asks for 1000. *)
Lemma mock_auto_decision_witness :
  exists score : Q,
    fst (RiskScoringService.get_risk_score (H := Demo.lib) Demo.mock_settings Demo.offline
           {[ "name" := "Ann Lee"; "email" := "ann@mit.edu" ]} 1000 (Demo.world empty_db))
    = Return score /\
    (auto_decision score = STATUS_APPROVED -> (1000 < 8750 # 3)%Q).
Proof.
  assert (Hrun : exists score : Q,
             fst (RiskScoringService.get_risk_score (H := Demo.lib) Demo.mock_settings
                    Demo.offline {[ "name" := "Ann Lee"; "email" := "ann@mit.edu" ]} 1000
                    (Demo.world empty_db)) = Return score)
    by (vm_compute; eexists; reflexivity).
  destruct Hrun as [score Hrun]. exists score. split; [assumption |].
  destruct (mock_auto_decision_requirements (H := Demo.lib) Demo.mock_settings Demo.offline
              {[ "name" := "Ann Lee"; "email" := "ann@mit.edu" ]} 1000
              (Demo.world empty_db) score eq_refl Hrun) as (_ & Happroved & _).
  exact Happroved.
Defined.

(** X16, witness: a request for 5000. *)
Lemma mock_score_range_witness :
  exists score : Z,
    fst (RiskScoringService.get_risk_score (H := Demo.lib) Demo.mock_settings Demo.offline
           {[ "name" := "Ann Lee"; "email" := "new@x.com" ]} 5000 (Demo.world empty_db))
    = Return (inject_Z score) /\
    26 <= score <= 92.
Proof.
  apply (mock_score_between_26_and_92 (H := Demo.lib) Demo.mock_settings Demo.offline);
    [reflexivity | unfold Qle; simpl; lia
    | split; unfold Py.float_max, Qle; simpl; lia].
Defined.

(** ** Submission: every step *)

Section Steps.
Context `{PyLib}.
Variable env : Env.

Lemma get_or_create_cases (email name phone : string) (w : World) :
  match db_fault env OpGetOrCreate with
  | Some e => get_or_create env email name phone w = (Raise e, w)
  | None =>
      ((forall j r, applicants (db w) !! j = Some r -> Applicant.email r <> email) /\
       get_or_create env email name phone w =
       (Return ((next_applicant_id (db w),
                 Applicant.mk name email phone (now env) (now env)), true),
        mkWorld (mkDB (<[next_applicant_id (db w) :=
                          Applicant.mk name email phone (now env) (now env)]>
                         (applicants (db w)))
                      (applications (db w)) (next_applicant_id (db w) + 1)
                      (next_application_id (db w)))
                (rng w) (log w ++ [INSERT_applicant (next_applicant_id (db w))]))) \/
      (exists k old,
         applicants (db w) !! k = Some old /\ Applicant.email old = email /\
         (forall j r, applicants (db w) !! j = Some r -> Applicant.email r = email -> j = k) /\
         get_or_create env email name phone w = (Return ((k, old), false), w)) \/
      (exists j k r s,
         j <> k /\ applicants (db w) !! j = Some r /\ applicants (db w) !! k = Some s /\
         Applicant.email r = email /\ Applicant.email s = email /\
         get_or_create env email name phone w = (Raise MultipleObjectsReturned, w))
  end.
Proof.
  unfold get_or_create, bind, db_guard, get_db.
  destruct (db_fault env OpGetOrCreate) as [e |]; [reflexivity |]. simpl.
  pose proof (NoDup_fst_map_to_list
                (filter (fun kv : Z * Applicant.t => Applicant.email (snd kv) = email)
                   (applicants (db w)))) as Hnodup.
  assert (Hin : forall j r,
             (j, r) ∈ map_to_list
               (filter (fun kv : Z * Applicant.t => Applicant.email (snd kv) = email)
                  (applicants (db w))) <->
             applicants (db w) !! j = Some r /\ Applicant.email r = email).
  { intros j r. rewrite elem_of_map_to_list, map_lookup_filter_Some. reflexivity. }
  destruct (map_to_list _) as [| [k old] [| [k' old'] rest]].
  - left. split; [| reflexivity].
    intros j r Hj Hr. apply (not_elem_of_nil (j, r)). apply Hin. auto.
  - right; left. exists k, old.
    destruct (proj1 (Hin k old)) as [Hk Hold]; [apply list_elem_of_here |].
    split_and!; auto.
    intros j r Hj Hr.
    assert (Hjr : (j, r) ∈ [(k, old)]) by (apply Hin; auto).
    apply list_elem_of_singleton in Hjr. congruence.
  - right; right. exists k, k', old, old'.
    destruct (proj1 (Hin k old)) as [Hk Hold]; [apply list_elem_of_here |].
    destruct (proj1 (Hin k' old')) as [Hk' Hold'];
      [apply list_elem_of_further, list_elem_of_here |].
    split_and!; auto.
    simpl in Hnodup. apply NoDup_cons in Hnodup as [Hnotin _].
    intros ->. apply Hnotin. apply list_elem_of_here.
Qed.

Lemma update_details_result (applicant_data : gmap string string) (k : Z)
    (old : Applicant.t) :
  let new := Applicant.mk (default (Applicant.name old) (applicant_data !! "name"))
               (Applicant.email old)
               (default (Applicant.phone old) (applicant_data !! "phone"))
               (Applicant.created_at old) (Applicant.updated_at old) in
  let update_fields := snd (LoanApplicationViewSet.update_details applicant_data (k, old)) in
  fst (LoanApplicationViewSet.update_details applicant_data (k, old)) = (k, new) /\
  (update_fields = [] <-> new = old) /\
  Applicant.mk
    (if bool_decide ("name" ∈ update_fields) then Applicant.name new else Applicant.name old)
    (Applicant.email old)
    (if bool_decide ("phone" ∈ update_fields) then Applicant.phone new
     else Applicant.phone old)
    (Applicant.created_at old) (Applicant.updated_at old) = new.
Proof.
  unfold LoanApplicationViewSet.update_details.
  destruct old as [name email phone created updated]. simpl.
  destruct (applicant_data !! "name") as [n |];
    destruct (applicant_data !! "phone") as [p |]; simpl;
    repeat (case_bool_decide; simpl); simplify_eq;
    split_and!; try reflexivity;
    try (split; intros; simplify_eq; congruence);
    try (exfalso; set_solver).
Qed.

Lemma update_if_existed_cases (applicant_data : gmap string string) (k : Z)
    (old : Applicant.t) (w : World) :
  applicants (db w) !! k = Some old ->
  let new := Applicant.mk (default (Applicant.name old) (applicant_data !! "name"))
               (Applicant.email old)
               (default (Applicant.phone old) (applicant_data !! "phone"))
               (Applicant.created_at old) (Applicant.updated_at old) in
  LoanApplicationViewSet.update_if_existed env applicant_data (k, old) false w =
  match snd (LoanApplicationViewSet.update_details applicant_data (k, old)) with
  | [] => (Return (k, new), w)
  | update_fields =>
      match db_fault env OpSaveApplicant with
      | Some e => (Raise e, w)
      | None =>
          (Return (k, new),
           mkWorld (mkDB (<[k := new]> (applicants (db w))) (applications (db w))
                         (next_applicant_id (db w)) (next_application_id (db w)))
                   (rng w) (log w ++ [UPDATE_applicant k update_fields]))
      end
  end.
Proof.
  intros Hstored new.
  pose proof (update_details_result applicant_data k old) as (Hfst & _ & Hrow).
  fold new in Hfst, Hrow.
  unfold LoanApplicationViewSet.update_if_existed. simpl.
  destruct (LoanApplicationViewSet.update_details applicant_data (k, old))
    as [a' update_fields]. simpl in *. subst a'.
  destruct update_fields as [| f fs]; [reflexivity |].
  unfold bind, save_applicant, bind, db_guard, get_db.
  destruct (db_fault env OpSaveApplicant) as [e |]; [reflexivity |]. simpl.
  rewrite Hstored. unfold execute, ret. simpl. now rewrite Hrow.
Qed.

Lemma objects_create_cases (applicant : instance Applicant.t) (amount : Q)
    (status : Status) (w : World) :
  objects_create env applicant amount status w =
  match db_fault env OpCreateApplication with
  | Some e => (Raise e, w)
  | None =>
      let pk := next_application_id (db w) in
      let row := LoanApplication.mk (fst applicant) amount None status None
                   (now env) (now env) in
      (Return (pk, row),
       mkWorld (mkDB (applicants (db w)) (<[pk := row]> (applications (db w)))
                     (next_applicant_id (db w)) (pk + 1))
               (rng w) (log w ++ [INSERT_application pk]))
  end.
Proof.
  unfold objects_create, bind, db_guard.
  destruct (db_fault env OpCreateApplication); reflexivity.
Qed.

Lemma save_application_cases (application : instance LoanApplication.t) (w : World) :
  save_application env application w =
  match db_fault env OpSaveApplication with
  | Some e => (Raise e, w)
  | None =>
      let a := snd application in
      let row := LoanApplication.mk (LoanApplication.applicant a)
                   (LoanApplication.amount a) (LoanApplication.risk_score a)
                   (LoanApplication.status a) (LoanApplication.external_reference a)
                   (LoanApplication.created_at a) (now env) in
      (Return (fst application, row),
       mkWorld (mkDB (applicants (db w)) (<[fst application := row]> (applications (db w)))
                     (next_applicant_id (db w)) (next_application_id (db w)))
               (rng w) (log w ++ [UPDATE_application (fst application)]))
  end.
Proof.
  unfold save_application, bind, db_guard.
  destruct (db_fault env OpSaveApplication); reflexivity.
Qed.

(** The steps of the [try] block of [create] before the scoring: the
    applicant is found or inserted, updated when it was found, and the
    pending application is inserted. They either raise or reach the world
    in which the scoring runs. *)
Lemma create_try_cases (applicant_data : gmap string string) (amount : Q)
    (email : string) (w : World) :
  applicant_data !! "email" = Some email ->
  let pk := next_application_id (db w) in
  (exists e w1,
     LoanApplicationViewSet.create_try env applicant_data amount w = (Raise e, w1) /\
     (db_fault env OpGetOrCreate = Some e \/ db_fault env OpSaveApplicant = Some e \/
      db_fault env OpCreateApplication = Some e \/
      e = MultipleObjectsReturned /\
      exists i j r s, i <> j /\ applicants (db w) !! i = Some r /\
                      applicants (db w) !! j = Some s /\
                      Applicant.email r = email /\ Applicant.email s = email)) \/
  (exists (k : Z) (stored : Applicant.t) (created : bool) (statements : list sql)
          (next : Z),
     (if created then
        (forall j r, applicants (db w) !! j = Some r -> Applicant.email r <> email) /\
        k = next_applicant_id (db w) /\ next = k + 1 /\
        stored = Applicant.mk (default "" (applicant_data !! "name")) email
                   (default "" (applicant_data !! "phone")) (now env) (now env) /\
        statements = [INSERT_applicant k]
      else
        exists old,
          applicants (db w) !! k = Some old /\ Applicant.email old = email /\
          (forall j r, applicants (db w) !! j = Some r -> Applicant.email r = email ->
                       j = k) /\
          next = next_applicant_id (db w) /\
          stored = Applicant.mk (default (Applicant.name old) (applicant_data !! "name"))
                     email (default (Applicant.phone old) (applicant_data !! "phone"))
                     (Applicant.created_at old) (Applicant.updated_at old) /\
          statements =
            match snd (LoanApplicationViewSet.update_details applicant_data (k, old)) with
            | [] => []
            | update_fields => [UPDATE_applicant k update_fields]
            end) /\
     let scored_in :=
       mkWorld (mkDB (<[k := stored]> (applicants (db w)))
                     (<[pk := LoanApplication.mk k amount None STATUS_PENDING None
                                (now env) (now env)]> (applications (db w)))
                     next (pk + 1))
               (rng w) (log w ++ statements ++ [INSERT_application pk]) in
     match RiskScoringService.get_risk_score (settings env) (requests_post env)
             {[ "name" := Applicant.name stored; "email" := Applicant.email stored;
                "phone" := Applicant.phone stored ]} amount scored_in with
     | (Raise e, w1) =>
         LoanApplicationViewSet.create_try env applicant_data amount w = (Raise e, w1)
     | (Return score, w1) =>
         let row := LoanApplication.mk k amount (Some score) (auto_decision score) None
                      (now env) (now env) in
         LoanApplicationViewSet.create_try env applicant_data amount w =
         match db_fault env OpSaveApplication with
         | Some e => (Raise e, w1)
         | None =>
             (Return (mkResponse (ApplicationBody (pk, row) (k, stored)) HTTP_201_CREATED),
              mkWorld (mkDB (<[k := stored]> (applicants (db w)))
                            (<[pk := row]> (applications (db w))) next (pk + 1))
                      (rng w1)
                      (log w ++ statements ++ [INSERT_application pk; UPDATE_application pk]))
         end
     end).
Proof.
  intros Hemail pk.
  remember (LoanApplicationViewSet.create_try env applicant_data amount w)
    as result eqn:Hresult.
  unfold LoanApplicationViewSet.create_try in Hresult.
  rewrite Hemail in Hresult. unfold bind at 1 in Hresult. unfold ret at 1 in Hresult.
  unfold bind at 1 in Hresult.
  pose proof (get_or_create_cases email (default "" (applicant_data !! "name"))
                (default "" (applicant_data !! "phone")) w) as Hfound.
  destruct (db_fault env OpGetOrCreate) as [e |] eqn:Hfault1.
  { left. rewrite Hfound in Hresult. eauto 10. }
  assert (Htail : forall (k : Z) (stored : Applicant.t) (statements : list sql) (next : Z)
                          (result' : outcome Response * World),
             db_fault env OpCreateApplication = None ->
             result' =
               bind (objects_create env (k, stored) amount STATUS_PENDING)
                 (fun application =>
                    bind (RiskScoringService.get_risk_score (settings env)
                            (requests_post env)
                            {[ "name" := Applicant.name stored;
                               "email" := Applicant.email stored;
                               "phone" := Applicant.phone stored ]} amount)
                      (fun risk_score =>
                         bind (save_application env
                                 (fst application,
                                  LoanApplication.mk
                                    (LoanApplication.applicant (snd application))
                                    (LoanApplication.amount (snd application))
                                    (Some risk_score) (auto_decision risk_score)
                                    (LoanApplication.external_reference (snd application))
                                    (LoanApplication.created_at (snd application))
                                    (LoanApplication.updated_at (snd application))))
                           (fun application =>
                              ret (mkResponse (ApplicationBody application (k, stored))
                                     HTTP_201_CREATED))))
                 (mkWorld (mkDB (<[k := stored]> (applicants (db w)))
                                (applications (db w)) next (next_application_id (db w)))
                          (rng w) (log w ++ statements)) ->
             match RiskScoringService.get_risk_score (settings env) (requests_post env)
                     {[ "name" := Applicant.name stored; "email" := Applicant.email stored;
                        "phone" := Applicant.phone stored ]} amount
                     (mkWorld (mkDB (<[k := stored]> (applicants (db w)))
                                    (<[pk := LoanApplication.mk k amount None STATUS_PENDING
                                               None (now env) (now env)]>
                                       (applications (db w)))
                                    next (pk + 1))
                              (rng w) (log w ++ statements ++ [INSERT_application pk])) with
             | (Raise e, w1) => result' = (Raise e, w1)
             | (Return score, w1) =>
                 let row := LoanApplication.mk k amount (Some score) (auto_decision score)
                              None (now env) (now env) in
                 result' =
                 match db_fault env OpSaveApplication with
                 | Some e => (Raise e, w1)
                 | None =>
                     (Return (mkResponse (ApplicationBody (pk, row) (k, stored))
                                HTTP_201_CREATED),
                      mkWorld (mkDB (<[k := stored]> (applicants (db w)))
                                    (<[pk := row]> (applications (db w))) next (pk + 1))
                              (rng w1)
                              (log w ++ statements
                                 ++ [INSERT_application pk; UPDATE_application pk]))
                 end
             end).
  { intros k stored statements next result' Hfault3 Hrun.
    unfold bind at 1 in Hrun. rewrite objects_create_cases, Hfault3 in Hrun.
    cbn zeta in Hrun. cbn [db applicants applications next_applicant_id next_application_id
                           rng log fst snd] in Hrun.
    rewrite <- app_assoc in Hrun. fold pk in Hrun.
    unfold bind at 1 in Hrun.
    pose proof (get_risk_score_frame env
                  {[ "name" := Applicant.name stored; "email" := Applicant.email stored;
                     "phone" := Applicant.phone stored ]} amount) as Hframe.
    destruct (RiskScoringService.get_risk_score (settings env) (requests_post env) _
                amount _) as [[score | e] w1] eqn:Hscore; [| assumption].
    destruct (Hframe _ _ _ Hscore) as [Hdb Hlog]. simpl in Hdb, Hlog.
    unfold bind in Hrun. rewrite save_application_cases in Hrun.
    destruct (db_fault env OpSaveApplication) as [e |]; [assumption |].
    cbn zeta in Hrun. simpl in Hrun. unfold ret in Hrun.
    rewrite Hdb, Hlog in Hrun. simpl in Hrun.
    rewrite insert_insert_eq, <- !app_assoc in Hrun. exact Hrun. }
  destruct Hfound as [[Hfresh Hrun] | [(k & old & Hk & Hold & Hunique & Hrun)
                                      | (i & j & r & s & Hij & Hi & Hj & Hr & Hs & Hrun)]];
    rewrite Hrun in Hresult.
  3:{ left. do 2 eexists. split; [eassumption |]. right; right; right. eauto 15. }
  - (* the applicant was inserted *)
    unfold bind at 1 in Hresult.
    change (LoanApplicationViewSet.update_if_existed env applicant_data ?a true ?w0)
      with (Return a, w0) in Hresult.
    destruct (db_fault env OpCreateApplication) as [e |] eqn:Hfault3.
    { left. unfold bind at 1 in Hresult. rewrite objects_create_cases, Hfault3 in Hresult.
      eauto 10. }
    right.
    exists (next_applicant_id (db w)),
      (Applicant.mk (default "" (applicant_data !! "name")) email
         (default "" (applicant_data !! "phone")) (now env) (now env)),
      true, [INSERT_applicant (next_applicant_id (db w))], (next_applicant_id (db w) + 1).
    split; [split_and!; try reflexivity; assumption |].
    apply (Htail _ _ _ _ _ eq_refl Hresult).
  - (* the applicant was found *)
    unfold bind at 1 in Hresult.
    rewrite (update_if_existed_cases applicant_data k old w Hk) in Hresult.
    pose proof (update_details_result applicant_data k old) as (_ & [Hsame _] & _).
    rewrite Hold in Hresult.
    set (stored := Applicant.mk (default (Applicant.name old) (applicant_data !! "name"))
                     email (default (Applicant.phone old) (applicant_data !! "phone"))
                     (Applicant.created_at old) (Applicant.updated_at old)) in *.
    assert (Hcase : exists statements,
               statements =
                 match snd (LoanApplicationViewSet.update_details applicant_data (k, old)) with
                 | [] => []
                 | update_fields => [UPDATE_applicant k update_fields]
                 end /\
               ((exists e, db_fault env OpSaveApplicant = Some e /\ result = (Raise e, w)) \/
                result =
                  bind (objects_create env (k, stored) amount STATUS_PENDING)
                    (fun application =>
                       bind (RiskScoringService.get_risk_score (settings env)
                               (requests_post env)
                               {[ "name" := Applicant.name stored;
                                  "email" := Applicant.email stored;
                                  "phone" := Applicant.phone stored ]} amount)
                         (fun risk_score =>
                            bind (save_application env
                                    (fst application,
                                     LoanApplication.mk
                                       (LoanApplication.applicant (snd application))
                                       (LoanApplication.amount (snd application))
                                       (Some risk_score) (auto_decision risk_score)
                                       (LoanApplication.external_reference (snd application))
                                       (LoanApplication.created_at (snd application))
                                       (LoanApplication.updated_at (snd application))))
                              (fun application =>
                                 ret (mkResponse (ApplicationBody application (k, stored))
                                        HTTP_201_CREATED))))
                    (mkWorld (mkDB (<[k := stored]> (applicants (db w)))
                                   (applications (db w)) (next_applicant_id (db w))
                                   (next_application_id (db w)))
                             (rng w) (log w ++ statements)))).
    { eexists. split; [reflexivity |].
      destruct (snd (LoanApplicationViewSet.update_details applicant_data (k, old)))
        as [| f fs].
      - right. rewrite Hresult.
        assert (Hstored : stored = old).
        { unfold stored. rewrite <- Hold. apply Hsame. reflexivity. }
        match goal with |- _ = bind _ _ ?w' => replace w' with w end; [reflexivity |].
        rewrite app_nil_r, Hstored, (insert_id _ _ _ Hk).
        destruct w as [[] ? ?]. reflexivity.
      - destruct (db_fault env OpSaveApplicant) as [e |]; [left; eauto |].
        right. rewrite Hresult. reflexivity. }
    destruct Hcase as (statements & Hstatements & [(e & Hfault2 & ->) | Hrun']).
    { left. eauto 10. }
    destruct (db_fault env OpCreateApplication) as [e |] eqn:Hfault3.
    { left. rewrite Hrun'. unfold bind at 1. rewrite objects_create_cases, Hfault3.
      eauto 10. }
    right.
    exists k, stored, false, statements, (next_applicant_id (db w)).
    split.
    { exists old. split_and!; try reflexivity; assumption. }
    apply (Htail _ _ _ _ _ eq_refl Hrun').
Qed.
End Steps.

Lemma required_fields_present_inv (request : CreateRequest) :
  required_fields_present request = true ->
  exists amount email,
    data_amount request = Some amount /\ ~ (amount == 0)%Q /\
    default ∅ (data_applicant request) !! "email" = Some email /\ email <> "".
Proof.
  unfold required_fields_present. intros Hvalid.
  apply andb_prop in Hvalid as [Hvalid Hemail].
  apply andb_prop in Hvalid as [_ Hamount].
  destruct (data_amount request) as [amount |]; [| discriminate].
  destruct (default ∅ (data_applicant request) !! "email") as [email |]; [| discriminate].
  exists amount, email. split_and!; try reflexivity.
  - simpl in Hamount. unfold Py.truthy_num in Hamount.
    apply negb_true_iff in Hamount. intros Hzero.
    apply Qeq_bool_iff in Hzero. congruence.
  - intros ->. discriminate.
Qed.

Section Submission.
Context `{PyLib}.
Variable env : Env.

(** What a submission answered 201 did: the applicant it found or
    inserted, the score it obtained and the world it left. *)
Lemma create_201_inv (request : CreateRequest) (response : Response) (w w' : World) :
  LoanApplicationViewSet.create env request w = (Return response, w') ->
  response_status response = HTTP_201_CREATED ->
  let applicant_data := default ∅ (data_applicant request) in
  let pk := next_application_id (db w) in
  exists (amount : Q) (email : string) (k : Z) (stored : Applicant.t) (created : bool)
         (statements : list sql) (next : Z) (score : Q) (w1 : World),
    data_amount request = Some amount /\
    applicant_data !! "email" = Some email /\
    (if created then
       (forall j r, applicants (db w) !! j = Some r -> Applicant.email r <> email) /\
       k = next_applicant_id (db w) /\ next = k + 1 /\
       stored = Applicant.mk (default "" (applicant_data !! "name")) email
                  (default "" (applicant_data !! "phone")) (now env) (now env) /\
       statements = [INSERT_applicant k]
     else
       exists old,
         applicants (db w) !! k = Some old /\ Applicant.email old = email /\
         (forall j r, applicants (db w) !! j = Some r -> Applicant.email r = email ->
                      j = k) /\
         next = next_applicant_id (db w) /\
         stored = Applicant.mk (default (Applicant.name old) (applicant_data !! "name"))
                    email (default (Applicant.phone old) (applicant_data !! "phone"))
                    (Applicant.created_at old) (Applicant.updated_at old) /\
         statements =
           match snd (LoanApplicationViewSet.update_details applicant_data (k, old)) with
           | [] => []
           | update_fields => [UPDATE_applicant k update_fields]
           end) /\
    RiskScoringService.get_risk_score (settings env) (requests_post env)
      {[ "name" := Applicant.name stored; "email" := Applicant.email stored;
         "phone" := Applicant.phone stored ]} amount
      (mkWorld (mkDB (<[k := stored]> (applicants (db w)))
                     (<[pk := LoanApplication.mk k amount None STATUS_PENDING None
                                (now env) (now env)]> (applications (db w)))
                     next (pk + 1))
               (rng w) (log w ++ statements ++ [INSERT_application pk]))
    = (Return score, w1) /\
    let row := LoanApplication.mk k amount (Some score) (auto_decision score) None
                 (now env) (now env) in
    response = mkResponse (ApplicationBody (pk, row) (k, stored)) HTTP_201_CREATED /\
    w' = mkWorld (mkDB (<[k := stored]> (applicants (db w)))
                       (<[pk := row]> (applications (db w))) next (pk + 1))
                 (rng w1)
                 (log w ++ statements ++ [INSERT_application pk; UPDATE_application pk]).
Proof.
  intros Hrun Hstatus applicant_data pk.
  destruct (create_cases env request w)
    as [(_ & error & Hrun')
       | [(Hvalid & amount & response' & w'' & Hamount & Htry & Hrun')
         | (_ & amount & e & w1 & _ & _ & Hrun')]];
    rewrite Hrun in Hrun'; try discriminate.
  { injection Hrun' as -> _. discriminate. }
  injection Hrun' as <- <-.
  destruct (required_fields_present_inv request Hvalid)
    as (amount' & email & Hamount' & _ & Hemail & _).
  rewrite Hamount in Hamount'. injection Hamount' as <-.
  destruct (create_try_cases env _ amount email w Hemail)
    as [(e & w1 & Hraise & _)
       | (k & stored & created & statements & next & Hupsert & Hscore)].
  { rewrite Htry in Hraise. discriminate. }
  cbn zeta in Hscore. fold applicant_data in Hupsert, Hscore. fold pk in Hscore.
  destruct (RiskScoringService.get_risk_score _ _ _ _ _) as [[score | e] w1] eqn:Hscored.
  2:{ fold applicant_data in Htry. rewrite Htry in Hscore. discriminate. }
  fold applicant_data in Htry. rewrite Htry in Hscore.
  destruct (db_fault env OpSaveApplication); [discriminate |].
  injection Hscore as -> ->.
  exists amount, email, k, stored, created, statements, next, score, w1.
  split_and!; auto.
Qed.

(** How a submission with its required fields runs on a database that
    works and holds at most one applicant per address: the applicant is
    found or inserted, the pending application is inserted, and the outcome
    is that of the scoring. *)
Lemma create_run (request : CreateRequest) (w : World) :
  (forall op, db_fault env op = None) ->
  required_fields_present request = true ->
  unique_email (applicants (db w)) ->
  let applicant_data := default ∅ (data_applicant request) in
  let pk := next_application_id (db w) in
  exists (amount : Q) (email : string) (k : Z) (stored : Applicant.t) (created : bool)
         (statements : list sql) (next : Z),
    data_amount request = Some amount /\
    applicant_data !! "email" = Some email /\
    (if created then
       (forall j r, applicants (db w) !! j = Some r -> Applicant.email r <> email) /\
       k = next_applicant_id (db w) /\ next = k + 1 /\
       stored = Applicant.mk (default "" (applicant_data !! "name")) email
                  (default "" (applicant_data !! "phone")) (now env) (now env) /\
       statements = [INSERT_applicant k]
     else
       exists old,
         applicants (db w) !! k = Some old /\ Applicant.email old = email /\
         (forall j r, applicants (db w) !! j = Some r -> Applicant.email r = email ->
                      j = k) /\
         next = next_applicant_id (db w) /\
         stored = Applicant.mk (default (Applicant.name old) (applicant_data !! "name"))
                    email (default (Applicant.phone old) (applicant_data !! "phone"))
                    (Applicant.created_at old) (Applicant.updated_at old) /\
         statements =
           match snd (LoanApplicationViewSet.update_details applicant_data (k, old)) with
           | [] => []
           | update_fields => [UPDATE_applicant k update_fields]
           end) /\
    match RiskScoringService.get_risk_score (settings env) (requests_post env)
            {[ "name" := Applicant.name stored; "email" := Applicant.email stored;
               "phone" := Applicant.phone stored ]} amount
            (mkWorld (mkDB (<[k := stored]> (applicants (db w)))
                           (<[pk := LoanApplication.mk k amount None STATUS_PENDING None
                                      (now env) (now env)]> (applications (db w)))
                           next (pk + 1))
                     (rng w) (log w ++ statements ++ [INSERT_application pk])) with
    | (Raise e, w1) =>
        LoanApplicationViewSet.create env request w
        = (Raise (NameError "logger"), mkWorld (db w) (rng w1) (log w1))
    | (Return score, w1) =>
        let row := LoanApplication.mk k amount (Some score) (auto_decision score) None
                     (now env) (now env) in
        LoanApplicationViewSet.create env request w
        = (Return (mkResponse (ApplicationBody (pk, row) (k, stored)) HTTP_201_CREATED),
           mkWorld (mkDB (<[k := stored]> (applicants (db w)))
                         (<[pk := row]> (applications (db w))) next (pk + 1))
                   (rng w1)
                   (log w ++ statements ++ [INSERT_application pk; UPDATE_application pk]))
    end.
Proof.
  intros Hworks Hvalid Hunique applicant_data pk.
  destruct (required_fields_present_inv request Hvalid)
    as (amount & email & Hamount & _ & Hemail & _).
  destruct (create_try_cases env _ amount email w Hemail)
    as [(e & w1 & _ & Hfailed)
       | (k & stored & created & statements & next & Hupsert & Hscore)].
  { exfalso. rewrite !Hworks in Hfailed.
    destruct Hfailed as [? | [? | [? | (_ & i & j & r & s & Hij & Hi & Hj & Hr & Hs)]]];
      try discriminate.
    apply Hij. apply (Hunique i j r s Hi Hj). congruence. }
  cbn zeta in Hscore. fold applicant_data in Hupsert, Hscore. fold pk in Hscore.
  exists amount, email, k, stored, created, statements, next.
  split_and!; auto.
  rewrite Hworks in Hscore.
  destruct (create_cases env request w)
    as [(Hinvalid & _)
       | [(_ & amount' & response & w' & Hamount' & Htry & Hrun)
         | (_ & amount' & e & w1 & Hamount' & Htry & Hrun)]];
    [congruence | |];
    rewrite Hamount in Hamount'; injection Hamount' as <-;
    fold applicant_data in Htry;
    destruct (RiskScoringService.get_risk_score _ _ _ _ _) as [[score | e'] w1'];
    cbn zeta in Hscore; rewrite Htry in Hscore; try discriminate.
  - rewrite Hrun. assumption.
  - rewrite Hrun. injection Hscore as <- <-. reflexivity.
Qed.
End Submission.


(** ** Submission: the invariant of the tables *)

Lemma consistent_empty_db : consistent empty_db.
Proof.
  unfold consistent, unique_email, empty_db. simpl.
  split_and!; intros *; rewrite lookup_empty; discriminate.
Qed.

Lemma unique_email_empty : unique_email ∅.
Proof. intros j k r s Hj. rewrite lookup_empty in Hj. discriminate. Qed.

Section SubmissionProperties.
Context `{PyLib}.
Variable env : Env.

Lemma create_consistent (request : CreateRequest) (w : World) :
  consistent (db w) ->
  consistent (db (snd (LoanApplicationViewSet.create env request w))).
Proof.
  intros Hconsistent.
  destruct (create_cases env request w)
    as [(_ & error & Hrun)
       | [(_ & amount & response & w' & _ & Htry & Hrun)
         | (_ & amount & e & w1 & _ & _ & Hrun)]];
    rewrite Hrun; simpl; try assumption.
  apply create_try_Return in Htry as (? & ? & ? & ? & _ & Hresponse & _).
  assert (Hstatus : response_status response = HTTP_201_CREATED) by now subst response.
  destruct (create_201_inv env request response w w' Hrun Hstatus)
    as (amount' & email & k & stored & created & statements & next & score & w1
        & _ & _ & Hupsert & _ & _ & ->).
  destruct Hconsistent as (Hunique & Hkeys & Hkeys' & Hforeign). simpl.
  assert (Hstored : Applicant.email stored = email).
  { destruct created; [destruct Hupsert as (_ & _ & _ & -> & _)
                      | destruct Hupsert as (old & _ & _ & _ & _ & -> & _)]; reflexivity. }
  assert (Hother : forall j r, j <> k -> applicants (db w) !! j = Some r ->
                               Applicant.email r <> email).
  { intros j r Hjk Hj Hr. destruct created.
    - destruct Hupsert as (Hfresh & _). exact (Hfresh j r Hj Hr).
    - destruct Hupsert as (old & _ & _ & Honly & _). exact (Hjk (Honly j r Hj Hr)). }
  assert (Hnext : k < next /\ next_applicant_id (db w) <= next).
  { destruct created.
    - destruct Hupsert as (_ & -> & -> & _). lia.
    - destruct Hupsert as (old & Hold & _ & _ & -> & _). apply Hkeys in Hold. lia. }
  split_and!; simpl.
  - intros i j r s Hi Hj Hmail.
    destruct (decide (i = k)) as [-> | Hik]; destruct (decide (j = k)) as [-> | Hjk];
      try reflexivity.
    + rewrite lookup_insert_eq in Hi. rewrite lookup_insert_ne in Hj by congruence.
      injection Hi as <-. exfalso. apply (Hother j s Hjk Hj). congruence.
    + rewrite lookup_insert_eq in Hj. rewrite lookup_insert_ne in Hi by congruence.
      injection Hj as <-. exfalso. apply (Hother i r Hik Hi). congruence.
    + rewrite lookup_insert_ne in Hi, Hj by congruence. eauto.
  - intros j r Hj. destruct (decide (j = k)) as [-> | Hjk]; [lia |].
    rewrite lookup_insert_ne in Hj by congruence. apply Hkeys in Hj. lia.
  - intros j a Hj. destruct (decide (j = next_application_id (db w))) as [-> | Hne]; [lia |].
    rewrite lookup_insert_ne in Hj by congruence. apply Hkeys' in Hj. lia.
  - intros j a Hj. destruct (decide (j = next_application_id (db w))) as [-> | Hne].
    + rewrite lookup_insert_eq in Hj. injection Hj as <-. simpl.
      rewrite lookup_insert_eq. eauto.
    + rewrite lookup_insert_ne in Hj by congruence. apply Hforeign in Hj.
      destruct (decide (LoanApplication.applicant a = k)) as [-> | Hak].
      * rewrite lookup_insert_eq. eauto.
      * rewrite lookup_insert_ne by congruence. assumption.
Qed.

Lemma update_status_consistent (request : DetailRequest) (w : World) :
  consistent (db w) ->
  consistent (db (snd (LoanApplicationViewSet.update_status env request w))).
Proof.
  intros Hconsistent. rewrite update_status_cases.
  destruct (db_fault env OpGetObject); [assumption |].
  destruct (LoanApplicationViewSet.get_queryset _ _ !! _) as [row |] eqn:Hrow;
    [| assumption].
  apply get_queryset_Some in Hrow as [Hrow _].
  destruct (decide _); [| assumption].
  destruct (LoanApplicationStatusSerializer.is_valid _); [assumption |].
  destruct (db_fault env OpSaveApplication); [assumption |].
  destruct Hconsistent as (Hunique & Hkeys & Hkeys' & Hforeign).
  split_and!; simpl; try assumption.
  - intros j a Hj. destruct (decide (j = pk request)) as [-> | Hne]; [eauto |].
    rewrite lookup_insert_ne in Hj by congruence. eauto.
  - intros j a Hj. destruct (decide (j = pk request)) as [-> | Hne].
    + rewrite lookup_insert_eq in Hj. injection Hj as <-. simpl. eauto.
    + rewrite lookup_insert_ne in Hj by congruence. eauto.
Qed.

Lemma summary_world (w : World) : snd (LoanApplicationViewSet.summary env w) = w.
Proof.
  unfold LoanApplicationViewSet.summary, bind, db_guard, get_db.
  destruct (db_fault env OpAggregate); simpl; [reflexivity |].
  now rewrite summary_serializer_data.
Qed.

(** X8. The three views keep the tables consistent, whatever the request
    and whatever fails: after a submission, a status update or a summary
    on consistent tables, the addresses of the applicants are still
    unique, every key is still below the counter of its table, and every
    application still references a stored applicant. *)
Theorem views_keep_consistency (submission : CreateRequest) (update : DetailRequest)
    (w : World) :
  consistent (db w) ->
  consistent (db (snd (LoanApplicationViewSet.create env submission w))) /\
  consistent (db (snd (LoanApplicationViewSet.update_status env update w))) /\
  consistent (db (snd (LoanApplicationViewSet.summary env w))).
Proof.
  intros Hconsistent. split_and!.
  - now apply create_consistent.
  - now apply update_status_consistent.
  - now rewrite summary_world.
Qed.


(** X10. What a submission answered 201 does to its applicant. When no
    stored applicant has the address, one is inserted under the key of the
    counter, with the name and the phone of the submission (empty when
    absent) and the instant of the submission as both of its dates. When
    one has, its row keeps its key, address and both of its dates, and
    takes the name and the phone of the submission where they are given;
    if that changes nothing, no UPDATE of the applicant is sent and the
    table of applicants is as before; otherwise exactly one is sent. *)
Theorem create_upserts_applicant (request : CreateRequest) (response : Response)
    (w w' : World) :
  LoanApplicationViewSet.create env request w = (Return response, w') ->
  response_status response = HTTP_201_CREATED ->
  let applicant_data := default ∅ (data_applicant request) in
  exists (email : string) (k : Z) (stored : Applicant.t)
         (application : instance LoanApplication.t) (statements : list sql),
    applicant_data !! "email" = Some email /\
    response_data response = ApplicationBody application (k, stored) /\
    applicants (db w') = <[k := stored]> (applicants (db w)) /\
    log w' = log w ++ statements ++ [INSERT_application (fst application);
                                     UPDATE_application (fst application)] /\
    (((forall j r, applicants (db w) !! j = Some r -> Applicant.email r <> email) /\
      k = next_applicant_id (db w) /\
      next_applicant_id (db w') = k + 1 /\
      stored = Applicant.mk (default "" (applicant_data !! "name")) email
                 (default "" (applicant_data !! "phone")) (now env) (now env) /\
      statements = [INSERT_applicant k]) \/
     (exists old,
        applicants (db w) !! k = Some old /\ Applicant.email old = email /\
        next_applicant_id (db w') = next_applicant_id (db w) /\
        stored = Applicant.mk (default (Applicant.name old) (applicant_data !! "name"))
                   (Applicant.email old)
                   (default (Applicant.phone old) (applicant_data !! "phone"))
                   (Applicant.created_at old) (Applicant.updated_at old) /\
        (stored = old -> statements = [] /\ applicants (db w') = applicants (db w)) /\
        (stored <> old -> exists update_fields, statements = [UPDATE_applicant k update_fields]))).
Proof.
  intros Hrun Hstatus applicant_data.
  destruct (create_201_inv env request response w w' Hrun Hstatus)
    as (amount & email & k & stored & created & statements & next & score & w1
        & _ & Hemail & Hupsert & _ & -> & ->).
  fold applicant_data in Hemail, Hupsert.
  eexists email, k, stored, (_, _), statements. simpl.
  split_and!; try reflexivity; try assumption.
  destruct created.
  - left. destruct Hupsert as (Hfresh & -> & -> & -> & ->). auto.
  - right. destruct Hupsert as (old & Hold & Hmail & _ & -> & Hstored & ->).
    exists old.
    pose proof (update_details_result applicant_data k old) as (_ & Hsame & _).
    cbn zeta in Hsame. rewrite Hmail in Hsame. rewrite <- Hstored in Hsame.
    split_and!; try assumption; try reflexivity.
    + rewrite Hmail. assumption.
    + intros Hunchanged. apply Hsame in Hunchanged as Hfields. rewrite Hfields.
      split; [reflexivity |]. rewrite Hunchanged. now apply insert_id.
    + intros Hchanged.
      destruct (snd (LoanApplicationViewSet.update_details applicant_data (k, old)));
        [exfalso; apply Hchanged, Hsame; reflexivity | eauto].
Qed.
End SubmissionProperties.

(** ** Submission: the outcome by scoring mode *)

Section Outcomes.
Context `{PyLib}.
Variable env : Env.

(** In live mode the scoring leaves the world as it was. *)
Lemma get_risk_score_live (applicant_data : gmap string string) (loan_amount : Q)
    (w : World) :
  live_mode (settings env) = true ->
  RiskScoringService.get_risk_score (settings env) (requests_post env)
    applicant_data loan_amount w
  = (match RiskScoringService._call_external_api (settings env) (requests_post env)
             applicant_data loan_amount with
     | Return payload =>
         match payload !! "score" with
         | Some score => Return score
         | None => Raise (KeyError "score")
         end
     | Raise e => if is_RequestException e then Return (inject_Z 50) else Raise e
     end, w).
Proof.
  intros Hlive. unfold live_mode in Hlive. apply negb_true_iff in Hlive.
  unfold RiskScoringService.get_risk_score. rewrite Hlive.
  destruct (RiskScoringService._call_external_api _ _ _ _) as [payload | e].
  - now destruct (payload !! "score").
  - now destruct (is_RequestException e).
Qed.

Lemma call_external_api_answered (applicant_data : gmap string string) (loan_amount : Q)
    (payload : gmap string Q) :
  (forall request, exists response,
     requests_post env request = Return response /\
     ~ 400 <= status_code response < 600 /\ json response = Return payload) ->
  RiskScoringService._call_external_api (settings env) (requests_post env)
    applicant_data loan_amount = Return payload.
Proof.
  intros Hanswered. rewrite call_external_api_unfold.
  destruct (Hanswered (live_request (settings env) applicant_data loan_amount))
    as (response & -> & Hstatus & Hjson).
  now rewrite raise_for_status_ok.
Qed.

(** X11. In mock mode, with a database that works and at most one
    applicant per address, a submission that has its required fields and
    whose amount the column takes is always answered 201: the application
    of the answer is stored, its risk score is an integer between 0 and
    100 and its status is the decision on that score. A negative amount is
    not refused: one of -31251 or less is stored and approved. *)
Theorem mock_submission_is_accepted (request : CreateRequest) (amount : Q) (w : World) :
  (forall op, db_fault env op = None) ->
  live_mode (settings env) = false ->
  required_fields_present request = true ->
  data_amount request = Some amount ->
  LoanApplication.amount_in_range amount ->
  unique_email (applicants (db w)) ->
  exists (application : instance LoanApplication.t) (applicant : instance Applicant.t)
         (score : Z) (w' : World),
    LoanApplicationViewSet.create env request w
    = (Return (mkResponse (ApplicationBody application applicant) HTTP_201_CREATED), w') /\
    applications (db w') !! fst application = Some (snd application) /\
    LoanApplication.risk_score (snd application) = Some (inject_Z score) /\
    0 <= score <= 100 /\
    LoanApplication.status (snd application) = auto_decision (inject_Z score) /\
    ((amount <= -31251)%Q ->
     LoanApplication.status (snd application) = STATUS_APPROVED).
Proof.
  intros Hworks Hmock Hvalid Hamount _ Hunique.
  destruct (create_run env request w Hworks Hvalid Hunique)
    as (amount' & email & k & stored & created & statements & next & Hamount' & _ & _ & Hrun).
  rewrite Hamount in Hamount'. injection Hamount' as <-.
  rewrite get_risk_score_mock in Hrun by assumption. cbn zeta in Hrun.
  eexists (_, _), _, _, _. split; [exact Hrun |]. simpl.
  split; [apply lookup_insert_eq |].
  split; [reflexivity |].
  split; [unfold computed_mock_score; lia |].
  split; [reflexivity |].
  intros Hnegative.
  destruct (mock_score_negative_amount (settings env) (requests_post env)
                {[ "name" := Applicant.name stored; "email" := Applicant.email stored;
                   "phone" := Applicant.phone stored ]} amount w Hmock Hnegative)
    as (score & Hscore & Hdecision).
  rewrite get_risk_score_mock in Hscore by assumption. simpl in Hscore.
  injection Hscore as <-. exact Hdecision.
Qed.

(** X12. In live mode, when every call of the risk service fails with a
    [RequestException], a submission with its required fields and an
    amount that the column takes (database working, at most one applicant
    per address) is still answered 201: the application is stored with the
    risk score 50 and in manual review, and the generator is untouched. *)
Theorem failed_live_call_gives_manual_review (request : CreateRequest) (amount : Q)
    (w : World) :
  (forall op, db_fault env op = None) ->
  live_mode (settings env) = true ->
  (forall post_request, request_failed (requests_post env post_request)) ->
  required_fields_present request = true ->
  data_amount request = Some amount ->
  LoanApplication.amount_in_range amount ->
  unique_email (applicants (db w)) ->
  exists (application : instance LoanApplication.t) (applicant : instance Applicant.t)
         (w' : World),
    LoanApplicationViewSet.create env request w
    = (Return (mkResponse (ApplicationBody application applicant) HTTP_201_CREATED), w') /\
    applications (db w') !! fst application = Some (snd application) /\
    LoanApplication.risk_score (snd application) = Some (inject_Z 50) /\
    LoanApplication.status (snd application) = STATUS_MANUAL_REVIEW /\
    rng w' = rng w.
Proof.
  intros Hworks Hlive Hfailed Hvalid _ _ Hunique.
  destruct (create_run env request w Hworks Hvalid Hunique)
    as (amount' & email & k & stored & created & statements & next & _ & _ & _ & Hrun).
  rewrite get_risk_score_live in Hrun by assumption.
  match type of Hrun with
  | context [RiskScoringService._call_external_api ?s ?n ?d ?a] =>
      pose proof (proj2 (fallback_used_iff s n d a) (Hfailed _)) as Hfallback
  end.
  unfold fallback_used in Hfallback.
  destruct (RiskScoringService._call_external_api _ _ _ _) as [payload | e];
    [discriminate |].
  rewrite Hfallback in Hrun. cbn zeta in Hrun.
  eexists (_, _), _, _. split; [exact Hrun |]. simpl.
  split; [apply lookup_insert_eq |]. auto.
Qed.

(** X13. In live mode, when the risk service answers without an error
    status and its payload has a score, a number that [float] converts
    without rounding, a submission with its required fields and an amount
    that the column takes (database working, at most one applicant per
    address) is answered 201 and the score is stored as received, neither
    rounded to an integer nor clamped, with the decision taken on it: a
    score below 0 is approved, one above 100 rejected. *)
Theorem live_score_is_stored_as_received (request : CreateRequest) (amount : Q)
    (w : World) (payload : gmap string Q) (score : Q) :
  (forall op, db_fault env op = None) ->
  live_mode (settings env) = true ->
  (forall post_request, exists response,
     requests_post env post_request = Return response /\
     ~ 400 <= status_code response < 600 /\ json response = Return payload) ->
  payload !! "score" = Some score ->
  Py.float_exact score ->
  required_fields_present request = true ->
  data_amount request = Some amount ->
  LoanApplication.amount_in_range amount ->
  unique_email (applicants (db w)) ->
  exists (application : instance LoanApplication.t) (applicant : instance Applicant.t)
         (w' : World),
    LoanApplicationViewSet.create env request w
    = (Return (mkResponse (ApplicationBody application applicant) HTTP_201_CREATED), w') /\
    applications (db w') !! fst application = Some (snd application) /\
    LoanApplication.risk_score (snd application) = Some score /\
    LoanApplication.status (snd application) = auto_decision score /\
    ((score < 0)%Q -> LoanApplication.status (snd application) = STATUS_APPROVED) /\
    ((100 < score)%Q -> LoanApplication.status (snd application) = STATUS_REJECTED).
Proof.
  intros Hworks Hlive Hanswered Hscore _ Hvalid _ _ Hunique.
  destruct (create_run env request w Hworks Hvalid Hunique)
    as (amount' & email & k & stored & created & statements & next & _ & _ & _ & Hrun).
  rewrite get_risk_score_live in Hrun by assumption.
  rewrite (call_external_api_answered _ _ payload Hanswered), Hscore in Hrun.
  cbn zeta in Hrun.
  eexists (_, _), _, _. split; [exact Hrun |]. simpl.
  split; [apply lookup_insert_eq |].
  split; [reflexivity |]. split; [reflexivity |].
  destruct (auto_decision_cases score) as [[Hs ->] | [[Hs ->] | [[Hs1 Hs2] ->]]];
    split; intros; try reflexivity; lra.
Qed.

(** X14. In live mode, when the risk service answers without an error
    status and its payload has no score, the [KeyError] is not a
    [RequestException], so there is no fallback: a submission with its
    required fields (database working, at most one applicant per address)
    is answered 500, and the tables and the generator are as before. *)
Theorem payload_without_score_fails_submission (request : CreateRequest) (w : World)
    (payload : gmap string Q) :
  (forall op, db_fault env op = None) ->
  live_mode (settings env) = true ->
  (forall post_request, exists response,
     requests_post env post_request = Return response /\
     ~ 400 <= status_code response < 600 /\ json response = Return payload) ->
  payload !! "score" = None ->
  required_fields_present request = true ->
  unique_email (applicants (db w)) ->
  fst (dispatch (LoanApplicationViewSet.create env request) w)
    = mkResponse ServerErrorBody HTTP_500_INTERNAL_SERVER_ERROR /\
  db (snd (dispatch (LoanApplicationViewSet.create env request) w)) = db w /\
  rng (snd (dispatch (LoanApplicationViewSet.create env request) w)) = rng w.
Proof.
  intros Hworks Hlive Hanswered Hscore Hvalid Hunique.
  destruct (create_run env request w Hworks Hvalid Hunique)
    as (amount & email & k & stored & created & statements & next & _ & _ & _ & Hrun).
  rewrite get_risk_score_live in Hrun by assumption.
  rewrite (call_external_api_answered _ _ payload Hanswered), Hscore in Hrun.
  unfold dispatch. rewrite Hrun. simpl. auto.
Qed.
End Outcomes.

(** ** Submission: validation and errors *)

Section Validation.
Context `{PyLib}.
Variable env : Env.

(** The two tests of [create] before its [try] block, on the data of the
    request. *)
Lemma create_validation_cases (request : CreateRequest) (w : World) :
  let applicant_data := default ∅ (data_applicant request) in
  (applicant_data = ∅ \/ data_amount request = None \/
   (exists amount, data_amount request = Some amount /\ (amount == 0)%Q)) /\
  LoanApplicationViewSet.create env request w
  = (Return (mkResponse (ErrorBody "Applicant data and amount are required")
               HTTP_400_BAD_REQUEST), w) \/
  (applicant_data <> ∅ /\
   (exists amount, data_amount request = Some amount /\ ~ (amount == 0)%Q) /\
   (applicant_data !! "email" = None \/ applicant_data !! "email" = Some "")) /\
  LoanApplicationViewSet.create env request w
  = (Return (mkResponse (ErrorBody "Email is required in applicant data")
               HTTP_400_BAD_REQUEST), w) \/
  (applicant_data <> ∅ /\
   (exists amount, data_amount request = Some amount /\ ~ (amount == 0)%Q) /\
   (exists email, applicant_data !! "email" = Some email /\ email <> "")) /\
  required_fields_present request = true.
Proof.
  intros applicant_data.
  unfold required_fields_present, LoanApplicationViewSet.create, atomic. fold applicant_data.
  destruct (data_amount request) as [amount |]; simpl.
  2:{ left. auto. }
  unfold Py.truthy_dict. case_bool_decide as Hdata; simpl.
  { left. auto. }
  unfold Py.truthy_num.
  destruct (Qeq_bool amount 0) eqn:Hzero; simpl.
  { left. apply Qeq_bool_iff in Hzero. eauto 10. }
  assert (Hnonzero : ~ (amount == 0)%Q).
  { intros Heq. apply Qeq_bool_iff in Heq. congruence. }
  right.
  destruct (applicant_data !! "email") as [[| c email] |] eqn:Hemail; simpl.
  - left. eauto 10.
  - right. split; [| reflexivity]. split; [assumption |]. split; [eauto |].
    eexists. split; [reflexivity | discriminate].
  - left. eauto 10.
Qed.

(** X6. Which submissions are answered 400, and how. Without applicant
    data (absent or empty), without an amount, or with an amount equal to
    zero, the answer is "Applicant data and amount are required";
    otherwise, without an address or with an empty one, it is "Email is
    required in applicant data". Both leave the world as it was, and no
    other submission is answered 400. *)
Theorem create_validation_answers (request : CreateRequest) (w : World) :
  let applicant_data := default ∅ (data_applicant request) in
  let missing := mkResponse (ErrorBody "Applicant data and amount are required")
                   HTTP_400_BAD_REQUEST in
  let no_email := mkResponse (ErrorBody "Email is required in applicant data")
                    HTTP_400_BAD_REQUEST in
  (applicant_data = ∅ \/ data_amount request = None \/
   (exists amount, data_amount request = Some amount /\ (amount == 0)%Q) ->
   LoanApplicationViewSet.create env request w = (Return missing, w)) /\
  (applicant_data <> ∅ ->
   (exists amount, data_amount request = Some amount /\ ~ (amount == 0)%Q) ->
   applicant_data !! "email" = None \/ applicant_data !! "email" = Some "" ->
   LoanApplicationViewSet.create env request w = (Return no_email, w)) /\
  (forall response w',
     LoanApplicationViewSet.create env request w = (Return response, w') ->
     response_status response = HTTP_400_BAD_REQUEST ->
     w' = w /\ (response = missing \/ response = no_email)).
Proof.
  intros applicant_data missing no_email.
  pose proof (create_validation_cases request w) as Hcases. cbn zeta in Hcases.
  fold applicant_data in Hcases.
  split_and!.
  - intros Hmissing.
    destruct Hcases as [[_ Hrun] | [[(Hdata & (amount & Hamount & Hnonzero) & _) _]
                                   | [(Hdata & (amount & Hamount & Hnonzero) & _) _]]];
      [assumption | exfalso | exfalso];
      (destruct Hmissing as [? | [Hnone | (amount' & Hamount' & Hzero)]];
       [contradiction | congruence |];
       rewrite Hamount in Hamount'; injection Hamount' as <-; contradiction).
  - intros Hdata (amount & Hamount & Hnonzero) Hemail.
    destruct Hcases as [[Hmissing _] | [[_ Hrun]
                                       | [(_ & _ & (email & Hsome & Hne)) _]]];
      [exfalso | assumption | exfalso].
    + destruct Hmissing as [? | [Hnone | (amount' & Hamount' & Hzero)]];
        [contradiction | congruence |].
      rewrite Hamount in Hamount'. injection Hamount' as <-. contradiction.
    + destruct Hemail as [Hnone | Hempty]; congruence.
  - intros response w' Hrun Hstatus.
    destruct Hcases as [[_ Hrun'] | [[_ Hrun'] | [_ Hvalid]]].
    + rewrite Hrun in Hrun'. injection Hrun' as -> ->. auto.
    + rewrite Hrun in Hrun'. injection Hrun' as -> ->. auto.
    + exfalso.
      pose proof (create_never_validates_amount env request w Hvalid) as Hnever.
      unfold dispatch in Hnever. rewrite Hrun in Hnever. contradiction.
Qed.

(** X7. On a submission whose applicant is an object: whenever the [try]
    block of [create] raises, whatever the exception, the exception that
    leaves [create] is the [NameError] on [logger], so the failure itself
    is masked, and the tables are those from before the submission. The
    response that the handler builds, 500 with "Internal server error", is
    never returned, and the submission is answered 201, 400 or 500. *)
Theorem create_try_failures_are_masked (request : CreateRequest) (w : World) :
  (forall amount e w1,
     required_fields_present request = true ->
     data_amount request = Some amount ->
     LoanApplicationViewSet.create_try env (default ∅ (data_applicant request)) amount w
     = (Raise e, w1) ->
     LoanApplicationViewSet.create env request w
     = (Raise (NameError "logger"), mkWorld (db w) (rng w1) (log w1))) /\
  (forall response, fst (LoanApplicationViewSet.create env request w) = Return response ->
                    response_status response <> HTTP_500_INTERNAL_SERVER_ERROR /\
                    response_data response <> ErrorBody "Internal server error") /\
  (let status := response_status (fst (dispatch (LoanApplicationViewSet.create env request) w)) in
   status = HTTP_201_CREATED \/ status = HTTP_400_BAD_REQUEST \/
   status = HTTP_500_INTERNAL_SERVER_ERROR).
Proof.
  split.
  { intros amount e w1 Hvalid Hamount Htry.
    destruct (create_cases env request w)
      as [(Hinvalid & _)
         | [(_ & amount' & response & w' & Hamount' & Htry' & _)
           | (_ & amount' & e' & w1' & Hamount' & Htry' & Hrun)]];
      [congruence | |];
      rewrite Hamount in Hamount'; injection Hamount' as <-;
      rewrite Htry in Htry'; [discriminate |].
    injection Htry' as <- <-. exact Hrun. }
  unfold dispatch.
  destruct (create_validation_cases request w) as [[_ Hrun] | [[_ Hrun] | [_ Hvalid]]];
    try (rewrite Hrun; simpl; split; [| auto];
         intros ? [= <-]; simpl; split; discriminate).
  destruct (create_cases env request w)
    as [(Hinvalid & _)
       | [(_ & amount & response & w' & _ & Htry & Hrun)
         | (_ & amount & e & w1 & _ & _ & Hrun)]];
    [congruence | |]; rewrite Hrun; simpl.
  - apply create_try_Return in Htry as (? & ? & ? & ? & _ & -> & _). simpl.
    split; [| auto].
    intros ? [= <-]. simpl. split; discriminate.
  - split; [discriminate | auto].
Qed.
End Validation.


(** ** Scoring: what a call leaves behind *)

Section Independence.
Context `{PyLib}.

(** X17. What a call of the scoring service leaves behind. In mock mode
    the network is not used: the score and the state in which the
    process-wide generator is left are the same for any network and any
    earlier state, the generator being left in the state that follows the
    one draw after seeding with the address and the amount; the tables and
    the statements sent are untouched. In live mode the world is left as
    it was and the outcome does not depend on it. *)
Theorem scoring_side_effects (settings : Settings) (applicant_data : gmap string string)
    (loan_amount : Q) :
  (live_mode settings = false ->
   forall (network network' : Network) (w w' : World),
     let result := RiskScoringService.get_risk_score settings network
                     applicant_data loan_amount w in
     let result' := RiskScoringService.get_risk_score settings network'
                      applicant_data loan_amount w' in
     fst result' = fst result /\ rng (snd result') = rng (snd result) /\
     db (snd result) = db w /\ log (snd result) = log w /\
     rng (snd result)
       = snd (random_randint
                (random_seed (md5_hexdigest8
                   (default "" (applicant_data !! "email") ++ format_amount loan_amount)))
                (-12) 12)) /\
  (live_mode settings = true ->
   forall (network : Network) (w w' : World),
     snd (RiskScoringService.get_risk_score settings network applicant_data loan_amount w)
       = w /\
     fst (RiskScoringService.get_risk_score settings network applicant_data loan_amount w')
       = fst (RiskScoringService.get_risk_score settings network applicant_data
                loan_amount w)).
Proof.
  unfold live_mode, RiskScoringService.get_risk_score.
  destruct (DEBUG settings && negb (default false (USE_REAL_RISK_API settings))); simpl.
  - split; [intros _ | discriminate].
    intros network network' w w'. unfold bind.
    rewrite !calculate_mock_score_formula. simpl. auto.
  - split; [discriminate | intros _].
    intros network w w'.
    destruct (RiskScoringService._call_external_api _ _ _ _) as [payload | e].
    + destruct (payload !! "score"); auto.
    + destruct (is_RequestException e); auto.
Qed.
End Independence.


(** ** Submission, then review *)

Section Composition.
Context `{PyLib}.

(** X19. A submission answered 201, then a status update of the
    application it returned: when the score of the application is between
    30 and 70, the update is answered 200 and the new status is stored;
    otherwise, the application being approved or rejected, it is answered
    400 and changes nothing. It is never answered 404. *)
Theorem created_application_review (env : Env) (request : CreateRequest)
    (response : Response) (w w' : World)
    (settings : Settings) (network : Network) (t : Z) (new_status : Status) :
  LoanApplicationViewSet.create env request w = (Return response, w') ->
  response_status response = HTTP_201_CREATED ->
  exists (application : instance LoanApplication.t) (applicant : instance Applicant.t)
         (score : Q),
    response_data response = ApplicationBody application applicant /\
    LoanApplication.risk_score (snd application) = Some score /\
    let result := dispatch (LoanApplicationViewSet.update_status
                              (mkEnv settings network t no_faults)
                              (status_request (fst application) new_status)) w' in
    ((30 <= score <= 70)%Q ->
     fst result = mkResponse (StatusBody new_status) HTTP_200_OK /\
     applications (db (snd result)) !! fst application
       = Some (with_status (snd application) new_status t)) /\
    (~ (30 <= score <= 70)%Q ->
     fst result = mkResponse (ErrorBody "Only manual review applications can be updated")
                    HTTP_400_BAD_REQUEST /\
     snd result = w').
Proof.
  intros Hrun Hstatus.
  destruct (create_cases env request w)
    as [(_ & error & Hrun')
       | [(_ & amount & response' & w'' & _ & Htry & Hrun')
         | (_ & amount & e & w1 & _ & _ & Hrun')]];
    rewrite Hrun in Hrun'; try discriminate.
  { injection Hrun' as -> _. discriminate. }
  injection Hrun' as <- <-.
  apply create_try_Return in Htry
    as (email & applicant & created & score & _ & -> & Happs & _).
  eexists (_, _), applicant, score. simpl.
  split; [reflexivity |]. split; [reflexivity |].
  assert (Hstored : applications (db w') !! next_application_id (db w)
                    = Some (LoanApplication.mk (fst applicant) amount (Some score)
                              (auto_decision score) None (now env) (now env)))
    by (rewrite Happs; apply lookup_insert_eq).
  unfold dispatch.
  destruct (auto_decision_cases score) as [[Hs Hd] | [[Hs Hd] | [Hs Hd]]]; split.
  - intros Hrange. lra.
  - intros _.
    rewrite (update_status_other settings network t _ new_status _ w' Hstored)
      by (simpl; rewrite Hd; discriminate).
    auto.
  - intros Hrange. lra.
  - intros _.
    rewrite (update_status_other settings network t _ new_status _ w' Hstored)
      by (simpl; rewrite Hd; discriminate).
    auto.
  - intros _.
    rewrite (update_status_manual_review settings network t _ new_status _ w' Hstored)
      by (simpl; rewrite Hd; reflexivity).
    simpl. split; [reflexivity |]. apply lookup_insert_eq.
  - intros Hout. contradiction.
Qed.
End Composition.

(** ** The summary: counts and rate *)

Lemma count_status_empty (s : Status) : LoanApplicationViewSet.count_status s ∅ = 0.
Proof.
  unfold LoanApplicationViewSet.count_status. now rewrite map_filter_empty, map_size_empty.
Qed.

Lemma count_status_insert (s : Status) (k : Z) (row : LoanApplication.t)
    (objects : gmap Z LoanApplication.t) :
  objects !! k = None ->
  LoanApplicationViewSet.count_status s (<[k := row]> objects) =
  LoanApplicationViewSet.count_status s objects
  + (if decide (LoanApplication.status row = s) then 1 else 0).
Proof.
  intros Hfresh. unfold LoanApplicationViewSet.count_status.
  destruct (decide (LoanApplication.status row = s)) as [Hs | Hs].
  - rewrite map_filter_insert_True by exact Hs.
    rewrite map_size_insert_None by (apply map_lookup_filter_None; auto). lia.
  - rewrite map_filter_insert_not' by (simpl; auto; intros; congruence).
    lia.
Qed.

Lemma count_status_partition (objects : gmap Z LoanApplication.t) :
  LoanApplicationViewSet.count_status STATUS_APPROVED objects
  + LoanApplicationViewSet.count_status STATUS_REJECTED objects
  + LoanApplicationViewSet.count_status STATUS_PENDING objects
  + LoanApplicationViewSet.count_status STATUS_MANUAL_REVIEW objects
  = Z.of_nat (size objects).
Proof.
  induction objects as [| k row objects Hfresh _ IH] using map_first_key_ind.
  - rewrite !count_status_empty, map_size_empty. reflexivity.
  - rewrite !count_status_insert, map_size_insert_None by assumption.
    destruct (LoanApplication.status row);
      repeat (destruct (decide _); try congruence); lia.
Qed.

Lemma count_status_bounds (s : Status) (objects : gmap Z LoanApplication.t) :
  0 <= LoanApplicationViewSet.count_status s objects <= Z.of_nat (size objects).
Proof.
  unfold LoanApplicationViewSet.count_status. split; [lia |].
  apply inj_le. apply map_subseteq_size, map_filter_subseteq.
Qed.

Lemma Py_round2_bounds (x : Q) : (0 <= x <= 100)%Q -> (0 <= Py.round2 x <= 100)%Q.
Proof.
  intros [Hlo Hhi]. unfold Py.round2. rewrite Qred_correct.
  destruct (Py_round_bounds (x * 100) 0 10000) as [Hrlo Hrhi].
  - change (inject_Z 0) with 0%Q. lra.
  - change (inject_Z 10000) with 10000%Q. lra.
  - apply (inject_Z_le 0) in Hrlo. apply (inject_Z_le _ 10000) in Hrhi.
    change (inject_Z 0) with 0%Q in Hrlo. change (inject_Z 10000) with 10000%Q in Hrhi.
    unfold Qdiv. change (/ 100)%Q with (1 # 100)%Q. lra.
Qed.

Lemma approval_rate_bounds (approved total : Z) :
  0 <= approved <= total ->
  (0 <= (if 0 <? total then Py.round2 (inject_Z approved / inject_Z total * 100) else 0)
     <= 100)%Q.
Proof.
  intros [Hlo Hhi].
  destruct (0 <? total) eqn:Htotal; [| lra].
  apply Z.ltb_lt in Htotal.
  apply Py_round2_bounds.
  assert (Ht : (0 < inject_Z total)%Q) by (apply (inject_Z_lt 0); assumption).
  assert (Ha : (0 <= inject_Z approved)%Q) by (apply (inject_Z_le 0); assumption).
  assert (Hat : (inject_Z approved <= inject_Z total)%Q) by (apply inject_Z_le; assumption).
  assert (Hratio : (0 <= inject_Z approved / inject_Z total <= 1)%Q).
  { split.
    - apply Qle_shift_div_l; [assumption | lra].
    - apply Qle_shift_div_r; [assumption | lra]. }
  lra.
Qed.

(** X18. In the summary, the counts by status add up to the total: the
    approved, rejected, pending and manual review counts are not negative
    and their sum is the number of applications, which is the total
    answered; the approval rate answered lies between 0 and 100. The
    summary leaves the world as it was. *)
Theorem summary_counts_add_up `{PyLib} (settings : Settings) (network : Network) (t : Z)
    (w : World) :
  exists (total approved rejected pending manual_review : Z) (approval_rate : Q)
         (fields : gmap string value),
    LoanApplicationViewSet.summary (mkEnv settings network t no_faults) w
    = (Return (mkResponse (DictBody fields) HTTP_200_OK), w) /\
    fields !! "total_applications" = Some (VInt total) /\
    fields !! "approved_applications" = Some (VInt approved) /\
    fields !! "rejected_applications" = Some (VInt rejected) /\
    fields !! "pending_applications" = Some (VInt pending) /\
    fields !! "manual_review_applications" = Some (VInt manual_review) /\
    fields !! "approval_rate" = Some (VFloat approval_rate) /\
    total = Z.of_nat (size (applications (db w))) /\
    approved + rejected + pending + manual_review = total /\
    0 <= approved /\ 0 <= rejected /\ 0 <= pending /\ 0 <= manual_review /\
    (0 <= approval_rate <= 100)%Q.
Proof.
  set (objects := applications (db w)).
  pose proof (count_status_partition objects) as Hsum.
  pose proof (count_status_bounds STATUS_APPROVED objects) as Happroved.
  pose proof (count_status_bounds STATUS_REJECTED objects) as Hrejected.
  pose proof (count_status_bounds STATUS_PENDING objects) as Hpending.
  pose proof (count_status_bounds STATUS_MANUAL_REVIEW objects) as Hmanual.
  pose proof (approval_rate_bounds _ _ Happroved) as Hrate.
  exists (Z.of_nat (size objects)),
    (LoanApplicationViewSet.count_status STATUS_APPROVED objects),
    (LoanApplicationViewSet.count_status STATUS_REJECTED objects),
    (LoanApplicationViewSet.count_status STATUS_PENDING objects),
    (LoanApplicationViewSet.count_status STATUS_MANUAL_REVIEW objects),
    (if 0 <? Z.of_nat (size objects)
     then Py.round2 (inject_Z (LoanApplicationViewSet.count_status STATUS_APPROVED objects)
                     / inject_Z (Z.of_nat (size objects)) * 100)
     else 0%Q).
  eexists. split; [apply summary_run |].
  fold objects.
  set (total := Z.of_nat (size objects)) in *.
  set (approved := LoanApplicationViewSet.count_status STATUS_APPROVED objects) in *.
  set (rejected := LoanApplicationViewSet.count_status STATUS_REJECTED objects) in *.
  set (pending := LoanApplicationViewSet.count_status STATUS_PENDING objects) in *.
  set (manual := LoanApplicationViewSet.count_status STATUS_MANUAL_REVIEW objects) in *.
  set (rate := if 0 <? total then Py.round2 (inject_Z approved / inject_Z total * 100)
               else 0%Q) in *.
  clearbody total approved rejected pending manual rate.
  generalize (VFloat (default 0%Q (LoanApplicationViewSet.Avg_amount objects))).
  intros average.
  split; [vm_compute; reflexivity |].
  split; [vm_compute; reflexivity |].
  split; [vm_compute; reflexivity |].
  split; [vm_compute; reflexivity |].
  split; [vm_compute; reflexivity |].
  split; [vm_compute; reflexivity |].
  split_and!; try reflexivity; try lia; apply Hrate.
Qed.

(** The sum that [Avg] divides, between the bounds of its terms. *)
Lemma sum_amount_bounds (lo hi : Q) (objects : gmap Z LoanApplication.t) :
  (forall k a, objects !! k = Some a -> (lo <= LoanApplication.amount a <= hi)%Q) ->
  (inject_Z (Z.of_nat (size objects)) * lo
   <= map_fold (fun _ a acc => (acc + LoanApplication.amount a)%Q) 0%Q objects
   <= inject_Z (Z.of_nat (size objects)) * hi)%Q.
Proof.
  induction objects as [| k a objects Hfresh Hfirst IH] using map_first_key_ind;
    intros Hbounds.
  - rewrite map_fold_empty, map_size_empty. change (inject_Z (Z.of_nat 0)) with 0%Q. lra.
  - rewrite map_fold_insert_first_key by assumption.
    rewrite map_size_insert_None by assumption.
    rewrite Nat2Z.inj_succ. unfold Z.succ. rewrite inject_Z_plus.
    change (inject_Z 1) with 1%Q.
    destruct (Hbounds k a (lookup_insert_eq _ _ _)) as [Hlo Hhi].
    destruct IH as [IHlo IHhi].
    { intros j b Hj. apply (Hbounds j b).
      rewrite lookup_insert_ne; [assumption | congruence]. }
    split; lra.
Qed.

(** X20. On a table that is not empty, the average amount of the summary
    lies between any two bounds that hold for the amount of every stored
    application: it is at least the smallest and at most the largest
    amount. *)
Theorem average_amount_between_bounds `{PyLib} (settings : Settings) (network : Network)
    (t : Z) (w : World) (lo hi : Q) :
  applications (db w) <> ∅ ->
  (forall k a, applications (db w) !! k = Some a ->
               (lo <= LoanApplication.amount a <= hi)%Q) ->
  exists (average : Q) (fields : gmap string value),
    LoanApplicationViewSet.summary (mkEnv settings network t no_faults) w
    = (Return (mkResponse (DictBody fields) HTTP_200_OK), w) /\
    fields !! "average_loan_amount" = Some (VFloat average) /\
    LoanApplicationViewSet.Avg_amount (applications (db w)) = Some average /\
    (lo <= average <= hi)%Q.
Proof.
  intros Hnonempty Hbounds.
  set (objects := applications (db w)) in *.
  pose proof (sum_amount_bounds lo hi objects Hbounds) as [Hlo Hhi].
  assert (Hsize : size objects <> 0%nat).
  { intros Hzero. apply Hnonempty. now apply map_size_empty_iff. }
  assert (Hpos : (0 < inject_Z (Z.of_nat (size objects)))%Q).
  { apply (inject_Z_lt 0). lia. }
  assert (Havg : exists average,
             LoanApplicationViewSet.Avg_amount objects = Some average /\
             (lo <= average <= hi)%Q).
  { unfold LoanApplicationViewSet.Avg_amount.
    destruct (decide (size objects = 0%nat)) as [? | _]; [contradiction |].
    eexists. split; [reflexivity |].
    rewrite Qred_correct. split.
    - apply Qle_shift_div_l; [assumption |]. lra.
    - apply Qle_shift_div_r; [assumption |]. lra. }
  destruct Havg as (average & Havg & Hrange).
  exists average. eexists. split; [apply summary_run |].
  fold objects. rewrite Havg. simpl.
  generalize (VInt (Z.of_nat (size objects))),
    (VInt (LoanApplicationViewSet.count_status STATUS_APPROVED objects)),
    (VInt (LoanApplicationViewSet.count_status STATUS_REJECTED objects)),
    (VInt (LoanApplicationViewSet.count_status STATUS_PENDING objects)),
    (VInt (LoanApplicationViewSet.count_status STATUS_MANUAL_REVIEW objects)),
    (VFloat (if 0 <? Z.of_nat (size objects)
             then Py.round2 (inject_Z (LoanApplicationViewSet.count_status
                                         STATUS_APPROVED objects)
                             / inject_Z (Z.of_nat (size objects)) * 100)
             else 0%Q)).
  intros v1 v2 v3 v4 v5 v6.
  clearbody objects.
  split; [| auto].
  generalize (VFloat average). intros v7.
  vm_compute. reflexivity.
Qed.

(** ** Runs of the properties above *)

(** X8, witness: a first submission on the empty tables. *)
Lemma views_keep_consistency_witness :
  let env := mkEnv Demo.mock_settings Demo.offline 0 no_faults in
  let request := mkCreateRequest (Some {[ "name" := "Ann Lee"; "email" := "new@x.com" ]})
                   (Some 5000%Q) in
  consistent (db (snd (LoanApplicationViewSet.create (H := Demo.lib) env request
                         (Demo.world empty_db)))).
Proof.
  intros env request.
  destruct (views_keep_consistency (H := Demo.lib) env request
              (status_request 1 STATUS_APPROVED) (Demo.world empty_db) consistent_empty_db)
    as (Hcreate & _ & _).
  exact Hcreate.
Defined.


(** X10, witness: the first submission inserts its applicant. *)
Lemma create_upserts_applicant_witness :
  let env := mkEnv Demo.mock_settings Demo.offline 0 no_faults in
  let request := mkCreateRequest (Some {[ "name" := "Ann Lee"; "email" := "new@x.com" ]})
                   (Some 5000%Q) in
  exists response application k stored,
    fst (LoanApplicationViewSet.create (H := Demo.lib) env request (Demo.world empty_db))
    = Return response /\
    response_data response = ApplicationBody application (k, stored).
Proof.
  intros env request.
  assert (Hreturned : exists response,
             fst (LoanApplicationViewSet.create (H := Demo.lib) env request
                    (Demo.world empty_db)) = Return response /\
             response_status response = HTTP_201_CREATED)
    by (vm_compute; eexists; split; reflexivity).
  destruct Hreturned as (response & Hreturned & Hstatus).
  destruct (LoanApplicationViewSet.create (H := Demo.lib) env request (Demo.world empty_db))
    as [o w'] eqn:Hrun.
  simpl in Hreturned. subst o.
  destruct (create_upserts_applicant (H := Demo.lib) env request response
              (Demo.world empty_db) w' Hrun Hstatus)
    as (email & k & stored & application & statements & _ & Hdata & _).
  exists response, application, k, stored. auto.
Defined.

(** X11, witness: a first submission in mock mode. *)
Lemma mock_submission_witness :
  let env := mkEnv Demo.mock_settings Demo.offline 0 no_faults in
  let request := mkCreateRequest (Some {[ "name" := "Ann Lee"; "email" := "new@x.com" ]})
                   (Some 5000%Q) in
  exists application applicant (w' : @World Demo.lib),
    LoanApplicationViewSet.create (H := Demo.lib) env request (Demo.world empty_db)
    = (Return (mkResponse (ApplicationBody application applicant) HTTP_201_CREATED), w').
Proof.
  intros env request.
  assert (Hvalid : required_fields_present request = true) by (vm_compute; reflexivity).
  assert (Hrange : LoanApplication.amount_in_range 5000)
    by (split; unfold Qle; simpl; lia).
  destruct (mock_submission_is_accepted (H := Demo.lib) env request 5000
              (Demo.world empty_db) (fun _ => eq_refl) eq_refl Hvalid eq_refl Hrange
              unique_email_empty)
    as (application & applicant & score & w' & Hrun & _).
  exists application, applicant, w'. exact Hrun.
Defined.

(** X12, witness: a first submission in live mode with the network down. *)
Lemma failed_live_call_witness :
  let env := mkEnv Demo.live_settings Demo.offline 0 no_faults in
  let request := mkCreateRequest (Some {[ "name" := "Ann Lee"; "email" := "new@x.com" ]})
                   (Some 5000%Q) in
  exists application applicant (w' : @World Demo.lib),
    LoanApplicationViewSet.create (H := Demo.lib) env request (Demo.world empty_db)
    = (Return (mkResponse (ApplicationBody application applicant) HTTP_201_CREATED), w') /\
    LoanApplication.status (snd application) = STATUS_MANUAL_REVIEW.
Proof.
  intros env request.
  assert (Hvalid : required_fields_present request = true) by (vm_compute; reflexivity).
  assert (Hrange : LoanApplication.amount_in_range 5000)
    by (split; unfold Qle; simpl; lia).
  destruct (failed_live_call_gives_manual_review (H := Demo.lib) env request 5000
              (Demo.world empty_db) (fun _ => eq_refl) eq_refl
              (fun _ => post_raised ConnectionError eq_refl) Hvalid eq_refl Hrange
              unique_email_empty)
    as (application & applicant & w' & Hrun & _ & _ & Hstatus & _).
  exists application, applicant, w'. auto.
Defined.

(** X13, witness: the risk service answers with a score of 150. *)
Lemma live_score_witness :
  let payload : gmap string Q := {[ "score" := 150%Q ]} in
  let env := mkEnv Demo.live_settings
               (Demo.always (Return (mkHttpResponse 200 (Return payload)))) 0 no_faults in
  let request := mkCreateRequest (Some {[ "name" := "Ann Lee"; "email" := "new@x.com" ]})
                   (Some 5000%Q) in
  exists application applicant (w' : @World Demo.lib),
    LoanApplicationViewSet.create (H := Demo.lib) env request (Demo.world empty_db)
    = (Return (mkResponse (ApplicationBody application applicant) HTTP_201_CREATED), w') /\
    LoanApplication.risk_score (snd application) = Some 150%Q /\
    LoanApplication.status (snd application) = STATUS_REJECTED.
Proof.
  intros payload env request.
  assert (Hvalid : required_fields_present request = true) by (vm_compute; reflexivity).
  assert (Hanswered : forall post_request, exists response,
             requests_post env post_request = Return response /\
             ~ 400 <= status_code response < 600 /\ json response = Return payload).
  { intros post_request. exists (mkHttpResponse 200 (Return payload)).
    split; [reflexivity |]. split; [simpl; lia | reflexivity]. }
  assert (Hscore : payload !! "score" = Some 150%Q) by apply lookup_singleton_eq.
  assert (Hfloat : Py.float_exact 150) by (split; unfold Qle; simpl; lia).
  assert (Hrange : LoanApplication.amount_in_range 5000)
    by (split; unfold Qle; simpl; lia).
  destruct (live_score_is_stored_as_received (H := Demo.lib) env request 5000
              (Demo.world empty_db) payload 150 (fun _ => eq_refl) eq_refl Hanswered
              Hscore Hfloat Hvalid eq_refl Hrange unique_email_empty)
    as (application & applicant & w' & Hrun & _ & Hstored & _ & _ & Hrejected).
  exists application, applicant, w'.
  split; [exact Hrun |]. split; [exact Hstored |].
  apply Hrejected. reflexivity.
Defined.

(** X14, witness: the risk service answers with an empty payload. *)
Lemma payload_without_score_witness :
  let env := mkEnv Demo.live_settings
               (Demo.always (Return (mkHttpResponse 200 (Return ∅)))) 0 no_faults in
  let request := mkCreateRequest (Some {[ "name" := "Ann Lee"; "email" := "new@x.com" ]})
                   (Some 5000%Q) in
  fst (dispatch (LoanApplicationViewSet.create (H := Demo.lib) env request)
         (Demo.world empty_db))
  = mkResponse ServerErrorBody HTTP_500_INTERNAL_SERVER_ERROR /\
  db (snd (dispatch (LoanApplicationViewSet.create (H := Demo.lib) env request)
             (Demo.world empty_db))) = empty_db.
Proof.
  intros env request.
  assert (Hvalid : required_fields_present request = true) by (vm_compute; reflexivity).
  assert (Hanswered : forall post_request, exists response,
             requests_post env post_request = Return response /\
             ~ 400 <= status_code response < 600 /\ json response = Return ∅).
  { intros post_request. exists (mkHttpResponse 200 (Return ∅)).
    split; [reflexivity |]. split; [simpl; lia | reflexivity]. }
  destruct (payload_without_score_fails_submission (H := Demo.lib) env request
              (Demo.world empty_db) ∅ (fun _ => eq_refl) eq_refl Hanswered
              (lookup_empty _) Hvalid unique_email_empty)
    as (Hanswer & Hdb & _).
  split; assumption.
Defined.

(** X19, witness: a first submission, then its review. *)
Lemma created_application_review_witness :
  let env := mkEnv Demo.mock_settings Demo.offline 0 no_faults in
  let request := mkCreateRequest (Some {[ "name" := "Ann Lee"; "email" := "new@x.com" ]})
                   (Some 5000%Q) in
  exists response application applicant score,
    fst (LoanApplicationViewSet.create (H := Demo.lib) env request (Demo.world empty_db))
    = Return response /\
    response_data response = ApplicationBody application applicant /\
    LoanApplication.risk_score (snd application) = Some score.
Proof.
  intros env request.
  assert (Hreturned : exists response,
             fst (LoanApplicationViewSet.create (H := Demo.lib) env request
                    (Demo.world empty_db)) = Return response /\
             response_status response = HTTP_201_CREATED)
    by (vm_compute; eexists; split; reflexivity).
  destruct Hreturned as (response & Hreturned & Hstatus).
  destruct (LoanApplicationViewSet.create (H := Demo.lib) env request (Demo.world empty_db))
    as [o w'] eqn:Hrun.
  simpl in Hreturned. subst o.
  destruct (created_application_review (H := Demo.lib) env request response
              (Demo.world empty_db) w' Demo.mock_settings Demo.offline 10 STATUS_APPROVED
              Hrun Hstatus)
    as (application & applicant & score & Hdata & Hscore & _).
  exists response, application, applicant, score. auto.
Defined.

(** X20, witness: one application of 5000. *)
Lemma average_amount_witness :
  let row := LoanApplication.mk 1 5000 (Some 50%Q) STATUS_MANUAL_REVIEW None 0 0 in
  exists average : Q,
    LoanApplicationViewSet.Avg_amount {[ 1 := row ]} = Some average /\
    (5000 <= average <= 5000)%Q.
Proof.
  intros row.
  assert (Hnonempty : applications (db (Demo.world (mkDB ∅ {[ 1 := row ]} 1 2))) <> ∅)
    by apply insert_non_empty.
  assert (Hbounds : forall k a,
             applications (db (Demo.world (mkDB ∅ {[ 1 := row ]} 1 2))) !! k = Some a ->
             (5000 <= LoanApplication.amount a <= 5000)%Q).
  { intros k a Hk. simpl in Hk. apply lookup_singleton_Some in Hk as [_ <-].
    simpl. split; apply Qle_refl. }
  destruct (average_amount_between_bounds (H := Demo.lib) Demo.mock_settings Demo.offline 0
              (Demo.world (mkDB ∅ {[ 1 := row ]} 1 2)) 5000 5000 Hnonempty Hbounds)
    as (average & fields & _ & _ & Havg & Hrange).
  exists average. split; assumption.
Defined.
